(** * RsMetaCheck: rule evaluation over harvested repository metadata

    A shallow embedding of the rule functions of
    [metacheck/scripts/pitfalls/p007.py], [p009.py] and
    [metacheck/scripts/warnings/w006.py], together with the Python
    operations they apply to loosely typed JSON values, and models of the
    components whose bodies are described by the specification and
    exercised by the test-suite (version normalisation, the version and
    repository comparisons, the accessibility prober and the batch
    percentage). *)

From Stdlib Require Import ZArith List String Ascii Bool Lia.
From Stdlib Require Import Floats.SpecFloat.
From Stdlib Require Permutation.
Import ListNotations.

Local Open Scope string_scope.
Local Open Scope Z_scope.

(** ** Python [str] operations

    A [str] is modelled as a Rocq [string] whose characters are the code
    points below 256 (Latin-1).  Character classes follow the Unicode
    database restricted to that range. *)
Module PyString.

Definition code (c : ascii) : Z := Z.of_N (N_of_ascii c).

Definition in_range (lo hi : Z) (c : ascii) : bool :=
  (lo <=? code c) && (code c <=? hi).

(** [str.isspace] on one character: TAB..CR, FS..US, SPACE, NEL, NBSP. *)
Definition is_space (c : ascii) : bool :=
  in_range 9 13 c || in_range 28 32 c || (code c =? 133) || (code c =? 160).

(** Upper-case letters of Latin-1: A-Z and the accented block without
    the multiplication sign. *)
Definition is_upper (c : ascii) : bool :=
  in_range 65 90 c || (in_range 192 222 c && negb (code c =? 215)).

Definition lower_char (c : ascii) : ascii :=
  if is_upper c then ascii_of_N (N_of_ascii c + 32) else c.

(** [str.lower()] *)
Fixpoint lower (s : string) : string :=
  match s with
  | EmptyString => EmptyString
  | String c s' => String (lower_char c) (lower s')
  end.

(** Letters (categories Lu, Ll, Lo) below 256. *)
Definition is_alpha_char (c : ascii) : bool :=
  in_range 65 90 c || in_range 97 122 c
  || (code c =? 170) || (code c =? 181) || (code c =? 186)
  || in_range 192 214 c || in_range 216 246 c || in_range 248 255 c.

Fixpoint all_chars (p : ascii -> bool) (s : string) : bool :=
  match s with
  | EmptyString => true
  | String c s' => p c && all_chars p s'
  end.

Definition is_empty (s : string) : bool :=
  match s with EmptyString => true | String _ _ => false end.

(** [str.isalpha()]: at least one character and all of them letters. *)
Definition isalpha (s : string) : bool :=
  negb (is_empty s) && all_chars is_alpha_char s.

(** [str.lstrip()] *)
Fixpoint lstrip (s : string) : string :=
  match s with
  | EmptyString => EmptyString
  | String c s' => if is_space c then lstrip s' else s
  end.

(** [str.rstrip()] *)
Fixpoint rstrip (s : string) : string :=
  match s with
  | EmptyString => EmptyString
  | String c s' =>
      let r := rstrip s' in
      if is_empty r && is_space c then EmptyString else String c r
  end.

(** [str.strip()] *)
Definition strip (s : string) : string := rstrip (lstrip s).

(** [needle in hay] for two strings: substring test. *)
Fixpoint contains (needle hay : string) : bool :=
  String.prefix needle hay
  || match hay with
     | EmptyString => false
     | String _ hay' => contains needle hay'
     end.

(** [s.startswith(p)] *)
Definition startswith (p s : string) : bool := String.prefix p s.

(** [s.endswith(p)] *)
Fixpoint endswith (p s : string) : bool :=
  String.eqb p s
  || match s with
     | EmptyString => false
     | String _ s' => endswith p s'
     end.

(** [s.replace(c, '')] for a one-character [c]. *)
Fixpoint remove_char (c : ascii) (s : string) : string :=
  match s with
  | EmptyString => EmptyString
  | String x s' =>
      if Ascii.eqb x c then remove_char c s' else String x (remove_char c s')
  end.

(** [c in s] for a one-character string [c]. *)
Fixpoint has_char (c : ascii) (s : string) : bool :=
  match s with
  | EmptyString => false
  | String x s' => Ascii.eqb x c || has_char c s'
  end.

(** [lit in [l1, ..., ln]] for a list of string literals. *)
Definition mem (s : string) (l : list string) : bool :=
  existsb (String.eqb s) l.

End PyString.

(** ** The regular expressions of [re.match(pattern, s, re.IGNORECASE)]

    Only the constructs that occur in the patterns of [w006.py] are
    present.  [re.match] anchors at the start of the string and asks for
    some prefix of it in the language of the pattern, which is what
    [matches] decides with derivatives. *)
Module Regex.
Import PyString.

Inductive re : Type :=
| Never
| Eps
| Lit (c : ascii)          (* a literal, compared ignoring case *)
| Digit                    (* \d *)
| Dot                      (* . : anything but a line feed *)
| Cat (r1 r2 : re)
| Alt (r1 r2 : re)
| Star (r : re).

Definition Plus (r : re) : re := Cat r (Star r).
Definition Opt (r : re) : re := Alt r Eps.

Fixpoint lits (s : string) : re :=
  match s with
  | EmptyString => Eps
  | String c s' => Cat (Lit c) (lits s')
  end.

Fixpoint nullable (r : re) : bool :=
  match r with
  | Never => false
  | Eps => true
  | Lit _ | Digit | Dot => false
  | Cat r1 r2 => nullable r1 && nullable r2
  | Alt r1 r2 => nullable r1 || nullable r2
  | Star _ => true
  end.

Definition is_digit (c : ascii) : bool := in_range 48 57 c.

Fixpoint deriv (c : ascii) (r : re) : re :=
  match r with
  | Never | Eps => Never
  | Lit x => if Ascii.eqb (lower_char x) (lower_char c) then Eps else Never
  | Digit => if is_digit c then Eps else Never
  | Dot => if code c =? 10 then Never else Eps
  | Cat r1 r2 =>
      if nullable r1
      then Alt (Cat (deriv c r1) r2) (deriv c r2)
      else Cat (deriv c r1) r2
  | Alt r1 r2 => Alt (deriv c r1) (deriv c r2)
  | Star r1 => Cat (deriv c r1) (Star r1)
  end.

(** [re.match(r, s, re.IGNORECASE) is not None] *)
Fixpoint matches (r : re) (s : string) : bool :=
  nullable r
  || match s with
     | EmptyString => false
     | String c s' => matches (deriv c r) s'
     end.

End Regex.

(** ** Python values and the operations the rules apply to them *)
Module Py.
Import PyString.

(** What [json.load] produces. Dictionaries keep insertion order. *)
#[warnings="-register-all"] Inductive pyval : Type :=
| PyNone
| PyBool (b : bool)
| PyInt (n : Z)
| PyFloat (x : spec_float)
| PyStr (s : string)
| PyList (xs : list pyval)
| PyDict (kvs : list (string * pyval)).

Definition dict : Type := list (string * pyval).

Inductive exn : Type := AttributeError | TypeError | KeyError.

(** The result of evaluating an expression: a value or a raised
    exception. *)
Inductive outcome (A : Type) : Type :=
| Ok (a : A)
| Raise (e : exn).
Arguments Ok {A} a.
Arguments Raise {A} e.

Definition obind {A B} (o : outcome A) (k : A -> outcome B) : outcome B :=
  match o with
  | Ok a => k a
  | Raise e => Raise e
  end.

Fixpoint dict_get (k : string) (d : dict) : option pyval :=
  match d with
  | [] => None
  | (k', v) :: d' => if String.eqb k k' then Some v else dict_get k d'
  end.

(** [k in d] *)
Definition dict_mem (k : string) (d : dict) : bool :=
  match dict_get k d with Some _ => true | None => false end.

(** [d[k] = v]: an existing key keeps its position. *)
Fixpoint dict_set (k : string) (v : pyval) (d : dict) : dict :=
  match d with
  | [] => [(k, v)]
  | (k', v') :: d' =>
      if String.eqb k k' then (k', v) :: d' else (k', v') :: dict_set k v d'
  end.

Definition keys (d : dict) : list string := map fst d.

(** [bool(v)] *)
Definition truthy (v : pyval) : bool :=
  match v with
  | PyNone => false
  | PyBool b => b
  | PyInt n => negb (n =? 0)
  | PyFloat (S754_zero _) => false
  | PyFloat _ => true
  | PyStr s => negb (is_empty s)
  | PyList xs => match xs with [] => false | _ => true end
  | PyDict kvs => match kvs with [] => false | _ => true end
  end.

(** [v == lit] for a string literal. *)
Definition eq_str (v : pyval) (lit : string) : bool :=
  match v with
  | PyStr s => String.eqb s lit
  | _ => false
  end.

(** [v in [l1, ..., ln]] for a list of string literals. *)
Definition in_literals (v : pyval) (l : list string) : bool :=
  existsb (eq_str v) l.

Definition isinstance_list (v : pyval) : bool :=
  match v with PyList _ => true | _ => false end.

Definition isinstance_str (v : pyval) : bool :=
  match v with PyStr _ => true | _ => false end.

Definition is_none (v : pyval) : bool :=
  match v with PyNone => true | _ => false end.

(** [lit in v]: substring of a str, element of a list, key of a dict;
    the other types are not containers. *)
Definition contains_lit (lit : string) (v : pyval) : outcome bool :=
  match v with
  | PyStr s => Ok (contains lit s)
  | PyList xs => Ok (existsb (fun x => eq_str x lit) xs)
  | PyDict kvs => Ok (dict_mem lit kvs)
  | _ => Raise TypeError
  end.

(** [v.get(k, default)]: only a dict has the method. *)
Definition get_method (v : pyval) (k : string) (default : pyval)
  : outcome pyval :=
  match v with
  | PyDict kvs =>
      Ok (match dict_get k kvs with Some x => x | None => default end)
  | _ => Raise AttributeError
  end.

(** [v[k]] for a string key. *)
Definition subscript (v : pyval) (k : string) : outcome pyval :=
  match v with
  | PyDict kvs =>
      match dict_get k kvs with Some x => Ok x | None => Raise KeyError end
  | _ => Raise TypeError
  end.

(** [v.lower()]: only a str has the method. *)
Definition lower_method (v : pyval) : outcome string :=
  match v with
  | PyStr s => Ok (lower s)
  | _ => Raise AttributeError
  end.

(** ["result" in entry and "value" in entry["result"]] *)
Definition has_result_value (entry : pyval) : outcome bool :=
  obind (contains_lit "result" entry) (fun b =>
  if b then obind (subscript entry "result") (contains_lit "value")
  else Ok false).

(** [entry["result"]["value"]] *)
Definition result_value (entry : pyval) : outcome pyval :=
  obind (subscript entry "result") (fun r => subscript r "value").

End Py.

(** ** The store of one rule evaluation

    Two dictionaries are live while a rule runs: the caller's record
    [somef_data] and the rule's own [result].  Item assignment can
    address either; the monad threads both and carries exceptions. *)
Module Eval.
Import Py.

Record store : Type := mkStore { somef_data : dict; result : dict }.

Inductive obj : Type := SomefData | Result.

Definition deref (o : obj) (h : store) : dict :=
  match o with SomefData => somef_data h | Result => result h end.

Definition update (o : obj) (d : dict) (h : store) : store :=
  match o with
  | SomefData => mkStore d (result h)
  | Result => mkStore (somef_data h) d
  end.

Definition M (A : Type) : Type := store -> outcome A * store.

Definition ret {A} (a : A) : M A := fun h => (Ok a, h).

Definition bind {A B} (m : M A) (k : A -> M B) : M B :=
  fun h =>
    match m h with
    | (Ok a, h') => k a h'
    | (Raise e, h') => (Raise e, h')
    end.

(** An expression without effect on the store. *)
Definition lift {A} (o : outcome A) : M A := fun h => (o, h).

(** The dictionary an object name denotes. *)
Definition load (o : obj) : M dict := fun h => (Ok (deref o h), h).

(** [o[k] = v] *)
Definition setitem (o : obj) (k : string) (v : pyval) : M unit :=
  fun h => (Ok tt, update o (dict_set k v (deref o h)) h).

(** [o[k]] *)
Definition getitem (o : obj) (k : string) : M pyval :=
  fun h =>
    match dict_get k (deref o h) with
    | Some v => (Ok v, h)
    | None => (Raise KeyError, h)
    end.

(** [result = {...}]: binds the local name to a fresh dictionary. *)
Definition new_result (d : dict) : M unit :=
  fun h => (Ok tt, update Result d h).

Inductive ctl : Type := Continue | Break.

(** [for x in xs: body], where [body] says whether it ran into [break]. *)
Fixpoint for_each {A} (xs : list A) (body : A -> M ctl) : M unit :=
  match xs with
  | [] => ret tt
  | x :: xs' =>
      bind (body x) (fun c =>
      match c with
      | Break => ret tt
      | Continue => for_each xs' body
      end)
  end.

(** The same loop threading the local variables [S] it assigns. *)
Fixpoint for_acc {A S} (xs : list A) (acc : S)
         (body : A -> S -> M (ctl * S)) : M S :=
  match xs with
  | [] => ret acc
  | x :: xs' =>
      bind (body x acc) (fun r =>
      match r with
      | (Break, acc') => ret acc'
      | (Continue, acc') => for_acc xs' acc' body
      end)
  end.

Definition when (b : bool) (m : M unit) : M unit :=
  if b then m else ret tt.

End Eval.

Declare Scope eval_scope.
Delimit Scope eval_scope with eval.
Notation "x <- m ;; k" := (Eval.bind m (fun x => k))
  (at level 61, m at next level, right associativity) : eval_scope.
Notation "m ;; k" := (Eval.bind m (fun _ => k))
  (at level 61, right associativity) : eval_scope.
Notation "'let?' x := o 'in' k" := (Py.obind o (fun x => k))
  (at level 10, x name, o at level 100, k at level 200).

Local Open Scope eval_scope.

(** ** [pitfalls/p007.py] *)
Module P007.
Import PyString Py Eval.

(** One pass of the loop over [somef_data["reference_publication"]]. *)
Definition scan_reference_publication (entry : pyval) : M ctl :=
  source <- lift (get_method entry "source" (PyStr "")) ;;
  technique <- lift (get_method entry "technique" (PyStr "")) ;;
  from_codemeta <- lift (if eq_str technique "code_parser"
                         then contains_lit "codemeta.json" source
                         else Ok false) ;;
  if from_codemeta then
    has_value <- lift (has_result_value entry) ;;
    when has_value (setitem Result "codemeta_has_reference" (PyBool true)) ;;
    ret Continue
  else
    from_citation <- lift (contains_lit "CITATION.cff" source) ;;
    if from_citation then
      has_value <- lift (has_result_value entry) ;;
      when has_value
           (setitem Result "citation_cff_has_reference" (PyBool true)) ;;
      ret Continue
    else ret Continue.

(** One pass of the inner loop over the entries of a category. *)
Definition scan_citation_entry (entry : pyval) : M ctl :=
  source <- lift (get_method entry "source" (PyStr "")) ;;
  from_citation <- lift (contains_lit "CITATION.cff" source) ;;
  if from_citation then
    setitem Result "citation_cff_exists" (PyBool true) ;;
    ret Break
  else ret Continue.

Definition citation_cff_sources : list string :=
  ["authors"; "title"; "description"; "version"; "license"].

(** One pass of the loop over [citation_cff_sources]. *)
Definition scan_category (category : string) : M ctl :=
  d <- load SomefData ;;
  match dict_get category d with
  | Some entries =>
      match entries with
      | PyList es => for_each es scan_citation_entry
      | _ => ret tt
      end
  | None => ret tt
  end ;;
  found <- getitem Result "citation_cff_exists" ;;
  if truthy found then ret Break else ret Continue.

Definition fields : list string :=
  ["has_pitfall"; "file_name"; "codemeta_has_reference";
   "citation_cff_has_reference"; "citation_cff_exists"].

Definition body (file_name : string) : M dict :=
  new_result [("has_pitfall", PyBool false);
              ("file_name", PyStr file_name);
              ("codemeta_has_reference", PyBool false);
              ("citation_cff_has_reference", PyBool false);
              ("citation_cff_exists", PyBool false)] ;;
  d <- load SomefData ;;
  match dict_get "reference_publication" d with
  | Some ref_pub_entries =>
      match ref_pub_entries with
      | PyList es => for_each es scan_reference_publication
      | _ => ret tt
      end
  | None => ret tt
  end ;;
  for_each citation_cff_sources scan_category ;;
  in_codemeta <- getitem Result "codemeta_has_reference" ;;
  (if truthy in_codemeta then
     exists_cff <- getitem Result "citation_cff_exists" ;;
     if truthy exists_cff then
       in_cff <- getitem Result "citation_cff_has_reference" ;;
       when (negb (truthy in_cff))
            (setitem Result "has_pitfall" (PyBool true))
     else ret tt
   else ret tt) ;;
  load Result.

End P007.

(** ** [pitfalls/p009.py] *)
Module P009.
Import PyString Py Eval.

Definition repo_indicators : list string :=
  ["github.com/"; "github.org/"; "gitlab.com/"; "gitlab.org/";
   "bitbucket.org/"; "bitbucket.net/"; "sourceforge.net/projects/";
   "git."; ".git"].

Definition homepage_indicators : list string :=
  [".org/"; ".com/"; ".net/"; ".io/"; "www."; "docs."; "documentation";
   "readthedocs"; "github.io"].

(** [for indicator in l: if indicator in s: return True] / [return False] *)
Definition any_indicator (l : list string) (s : string) : bool :=
  existsb (fun indicator => contains indicator s) l.

Definition is_repository_url (url : pyval) : outcome bool :=
  if negb (truthy url) then Ok false else
  let? url_lower := lower_method url in
  if contains "github.io" url_lower then Ok false else
  Ok (any_indicator repo_indicators url_lower).

Definition is_homepage_url_repo (url : pyval) : outcome bool :=
  if negb (truthy url) then Ok false else
  let? url_lower := lower_method url in
  let? is_repo := is_repository_url url in
  if is_repo then Ok false else
  Ok (any_indicator homepage_indicators url_lower).

Definition metadata_sources : list string :=
  ["codemeta.json"; "DESCRIPTION"; "composer.json"; "package.json";
   "pom.xml"; "pyproject.toml"; "requirements.txt"; "setup.py"].

Definition fields : list string :=
  ["has_pitfall"; "file_name"; "repository_url"; "source";
   "metadata_source_file"; "is_homepage"].

Section WithHelpers.

(** [metacheck.utils.pitfall_utils.extract_metadata_source_filename]
    is imported by the rule and replaced by a stub in its tests; the
    rule only stores what it returns. *)
Variable extract_metadata_source_filename : pyval -> outcome pyval.

(** The built-in [str()] an f-string applies to a value that is not
    already a [str]. *)
Variable format_value : pyval -> string.

(** [f"technique: {technique}"] *)
Definition technique_label (technique : pyval) : string :=
  "technique: " ++
  match technique with PyStr s => s | _ => format_value technique end.

(** [technique == "code_parser" or technique in metadata_sources or
    any(src in source.lower() for src in metadata_sources)], with
    the short circuit of [or]. *)
Definition is_metadata_source (technique source : pyval) : outcome bool :=
  if eq_str technique "code_parser" then Ok true else
  if in_literals technique metadata_sources then Ok true else
  let? source_lower := lower_method source in
  Ok (any_indicator metadata_sources source_lower).

(** One pass of the loop over [somef_data["code_repository"]]. *)
Definition scan_entry (entry : pyval) : M ctl :=
  technique <- lift (get_method entry "technique" (PyStr "")) ;;
  source <- lift (get_method entry "source" (PyStr "")) ;;
  from_metadata <- lift (is_metadata_source technique source) ;;
  if from_metadata then
    has_value <- lift (has_result_value entry) ;;
    if has_value then
      repo_url <- lift (result_value entry) ;;
      homepage <- lift (is_homepage_url_repo repo_url) ;;
      if homepage then
        setitem Result "has_pitfall" (PyBool true) ;;
        setitem Result "repository_url" repo_url ;;
        setitem Result "source"
                (if truthy source then source
                 else PyStr (technique_label technique)) ;;
        source_file <- lift (extract_metadata_source_filename source) ;;
        setitem Result "metadata_source_file" source_file ;;
        setitem Result "is_homepage" (PyBool true) ;;
        ret Break
      else ret Continue
    else ret Continue
  else ret Continue.

Definition body (file_name : string) : M dict :=
  new_result [("has_pitfall", PyBool false);
              ("file_name", PyStr file_name);
              ("repository_url", PyNone);
              ("source", PyNone);
              ("metadata_source_file", PyNone);
              ("is_homepage", PyBool false)] ;;
  d <- load SomefData ;;
  match dict_get "code_repository" d with
  | None => load Result
  | Some repo_entries =>
      match repo_entries with
      | PyList es => for_each es scan_entry ;; load Result
      | _ => load Result
      end
  end.

End WithHelpers.

End P009.

(** ** [warnings/w006.py] *)
Module W006.
Import PyString Regex Py Eval.

(** [r'^doi:10\.\d+/.+'] *)
Definition doi_prefixed : re :=
  Cat (lits "doi:10") (Cat (Lit ".") (Cat (Plus Digit)
      (Cat (Lit "/") (Plus Dot)))).

(** [r'^10\.\d+/.+'] *)
Definition doi_bare : re :=
  Cat (lits "10") (Cat (Lit ".") (Cat (Plus Digit)
      (Cat (Lit "/") (Plus Dot)))).

Definition doi_patterns : list re := [doi_prefixed; doi_bare].

(** [r'^https?://.+'] *)
Definition url_pattern : re :=
  Cat (lits "http") (Cat (Opt (Lit "s")) (Cat (lits "://") (Plus Dot))).

(** The body of [is_valid_identifier] once the argument is known to be
    a non-empty [str]. *)
Definition valid_identifier_text (text : string) : bool :=
  let identifier := strip text in
  if is_empty identifier then false else
  if existsb (fun pattern => matches pattern identifier) doi_patterns
  then true else
  if mem (lower identifier) ["doi:"; "10."] then false else
  if matches url_pattern identifier then true else
  if startswith "ftp://" (lower identifier) then false else
  if has_char " " identifier
     && negb (existsb (fun char => has_char char identifier)
                      ["/"; ":"; "."]%char)
  then false else
  if isalpha (remove_char "_" (remove_char "-" (remove_char " " identifier)))
  then false else
  true.

Definition is_valid_identifier (identifier : pyval) : bool :=
  if negb (truthy identifier) || negb (isinstance_str identifier)
  then false
  else match identifier with
       | PyStr text => valid_identifier_text text
       | _ => false
       end.

(** ["codemeta.json" in source.lower() or (technique == "code_parser"
    and "codemeta" in source.lower())] *)
Definition is_codemeta (source technique : pyval) : outcome bool :=
  let? source_lower := lower_method source in
  Ok (contains "codemeta.json" source_lower
      || (eq_str technique "code_parser"
          && contains "codemeta" source_lower)).

(** [has_doi_in_other_sources]; a [for] loop with [continue] and an
    early [return True]. *)
Fixpoint has_doi_in_other_sources (identifier_entries : list pyval)
  : outcome bool :=
  match identifier_entries with
  | [] => Ok false
  | entry :: rest =>
      let? source := get_method entry "source" (PyStr "") in
      let? source_lower := lower_method source in
      if contains "codemeta.json" source_lower
      then has_doi_in_other_sources rest else
      let? has_value := has_result_value entry in
      if has_value then
        let? identifier_value := result_value entry in
        match identifier_value with
        | PyStr text =>
            if existsb (fun pattern => matches pattern text) doi_patterns
            then Ok true
            else has_doi_in_other_sources rest
        | _ => has_doi_in_other_sources rest
        end
      else has_doi_in_other_sources rest
  end.

(** The locals assigned by the first loop: [codemeta_identifier] and
    [codemeta_source]. *)
Definition codemeta_vars : Type := (pyval * pyval)%type.

Definition find_codemeta (entry : pyval) (vars : codemeta_vars)
  : M (ctl * codemeta_vars) :=
  source <- lift (get_method entry "source" (PyStr "")) ;;
  technique <- lift (get_method entry "technique" (PyStr "")) ;;
  from_codemeta <- lift (is_codemeta source technique) ;;
  if from_codemeta then
    has_value <- lift (has_result_value entry) ;;
    if has_value then
      if is_none (fst vars) then
        value <- lift (result_value entry) ;;
        ret (Break, (value, source))
      else ret (Continue, vars)
    else ret (Continue, vars)
  else ret (Continue, vars).

(** The locals assigned by the second loop: [other_identifier],
    [other_source] and [other_identifiers]. *)
Record other_vars : Type := mkOther {
  other_identifier : pyval;
  other_source : pyval;
  other_identifiers : list pyval
}.

Definition collect_other (entry : pyval) (vars : other_vars)
  : M (ctl * other_vars) :=
  source <- lift (get_method entry "source" (PyStr "")) ;;
  technique <- lift (get_method entry "technique" (PyStr "")) ;;
  from_codemeta <- lift (is_codemeta source technique) ;;
  if from_codemeta then ret (Continue, vars) else
  has_value <- lift (has_result_value entry) ;;
  if has_value then
    identifier_value <- lift (result_value entry) ;;
    if is_valid_identifier identifier_value then
      let appended :=
        (other_identifiers vars ++
         [PyDict [("value", identifier_value); ("source", source)]])%list in
      if is_none (other_identifier vars)
      then ret (Continue, mkOther identifier_value source appended)
      else ret (Continue, mkOther (other_identifier vars)
                                  (other_source vars) appended)
    else ret (Continue, vars)
  else ret (Continue, vars).

(** What the second loop decides about one entry, apart from the locals:
    nothing to record, or the identifier and source to record. *)
Definition classify_other (entry : pyval)
  : outcome (option (pyval * pyval)) :=
  let? source := get_method entry "source" (PyStr "") in
  let? technique := get_method entry "technique" (PyStr "") in
  let? from_codemeta := is_codemeta source technique in
  if from_codemeta then Ok None else
  let? has_value := has_result_value entry in
  if has_value then
    let? identifier_value := result_value entry in
    if is_valid_identifier identifier_value
    then Ok (Some (identifier_value, source))
    else Ok None
  else Ok None.

(** The valid identifier, with its source, that an entry outside
    codemeta.json carries. *)
Definition contribution (entry : pyval) : option (pyval * pyval) :=
  match classify_other entry with
  | Ok (Some found) => Some found
  | _ => None
  end.

(** The contributions of the entries, in extraction order. *)
Fixpoint contributions (entries : list pyval) : list (pyval * pyval) :=
  match entries with
  | [] => []
  | entry :: rest =>
      match contribution entry with
      | Some found => found :: contributions rest
      | None => contributions rest
      end
  end.

(** [{"value": identifier_value, "source": source}] *)
Definition other_record (found : pyval * pyval) : pyval :=
  PyDict [("value", fst found); ("source", snd found)].

(** Recording one contribution in the locals of the second loop. *)
Definition push (found : pyval * pyval) (vars : other_vars) : other_vars :=
  if is_none (other_identifier vars)
  then mkOther (fst found) (snd found)
               (other_identifiers vars ++ [other_record found])%list
  else mkOther (other_identifier vars) (other_source vars)
               (other_identifiers vars ++ [other_record found])%list.

(** The locals after the contributions [found] have been recorded. *)
Definition record_all (found : list (pyval * pyval)) (vars : other_vars)
  : other_vars :=
  fold_left (fun vs f => push f vs) found vars.

(** [identifier] is the contribution of the first entry that has one,
    or [None] when no entry has one. *)
Definition first_valid_other (entries : list pyval) (identifier : pyval)
  : Prop :=
  (identifier = PyNone /\ forall e, In e entries -> contribution e = None)
  \/ (exists pre e post source,
        entries = (pre ++ e :: post)%list
        /\ (forall e', In e' pre -> contribution e' = None)
        /\ contribution e = Some (identifier, source)).

(** The entries the rule iterates over. *)
Definition identifier_entries (somef_data : dict) : list pyval :=
  match dict_get "identifier" somef_data with
  | Some (PyList es) => es
  | _ => []
  end.

Definition fields : list string :=
  ["has_warning"; "file_name"; "codemeta_identifier"; "other_identifier";
   "codemeta_source"; "other_source"; "has_valid_identifier_elsewhere";
   "other_identifiers"].

Definition body (file_name : string) : M dict :=
  new_result [("has_warning", PyBool false);
              ("file_name", PyStr file_name);
              ("codemeta_identifier", PyNone);
              ("other_identifier", PyNone);
              ("codemeta_source", PyNone);
              ("other_source", PyNone);
              ("has_valid_identifier_elsewhere", PyBool false);
              ("other_identifiers", PyList [])] ;;
  d <- load SomefData ;;
  match dict_get "identifier" d with
  | None => load Result
  | Some identifier_entries =>
      match identifier_entries with
      | PyList es =>
          cm <- for_acc es (PyNone, PyNone) find_codemeta ;;
          ot <- for_acc es (mkOther PyNone PyNone []) collect_other ;;
          setitem Result "codemeta_identifier" (fst cm) ;;
          setitem Result "codemeta_source" (snd cm) ;;
          setitem Result "other_identifier" (other_identifier ot) ;;
          setitem Result "other_source" (other_source ot) ;;
          setitem Result "other_identifiers"
                  (PyList (other_identifiers ot)) ;;
          setitem Result "has_valid_identifier_elsewhere"
                  (PyBool (0 <? Z.of_nat (List.length (other_identifiers ot)))) ;;
          when (truthy (fst cm)
                && negb (is_valid_identifier (fst cm))
                && truthy (other_identifier ot))
               (setitem Result "has_warning" (PyBool true)) ;;
          load Result
      | _ => load Result
      end
  end.

End W006.

(** ** The rule functions as their callers see them

    A call runs the body on a store holding the caller's record; the
    caller receives the returned dictionary or the exception. *)
Module Rules.
Import Py Eval.

Definition call {A} (m : M A) (somef_data : dict) : outcome A :=
  fst (m (mkStore somef_data [])).

Definition detect_citation_missing_reference_publication_pitfall
           (somef_data : dict) (file_name : string) : outcome dict :=
  call (P007.body file_name) somef_data.

Definition detect_coderepository_homepage_pitfall
           (extract_metadata_source_filename : pyval -> outcome pyval)
           (format_value : pyval -> string)
           (somef_data : dict) (file_name : string) : outcome dict :=
  call (P009.body extract_metadata_source_filename format_value file_name)
       somef_data.

Definition detect_identifier_name_warning
           (somef_data : dict) (file_name : string) : outcome dict :=
  call (W006.body file_name) somef_data.

(** [finding[k]] read as a flag; a missing key reads as [false]. *)
Definition flag (k : string) (finding : dict) : bool :=
  match dict_get k finding with
  | Some v => truthy v
  | None => false
  end.

End Rules.


(** ** Version normalisation and the version-mismatch rule

    [pitfalls/p012.py] and [pitfalls/p001.py] are exercised by
    [tests/test_p012.py] and [tests/test_p001.py]; their bodies are
    modelled here. *)
Module Versions.
Import PyString Py.

(** What normalisation removes in front of a version: whitespace and
    the letters [v] and [V]. *)
Definition is_lead (c : ascii) : bool :=
  is_space c || Ascii.eqb c "v" || Ascii.eqb c "V".

Fixpoint drop_lead (s : string) : string :=
match s with
| EmptyString => EmptyString
| String c s' => if is_lead c then drop_lead s' else s
end.

(** Modelled from the spec: the body of [normalize_version]
    ([pitfalls/p012.py]) is missing.  Section 4.2 asks for a
    normalisation that trims whitespace, strips a leading [v]/[V] and
    is idempotent, so its result carries neither: whitespace is removed
    behind, and whitespace and [v]/[V] in front until neither is left.
    A missing argument gives [None] (rows [("", None)] and
    [(None, None)] of [TestNormalizeVersion]), and so does a text with
    nothing else in it. *)
Definition normalize_version (version : option string) : option string :=
match version with
| None => None
| Some s =>
    let r := drop_lead (rstrip s) in
    if is_empty r then None else Some r
end.

(** The structured-metadata file names shared by the rules. *)
Definition config_files : list string :=
["codemeta.json"; "DESCRIPTION"; "composer.json"; "package.json";
 "pom.xml"; "pyproject.toml"; "requirements.txt"; "setup.py"].

(** Modelled from the spec: the Provenance Resolver's [find] of
    section 4.1, missing from the sources: the first entry of the
    attribute, in extraction order, that satisfies the predicate; nothing
    when the attribute is absent or not a list. *)
Definition find_entry (record : dict) (attribute : string)
           (predicate : pyval -> bool) : option pyval :=
match dict_get attribute record with
| Some (PyList entries) => List.find predicate entries
| _ => None
end.

Definition field_text (v : pyval) (k : string) : option string :=
match v with
| PyDict kvs =>
    match dict_get k kvs with Some (PyStr s) => Some s | _ => None end
| _ => None
end.

Definition field (v : pyval) (k : string) : option pyval :=
match v with
| PyDict kvs => dict_get k kvs
| _ => None
end.

(** The text under [k] in [result]. *)
Definition result_text (entry : pyval) (k : string) : option string :=
match field entry "result" with
| Some r => field_text r k
| None => None
end.

(** The text under [k] in an entry: at the top level or, failing that,
    nested in [result]. *)
Definition entry_text (entry : pyval) (k : string) : option string :=
match field_text entry k with
| Some s => Some s
| None => result_text entry k
end.

Definition entry_source (entry : pyval) : option string :=
entry_text entry "source".

Definition entry_value (entry : pyval) : option string :=
result_text entry "value".

(** Case-insensitive substring match of a recognised file name. *)
Definition names_config_file (source : string) : bool :=
existsb (fun name => contains (lower name) (lower source)) config_files.

Definition from_structured_metadata (entry : pyval) : bool :=
match entry_source entry, entry_value entry with
| Some source, Some _ => names_config_file source
| _, _ => false
end.

(** Modelled from the spec: [extract_version_from_metadata], missing
    from the sources: the source and value of the first version entry
    that comes from a structured-metadata file. *)
Definition extract_version_from_metadata (record : dict)
  : option (string * string) :=
match find_entry record "version" from_structured_metadata with
| Some entry =>
    match entry_source entry, entry_value entry with
    | Some source, Some version => Some (source, version)
    | _, _ => None
    end
| None => None
end.

(** The tag of a release entry, at the top level or nested in [result]. *)
Definition release_tag (entry : pyval) : option string :=
entry_text entry "tag".

Definition has_tag (entry : pyval) : bool :=
match release_tag entry with Some _ => true | None => false end.

(** Modelled from the spec: [extract_latest_release_version], missing
    from the sources: the tag of the first release that carries one. *)
Definition extract_latest_release_version (record : dict) : option string :=
match find_entry record "releases" has_tag with
| Some entry => release_tag entry
| None => None
end.

Record version_finding : Type := mkVersionFinding {
  has_pitfall : bool;
  file_name : string;
  metadata_version : option string;
  release_version : option string;
  metadata_source : option string
}.

Definition nonempty (s : string) : bool := negb (is_empty s).

(** Both texts present and non-empty, and not equal. *)
Definition versions_differ (a b : option string) : bool :=
match a, b with
| Some x, Some y => nonempty x && nonempty y && negb (String.eqb x y)
| _, _ => false
end.

(** Modelled from the spec: [detect_version_mismatch], missing from the
    sources: both values resolved, normalised and compared as strings. *)
Definition detect_version_mismatch (record : dict) (name : string)
  : version_finding :=
match extract_version_from_metadata record,
      extract_latest_release_version record with
| Some (source, version), Some tag =>
    let m := normalize_version (Some version) in
    let r := normalize_version (Some tag) in
    mkVersionFinding (versions_differ m r) name m r
                     (if versions_differ m r then Some source else None)
| _, _ => mkVersionFinding false name None None None
end.

End Versions.

(** ** The divergent-repository rule

    [pitfalls/p016.py] is exercised by [tests/test_p016.py]; its body is
    modelled here. *)
Module P016.
Import PyString Py Versions.

(** [s] without the prefix [p], when it has it. *)
Definition drop_prefix (p s : string) : string :=
if String.prefix p s
then substring (String.length p) (String.length s - String.length p) s
else s.

(** [s] without the suffix [p], when it has it. *)
Definition drop_suffix (p s : string) : string :=
if endswith p s && Nat.leb (String.length p) (String.length s)
then substring 0 (String.length s - String.length p) s
else s.

(** The first [:] becomes [/]. *)
Fixpoint colon_to_slash (s : string) : string :=
match s with
| EmptyString => EmptyString
| String c s' => if Ascii.eqb c ":" then String "/" s'
                 else String c (colon_to_slash s')
end.

(** [git@host:path] becomes [https://host/path]. *)
Definition ssh_to_https (s : string) : string :=
if String.prefix "git@" s
then "https://" ++ colon_to_slash (drop_prefix "git@" s)
else s.

(** Modelled from the spec: the body of [normalize_repository_url] is
    missing.  Lower case, without the [git+] prefix, the SSH form
    rewritten to HTTPS, then without a trailing slash and a [.git]
    suffix; [None] and the empty text give the empty text
    ([TestNormalizeRepositoryUrl]). *)
Definition normalize_repository_url (url : option string) : string :=
match url with
| None => EmptyString
| Some u =>
    drop_suffix ".git"
      (drop_suffix "/" (ssh_to_https (drop_prefix "git+" (lower u))))
end.

Definition from_api (entry : pyval) : bool :=
match field_text entry "technique", entry_value entry with
| Some t, Some _ => String.eqb t "GitHub_API"
| _, _ => false
end.

(** Only the canonical descriptor counts as the metadata side
    ([test_non_codemeta_metadata_ignored]). *)
Definition from_codemeta (entry : pyval) : bool :=
match field_text entry "source", entry_value entry with
| Some s, Some _ => contains "codemeta.json" (lower s)
| _, _ => false
end.

Definition entries_of (record : dict) (attribute : string) : list pyval :=
match dict_get attribute record with
| Some (PyList entries) => entries
| _ => []
end.

(** Modelled from the spec: the API side of the comparison, missing from
    the sources: the repository URL reported by the API, if any. *)
Definition api_url (record : dict) : option string :=
match find_entry record "code_repository" from_api with
| Some entry => entry_value entry
| None => None
end.

Fixpoint values_of (entries : list pyval) : list string :=
match entries with
| [] => []
| e :: rest =>
    match entry_value e with
    | Some u => u :: values_of rest
    | None => values_of rest
    end
end.

(** The repository URLs of the entries that [side] accepts, in
    extraction order. *)
Definition urls_from (side : pyval -> bool) (record : dict) : list string :=
values_of (filter side (entries_of record "code_repository")).

(** Modelled from the spec: the metadata side of the comparison,
    missing from the sources: every repository URL given by the
    canonical descriptor, in extraction order. *)
Definition metadata_urls (record : dict) : list string :=
urls_from from_codemeta record.

Definition diverges (api u : string) : bool :=
negb (String.eqb (normalize_repository_url (Some u))
                 (normalize_repository_url (Some api))).

Record repository_finding : Type := mkRepositoryFinding {
  has_pitfall : bool;
  file_name : string;
  github_api_url : option string;
  different_urls : list string
}.

(** Every URL of [urls] is compared with the API URL and all that
    differ are kept. *)
Definition compare_with_api (api : option string) (urls : list string)
           (name : string) : repository_finding :=
match api with
| Some api =>
    let different := filter (diverges api) urls in
    match different with
    | [] => mkRepositoryFinding false name None []
    | _ :: _ => mkRepositoryFinding true name (Some api) different
    end
| None => mkRepositoryFinding false name None []
end.

(** Modelled from the spec: [detect_different_repository_pitfall],
    missing from the sources: the URLs of the canonical descriptor are
    compared with the API URL and all that differ are kept. *)
Definition detect_different_repository_pitfall
           (record : dict) (name : string) : repository_finding :=
compare_with_api (api_url record) (metadata_urls record) name.

(** The rule as the specification words it, with every
    structured-metadata file on the metadata side. *)
Definition detect_as_worded (record : dict) (name : string)
  : repository_finding :=
compare_with_api (api_url record)
                 (urls_from from_structured_metadata record) name.

End P016.

(** ** The accessibility prober

    [check_url_status] ([pitfalls/p008.py]) and [check_ci_url_status]
    ([pitfalls/p015.py]) are exercised by [tests/test_p008.py] and
    [tests/test_p015.py]; their bodies are modelled here. *)
Module Prober.
Import PyString.

(** The text before the first [://] and the text after it. *)
Fixpoint split_scheme (s : string) : option (string * string) :=
if String.prefix "://" s
then Some (EmptyString, substring 3 (String.length s - 3) s)
else match s with
     | EmptyString => None
     | String c s' =>
         match split_scheme s' with
         | Some (scheme, rest) => Some (String c scheme, rest)
         | None => None
         end
     end.

(** The host-like component: up to the first [/], [?] or [#]. *)
Fixpoint host_part (s : string) : string :=
match s with
| EmptyString => EmptyString
| String c s' =>
    if Ascii.eqb c "/" || Ascii.eqb c "?" || Ascii.eqb c "#"
    then EmptyString
    else String c (host_part s')
end.

(** Modelled from the spec: [is_valid_url_format], missing from the
    sources: a scheme and a non-empty host-like component. *)
Definition is_valid_url_format (url : string) : bool :=
match split_scheme url with
| Some (scheme, rest) => negb (is_empty scheme) && negb (is_empty (host_part rest))
| None => false
end.

(** What one request gives back: a response with its status code, or a
    failure below HTTP (timeout, refused connection, name resolution)
    with its message. *)
Inductive reply : Type :=
| Status (code : Z)
| Failure (message : string).

Record probe_result : Type := mkProbe {
  is_accessible : bool;
  status_code : option Z;
  error : option string
}.

(** Modelled from the spec: the classification of section 4.3, missing
    from the sources: 2xx and 3xx are reachable, nothing else is. *)
Definition accessible (code : Z) : bool :=
(200 <=? code) && (code <? 400).

(** The same classification without status 300, which
    [TestCheckCiUrlStatus.test_various_status_codes] wants reported as
    not reachable. *)
Definition accessible_ci (code : Z) : bool :=
accessible code && negb (code =? 300).

Section Network.

(** [requests.get], as the tests patch it. *)
Variable get : string -> reply.

(** Modelled from the spec: the probe of section 4.3, missing from the
    sources; [classify] is the table of status codes.  The second
    component lists the requests that were sent. *)
Definition probe (classify : Z -> bool) (url : string)
  : probe_result * list string :=
if negb (is_valid_url_format url)
then (mkProbe false None (Some "Invalid URL format"), [])
else match get url with
     | Status code => (mkProbe (classify code) (Some code) None, [url])
     | Failure message => (mkProbe false None (Some message), [url])
     end.

(** Modelled from the spec: [check_url_status], missing from the
    sources. *)
Definition check_url_status (url : string) : probe_result :=
fst (probe accessible url).

(** Modelled from the spec: [check_ci_url_status], missing from the
    sources; its test decides status 300. *)
Definition check_ci_url_status (url : string) : probe_result :=
fst (probe accessible_ci url).


End Network.

End Prober.

(** ** The tests of the rules whose code is missing

    The parametrised rows and the assertions of the repository's tests,
    as functions of the function under test. *)
Module Suite.
Import PyString Py.

(** [TestCheckCiUrlStatus.test_various_status_codes] of
    [tests/test_p015.py]: the rows. *)
Definition status_rows : list (Z * bool) :=
[(200, true); (201, true); (204, true); (299, true); (300, false);
 (301, true); (302, true); (400, false); (401, false); (403, false);
 (404, false); (500, false); (503, false)].

(** The body of that test on one row: [requests.get] is patched to
    return a response with the row's status code. *)
Definition test_various_status_codes
           (check_ci_url_status :
              (string -> Prober.reply) -> string -> Prober.probe_result)
           (row : Z * bool) : bool :=
let result := check_ci_url_status (fun _ => Prober.Status (fst row))
                                  "https://example.com" in
Bool.eqb (Prober.is_accessible result) (snd row)
&& match Prober.status_code result with
   | Some code => code =? fst row
   | None => false
   end.

(** The status-code tests of [TestCheckUrlStatus] in
    [tests/test_p008.py], as rows. *)
Definition url_status_rows : list (Z * bool) :=
[(200, true); (301, true); (404, false); (500, false)].

(** [TestNormalizeVersion.test_normalize_version_scenarios] and
    [test_case_insensitivity] of [tests/test_p012.py]. *)
Definition version_rows : list (option string * option string) :=
[(Some "v1.2.3", Some "1.2.3"); (Some "V2.0.0", Some "2.0.0");
 (Some "v3.8.0", Some "3.8.0"); (Some "1.2.3", Some "1.2.3");
 (Some "2.0.0", Some "2.0.0"); (Some "3.8.0", Some "3.8.0");
 (Some "  v1.2.3  ", Some "1.2.3"); (Some "  2.0.0  ", Some "2.0.0");
 (Some "", None); (None, None);
 (Some "v1.0.0-beta", Some "1.0.0-beta");
 (Some "2.3.4.post5", Some "2.3.4.post5");
 (Some "V1.2.3", Some "1.2.3")].

Definition same_text (a b : option string) : bool :=
match a, b with
| Some x, Some y => String.eqb x y
| None, None => true
| _, _ => false
end.

Definition test_normalize_version
           (normalize_version : option string -> option string)
           (row : option string * option string) : bool :=
same_text (normalize_version (fst row)) (snd row).

(** [TestNormalizeRepositoryUrl.test_url_normalization] of
    [tests/test_p016.py]. *)
Definition url_rows : list (option string * string) :=
[(Some "https://github.com/user/repo", "https://github.com/user/repo");
 (Some "https://github.com/user/repo.git", "https://github.com/user/repo");
 (Some "https://github.com/user/repo/", "https://github.com/user/repo");
 (Some "https://github.com/user/repo.git/", "https://github.com/user/repo");
 (Some "git+https://github.com/user/repo", "https://github.com/user/repo");
 (Some "git+https://github.com/user/repo.git",
  "https://github.com/user/repo");
 (Some "git@github.com:user/repo", "https://github.com/user/repo");
 (Some "git@github.com:user/repo.git", "https://github.com/user/repo");
 (Some "git@gitlab.com:user/repo", "https://gitlab.com/user/repo");
 (Some "HTTPS://GITHUB.COM/USER/REPO", "https://github.com/user/repo");
 (Some "Git@GitHub.com:User/Repo", "https://github.com/user/repo");
 (Some "", ""); (None, "");
 (Some "http://github.com/user/repo", "http://github.com/user/repo");
 (Some "https://github.com/user/repo", "https://github.com/user/repo")].

Definition test_url_normalization
           (normalize_repository_url : option string -> string)
           (row : option string * string) : bool :=
String.eqb (normalize_repository_url (fst row)) (snd row).

Definition repository_entry (source technique url : string) : pyval :=
PyDict [("source", PyStr source); ("technique", PyStr technique);
        ("result", PyDict [("value", PyStr url)])].

(** The record of [test_non_codemeta_metadata_ignored]. *)
Definition package_json_record : dict :=
[("code_repository",
  PyList [repository_entry "GitHub_API" "GitHub_API"
                           "https://github.com/user/repo1";
          repository_entry "repository/package.json" "code_parser"
                           "https://github.com/user/repo2"])].

(** [test_non_codemeta_metadata_ignored] of [tests/test_p016.py]. *)
Definition test_non_codemeta_metadata_ignored
           (detect_different_repository_pitfall :
              dict -> string -> P016.repository_finding) : bool :=
negb (P016.has_pitfall
        (detect_different_repository_pitfall package_json_record
                                             "test.json")).

(** The rows [Different repositories] and [Multiple metadata sources
    with different URLs] of
    [test_detect_different_repository_scenarios]. *)
Definition two_url_record : dict :=
[("code_repository",
  PyList [repository_entry "GitHub_API" "GitHub_API"
                           "https://github.com/user/repo1";
          repository_entry "repository/codemeta.json" "code_parser"
                           "https://github.com/user/repo2"])].

Definition three_url_record : dict :=
[("code_repository",
  PyList [repository_entry "GitHub_API" "GitHub_API"
                           "https://github.com/user/repo1";
          repository_entry "repository/codemeta.json" "code_parser"
                           "https://github.com/user/repo2";
          repository_entry "repository/codemeta.json" "code_parser"
                           "https://github.com/user/repo3"])].

(** The row [Matching after normalization] of the same test. *)
Definition git_suffix_record : dict :=
[("code_repository",
  PyList [repository_entry "GitHub_API" "GitHub_API"
                           "https://github.com/user/repo";
          repository_entry "repository/codemeta.json" "code_parser"
                           "https://github.com/user/repo.git"])].

(** The row [Version mismatch detected] of
    [TestDetectVersionMismatch.test_detect_mismatch_scenarios] in
    [tests/test_p001.py]. *)
Definition mismatch_record : dict :=
[("version",
  PyList [PyDict [("source", PyStr "repo/package.json");
                  ("result", PyDict [("value", PyStr "1.2.3")])]]);
 ("releases", PyList [PyDict [("tag", PyStr "v2.0.0")]])].

(** The rows [No metadata version] and [No release version]. *)
Definition release_only_record : dict :=
[("releases", PyList [PyDict [("tag", PyStr "v1.0.0")]])].

Definition version_only_record : dict :=
[("version",
  PyList [PyDict [("source", PyStr "repo/codemeta.json");
                  ("result", PyDict [("value", PyStr "1.0.0")])]])].

(** The row [No version mismatch - versions match]. *)
Definition matching_record : dict :=
[("version",
  PyList [PyDict [("source", PyStr "repo/codemeta.json");
                  ("result", PyDict [("value", PyStr "v1.0.0")])]]);
 ("releases", PyList [PyDict [("tag", PyStr "v1.0.0")]])].

End Suite.

(** ** The words of the claims on the rules whose code is missing

    What the claims say, stated on the record itself and without the
    functions of the models above. *)
Module Wording.
Import PyString Py.

(** [v] is a dictionary that holds the text [s] under [k]. *)
Definition holds_text (v : pyval) (k s : string) : Prop :=
exists kvs, v = PyDict kvs /\ dict_get k kvs = Some (PyStr s).

(** The [result] of the entry holds the text [s] under [k]. *)
Definition nested_text (entry : pyval) (k s : string) : Prop :=
exists kvs r,
  entry = PyDict kvs /\ dict_get "result" kvs = Some r /\ holds_text r k s.

(** The entry gives the text [s] for [k]: at the top level or, when
    there is no text there, in [result]. *)
Definition gives_text (entry : pyval) (k s : string) : Prop :=
holds_text entry k s
\/ ((forall s', ~ holds_text entry k s') /\ nested_text entry k s).

(** The source names a structured-metadata file: it contains one of
    the recognised file names, letter case aside. *)
Definition structured (source : string) : Prop :=
exists name,
  In name ["codemeta.json"; "DESCRIPTION"; "composer.json"; "package.json";
           "pom.xml"; "pyproject.toml"; "requirements.txt"; "setup.py"]
  /\ contains (lower name) (lower source) = true.

(** The entry is the first of the attribute, in extraction order, that
    satisfies [P]. *)
Definition first_of (P : pyval -> Prop) (record : dict) (attribute : string)
           (entry : pyval) : Prop :=
exists before after,
  dict_get attribute record = Some (PyList (before ++ entry :: after)%list)
  /\ P entry /\ forall e, In e before -> ~ P e.

(** The entry gives the version [version] and comes from the
    structured-metadata file [source]. *)
Definition version_from (source version : string) (entry : pyval) : Prop :=
gives_text entry "source" source /\ structured source
/\ nested_text entry "value" version.

Definition versioned (entry : pyval) : Prop :=
exists source version, version_from source version entry.

(** The release entry carries the tag [tag]. *)
Definition tagged (tag : string) (entry : pyval) : Prop :=
gives_text entry "tag" tag.

Definition released (entry : pyval) : Prop := exists tag, tagged tag entry.

(** [r] is [s] without surrounding whitespace and without [v]/[V] in
    front: only whitespace and [v]/[V] were removed in front of it and
    only whitespace behind it, and it has neither left. *)
Definition normalised (s r : string) : Prop :=
(exists lead trail,
   s = (lead ++ r ++ trail)%string
   /\ all_chars (fun c => is_space c || Ascii.eqb c "v" || Ascii.eqb c "V")
                lead = true
   /\ all_chars is_space trail = true)
/\ strip r = r /\ r <> EmptyString
/\ forall t, r <> String "v" t /\ r <> String "V" t.

(** The entry is the answer of the API with repository URL [url]. *)
Definition api_answer (url : string) (entry : pyval) : Prop :=
holds_text entry "technique" "GitHub_API" /\ nested_text entry "value" url.

Definition answered (entry : pyval) : Prop :=
exists url, api_answer url entry.

(** The entry gives the repository URL [url] and comes from the
    canonical descriptor. *)
Definition descriptor_url (url : string) (entry : pyval) : Prop :=
exists source,
  holds_text entry "source" source
  /\ contains "codemeta.json" (lower source) = true
  /\ nested_text entry "value" url.

(** Some entry of the attribute satisfies [P]. *)
Definition some_of (P : pyval -> Prop) (record : dict) (attribute : string)
  : Prop :=
exists entries entry,
  dict_get attribute record = Some (PyList entries)
  /\ In entry entries /\ P entry.

End Wording.

(** ** Batch aggregation

    The aggregation of [metacheck.run_analyzer] is called from [cli.py];
    its body is modelled here, with exact arithmetic in place of
    floating point. *)
Module Batch.

(** The nearest integer to [num / den], ties to even, as [round] does. *)
Definition round_half_even (num den : Z) : Z :=
let q := num / den in
let r := num mod den in
if 2 * r <? den then q
else if den <? 2 * r then q + 1
else if Z.even q then q else q + 1.

(** Modelled from the spec: [count / total * 100] rounded to two
    decimals, missing from the sources; the value is kept in hundredths
    of a percent. *)
Definition percentage_hundredths (count total : Z) : Z :=
round_half_even (count * 10000) total.

(** One repository's findings: check id and whether it triggered. *)
Definition repo_findings : Type := list (string * bool).

Definition triggered (check_id : string) (r : repo_findings) : bool :=
existsb (fun f => String.eqb (fst f) check_id && snd f) r.

Definition count_triggered (check_id : string) (rs : list repo_findings) : Z :=
Z.of_nat (List.length (filter (triggered check_id) rs)).

Definition total_repos (rs : list repo_findings) : Z :=
Z.of_nat (List.length rs).

Record aggregate_entry : Type := mkAggregate {
  count : Z;
  total : Z;
  percentage : Z   (* in hundredths: 3333 is 33.33 *)
}.

(** Modelled from the spec: the aggregate entry of one check id, missing
    from the sources: [count / total * 100] rounded to two decimals. *)
Definition aggregate (check_id : string) (rs : list repo_findings)
  : aggregate_entry :=
mkAggregate (count_triggered check_id rs) (total_repos rs)
            (percentage_hundredths (count_triggered check_id rs)
                                   (total_repos rs)).

End Batch.

(** ** The rule catalog and the shape of the records it accepts *)
Module Catalog.
Import PyString Py Eval.

Inductive rule : Type := P007_citation | P009_homepage | W006_identifier.

Definition documented_fields (r : rule) : list string :=
match r with
| P007_citation => P007.fields
| P009_homepage => P009.fields
| W006_identifier => W006.fields
end.

(** The flag of the finding that reports the issue. *)
Definition issue_field (r : rule) : string :=
match r with
| P007_citation | P009_homepage => "has_pitfall"
| W006_identifier => "has_warning"
end.

(** The attribute whose entries are the evidence of the rule. *)
Definition evidence_attribute (r : rule) : string :=
match r with
| P007_citation => "reference_publication"
| P009_homepage => "code_repository"
| W006_identifier => "identifier"
end.

Section WithHelpers.

Variable extract_metadata_source_filename : pyval -> outcome pyval.
Variable format_value : pyval -> string.

Definition body (r : rule) (file_name : string) : M dict :=
match r with
| P007_citation => P007.body file_name
| P009_homepage =>
    P009.body extract_metadata_source_filename format_value file_name
| W006_identifier => W006.body file_name
end.

(** The rule interface: [evaluate(record, file_name)]. *)
Definition evaluate (r : rule) (somef_data : dict) (file_name : string)
  : outcome dict :=
Rules.call (body r file_name) somef_data.

End WithHelpers.

Definition text_or_absent (kvs : dict) (k : string) : bool :=
match dict_get k kvs with
| None | Some (PyStr _) => true
| Some _ => false
end.

Definition dict_or_absent (kvs : dict) (k : string) : bool :=
match dict_get k kvs with
| None | Some (PyDict _) => true
| Some _ => false
end.

(** An extraction entry as section 3 of the specification describes it:
    a dictionary whose [source], if any, is a string and whose [result],
    if any, is a dictionary. *)
Definition entry_ok (entry : pyval) : bool :=
match entry with
| PyDict kvs => text_or_absent kvs "source" && dict_or_absent kvs "result"
| _ => false
end.

(** The value of the entry, if any, is a string or is falsy. *)
Definition value_ok (entry : pyval) : bool :=
match entry with
| PyDict kvs =>
    match dict_get "result" kvs with
    | Some (PyDict r) =>
        match dict_get "value" r with
        | Some v => isinstance_str v || negb (truthy v)
        | None => true
        end
    | _ => true
    end
| _ => true
end.

(** Every entry of the attribute, when it is a list, satisfies [p]. *)
Definition attribute_ok (p : pyval -> bool) (d : dict) (attribute : string)
  : bool :=
match dict_get attribute d with
| Some (PyList entries) => forallb p entries
| _ => true
end.

(** The attributes a rule reads hold well-shaped entries. *)
Definition record_ok (r : rule) (d : dict) : bool :=
match r with
| P007_citation =>
    forallb (attribute_ok entry_ok d)
            ("reference_publication" :: P007.citation_cff_sources)
| P009_homepage =>
    attribute_ok (fun e => entry_ok e && value_ok e) d "code_repository"
| W006_identifier => attribute_ok entry_ok d "identifier"
end.

(** The entry has no [result] that holds a [value]. *)
Definition lacks_value (entry : pyval) : bool :=
match has_result_value entry with
| Ok true => false
| _ => true
end.

(** The evidence of the rule cannot be resolved: the evidence attribute
    is absent, is not a list, is empty, or none of its entries has a
    [result] that holds a [value]. *)
Definition no_evidence (r : rule) (d : dict) : bool :=
match dict_get (evidence_attribute r) d with
| Some (PyList entries) => forallb lacks_value entries
| _ => true
end.

End Catalog.

(** ** A program logic for rule bodies *)
Module Hoare.
Import Py Eval.

(** From a store satisfying [P], [m] either returns a value and a store
    related by [Q], or raises in a store satisfying [E]. *)
Definition triple {A} (P : store -> Prop) (m : M A)
           (Q : A -> store -> Prop) (E : exn -> store -> Prop) : Prop :=
forall h, P h ->
  match m h with
  | (Ok a, h') => Q a h'
  | (Raise e, h') => E e h'
  end.

(** The record is [d0] and the finding has exactly the keys [flds]. *)
Definition Inv (d0 : dict) (flds : list string) (h : store) : Prop :=
somef_data h = d0 /\ keys (result h) = flds.

(** [m] keeps the invariant, also when it raises. *)
Definition keeps (d0 : dict) (flds : list string) {A} (m : M A) : Prop :=
  triple (Inv d0 flds) m (fun _ => Inv d0 flds) (fun _ => Inv d0 flds).

(** What a rule body guarantees once [result] has been created. *)
Definition yields (d0 : dict) (flds : list string) (m : M dict) : Prop :=
  triple (Inv d0 flds) m
         (fun r h => Inv d0 flds h /\ keys r = flds)
         (fun _ => Inv d0 flds).

(** What a call guarantees from any store that holds the record. *)
Definition call_spec (d0 : dict) (flds : list string) (m : M dict) : Prop :=
  triple (fun h => somef_data h = d0) m
         (fun r h => somef_data h = d0 /\ keys r = flds)
         (fun _ h => somef_data h = d0).

(** [m] keeps the invariant and raises nothing. *)
Definition safe (d0 : dict) (flds : list string) {A} (m : M A) : Prop :=
  triple (Inv d0 flds) m (fun _ => Inv d0 flds) (fun _ _ => False).

(** The finding still says that nothing was found in the descriptor
    and that there is no pitfall. *)
Definition Quiet (h : store) : Prop :=
  dict_get "has_pitfall" (result h) = Some (PyBool false)
  /\ dict_get "codemeta_has_reference" (result h) = Some (PyBool false).

End Hoare.

(** ** Records and helpers on which the statements are exercised *)
Module Samples.
Import Py.

Definition stub (_ : pyval) : outcome pyval := Ok PyNone.
Definition no_format (_ : pyval) : string := "".

(** A record whose descriptor cites a publication and whose
    CITATION.cff does not. *)
Definition citation_record : dict :=
  [("reference_publication",
    PyList [PyDict [("source", PyStr "repository/codemeta.json");
                    ("technique", PyStr "code_parser");
                    ("result",
                     PyDict [("value", PyStr "https://doi.org/10.1000/p")])]]);
   ("authors",
    PyList [PyDict [("source", PyStr "repository/CITATION.cff");
                    ("result", PyDict [("value", PyStr "Author Name")])]])].

(** A record whose codemeta identifier is a name while the README gives
    a DOI. *)
Definition identifier_record : dict :=
  [("identifier",
    PyList [PyDict [("source", PyStr "repository/codemeta.json");
                    ("technique", PyStr "code_parser");
                    ("result", PyDict [("value", PyStr "Software Title")])];
            PyDict [("source", PyStr "README.md");
                    ("result", PyDict [("value", PyStr "10.1234/example")])]])].

(** The rows [Missing result key] and [Missing value in result] of
    [test_p009.py] in one record: two descriptor entries with nothing
    to report. *)
Definition valueless_record : dict :=
  [("code_repository",
    PyList [PyDict [("technique", PyStr "code_parser");
                    ("source", PyStr "repository/codemeta.json")];
            PyDict [("technique", PyStr "code_parser");
                    ("source", PyStr "repository/codemeta.json");
                    ("result", PyDict [])]])].

(** Tables of the test-suite: an input paired with the expected value. *)
Definition agree_bool (f : string -> bool) (rows : list (string * bool))
  : bool :=
  forallb (fun row => Bool.eqb (f (fst row)) (snd row)) rows.

Definition is_ok (expected : bool) (o : outcome bool) : bool :=
  match o with Ok b => Bool.eqb b expected | Raise _ => false end.

Definition agree_outcome (f : pyval -> outcome bool)
           (rows : list (string * bool)) : bool :=
  forallb (fun row => is_ok (snd row) (f (PyStr (fst row)))) rows.

End Samples.

(** ** What the findings of the rules say, entry by entry

    The readings below look at one entry the way a loop body does and
    answer [false] where the body would raise. *)
Module Readings.
Import PyString Py.

Definition holds (o : outcome bool) : bool :=
  match o with Ok b => b | Raise _ => false end.

(** The entries of a list-valued attribute; none otherwise. *)
Definition attribute_entries (d : dict) (attribute : string) : list pyval :=
  match dict_get attribute d with
  | Some (PyList es) => es
  | _ => []
  end.

(** [technique == "code_parser" and "codemeta.json" in source] *)
Definition cites_codemeta (entry : pyval) : bool :=
  holds (let? source := get_method entry "source" (PyStr "") in
         let? technique := get_method entry "technique" (PyStr "") in
         if eq_str technique "code_parser"
         then contains_lit "codemeta.json" source
         else Ok false).

(** ["CITATION.cff" in source] *)
Definition cites_citation (entry : pyval) : bool :=
  holds (let? source := get_method entry "source" (PyStr "") in
         contains_lit "CITATION.cff" source).

(** The entry makes [codemeta_has_reference] true. *)
Definition reference_in_codemeta (entry : pyval) : bool :=
  cites_codemeta entry && holds (has_result_value entry).

(** The entry makes [citation_cff_has_reference] true: the [elif]
    branch is only reached when the first test fails. *)
Definition reference_in_citation (entry : pyval) : bool :=
  negb (cites_codemeta entry) && cites_citation entry
  && holds (has_result_value entry).

(** Some entry of a category comes from CITATION.cff. *)
Definition category_cites_citation (d : dict) (category : string) : bool :=
  existsb cites_citation (attribute_entries d category).

(** The finding of p007 as a function of the record. *)
Definition citation_finding (d : dict) (file_name : string) : dict :=
  let in_codemeta :=
    existsb reference_in_codemeta (attribute_entries d "reference_publication") in
  let in_citation :=
    existsb reference_in_citation (attribute_entries d "reference_publication") in
  let cff_exists :=
    existsb (category_cites_citation d) P007.citation_cff_sources in
  [("has_pitfall", PyBool (in_codemeta && cff_exists && negb in_citation));
   ("file_name", PyStr file_name);
   ("codemeta_has_reference", PyBool in_codemeta);
   ("citation_cff_has_reference", PyBool in_citation);
   ("citation_cff_exists", PyBool cff_exists)].

(** The finding of p007 while it is being filled. *)
Definition citation_state (file_name : string)
           (has_pitfall in_codemeta in_citation cff_exists : bool) : dict :=
  [("has_pitfall", PyBool has_pitfall);
   ("file_name", PyStr file_name);
   ("codemeta_has_reference", PyBool in_codemeta);
   ("citation_cff_has_reference", PyBool in_citation);
   ("citation_cff_exists", PyBool cff_exists)].

(** The entry is one at which the loop of p009 stops: it comes from a
    metadata source and its value is a homepage URL. *)
Definition homepage_entry (entry : pyval) : bool :=
  holds (let? technique := get_method entry "technique" (PyStr "") in
         let? source := get_method entry "source" (PyStr "") in
         P009.is_metadata_source technique source)
  && holds (has_result_value entry)
  && holds (let? repo_url := result_value entry in
            P009.is_homepage_url_repo repo_url).

(** The finding p009 starts from. *)
Definition homepage_default (file_name : string) : dict :=
  [("has_pitfall", PyBool false); ("file_name", PyStr file_name);
   ("repository_url", PyNone); ("source", PyNone);
   ("metadata_source_file", PyNone); ("is_homepage", PyBool false)].

(** The finding p009 leaves when it stops at an entry. *)
Definition homepage_found (file_name : string)
           (repo_url source_field source_file : pyval) : dict :=
  [("has_pitfall", PyBool true); ("file_name", PyStr file_name);
   ("repository_url", repo_url); ("source", source_field);
   ("metadata_source_file", source_file); ("is_homepage", PyBool true)].

(** The entry is one at which the first loop of w006 stops: it comes
    from codemeta and has a [result] with a [value]. *)
Definition codemeta_entry (entry : pyval) : bool :=
  holds (let? source := get_method entry "source" (PyStr "") in
         let? technique := get_method entry "technique" (PyStr "") in
         W006.is_codemeta source technique)
  && holds (has_result_value entry).

(** The finding of w006 from what its two loops found. *)
Definition identifier_finding (file_name : string)
           (codemeta_identifier codemeta_source : pyval)
           (found : list (pyval * pyval)) : dict :=
  let other_identifier :=
    match found with [] => PyNone | first :: _ => fst first end in
  let other_source :=
    match found with [] => PyNone | first :: _ => snd first end in
  [("has_warning",
    PyBool (truthy codemeta_identifier
            && negb (W006.is_valid_identifier codemeta_identifier)
            && truthy other_identifier));
   ("file_name", PyStr file_name);
   ("codemeta_identifier", codemeta_identifier);
   ("other_identifier", other_identifier);
   ("codemeta_source", codemeta_source);
   ("other_source", other_source);
   ("has_valid_identifier_elsewhere",
    PyBool (match found with [] => false | _ :: _ => true end));
   ("other_identifiers", PyList (map W006.other_record found))].

(** The file names of [metadata_sources] that are written in lower
    case: all but [DESCRIPTION]. *)
Definition lowercase_sources : list string :=
  ["codemeta.json"; "composer.json"; "package.json"; "pom.xml";
   "pyproject.toml"; "requirements.txt"; "setup.py"].

(** Some character of the text satisfies [p]. *)
Fixpoint any_char (p : ascii -> bool) (s : string) : bool :=
  match s with
  | EmptyString => false
  | String c s' => p c || any_char p s'
  end.

(** The characters of a plain name: letters, space, hyphen, underscore. *)
Definition name_char (c : ascii) : bool :=
  is_alpha_char c || Ascii.eqb c " " || Ascii.eqb c "-" || Ascii.eqb c "_".

End Readings.


(** ** What a pattern means

    The strings of a pattern, stated without reference to the matcher. *)
Module RegexMeaning.
Import PyString Regex.

Inductive lang : re -> string -> Prop :=
| lang_eps : lang Eps EmptyString
| lang_lit x c :
    lower_char x = lower_char c -> lang (Lit x) (String c EmptyString)
| lang_digit c : is_digit c = true -> lang Digit (String c EmptyString)
| lang_dot c : code c <> 10 -> lang Dot (String c EmptyString)
| lang_cat r1 r2 s1 s2 :
    lang r1 s1 -> lang r2 s2 -> lang (Cat r1 r2) (s1 ++ s2)
| lang_alt_l r1 r2 s : lang r1 s -> lang (Alt r1 r2) s
| lang_alt_r r1 r2 s : lang r2 s -> lang (Alt r1 r2) s
| lang_star_nil r : lang (Star r) EmptyString
| lang_star_cons r s1 s2 :
    lang r s1 -> lang (Star r) s2 -> lang (Star r) (s1 ++ s2).

End RegexMeaning.

(** ** [cli.py]

    [cli] reads the file system and calls [run_somef_single],
    [run_somef_batch] and [run_analysis], which it imports.  The three
    are parameters here: each takes the state of the world to a new one
    and either returns or raises.  What [cli] prints and calls is kept
    in a log, in order. *)
Module Cli.
Import PyString.

(** The namespace [parser.parse_args()] returns. *)
Record args : Type := mkArgs {
  input : list string;
  skip_somef : bool;
  pitfalls_output : string;
  analysis_output : string;
  threshold : spec_float
}.

(** [Path(json_path)] *)
Inductive path : Type := Path (json_path : string).

(** The first argument of [run_analysis]: a list of paths with
    [--skip-somef], the output directory of SoMEF without. *)
Inductive analysis_input : Type :=
| Paths (somef_json_paths : list path)
| Directory (somef_output_dir : string).

(** The lines [cli] prints, one constructor for each format string. *)
Inductive line : Type :=
| SkippingSomef (count : nat)
| FileNotFound (json_path : string)
| NoValidFiles
| Analyzing (count : nat)
| Detected (count : nat)
| ProcessingUrl (input_item : string)
| ProcessingFile (input_item : string)
| SkippingInvalid (input_item : string)
| RunningAnalysis (somef_output_dir : string).

Inductive event : Type :=
| Print (l : line)
| SomefSingle (input_item somef_output_dir : string) (threshold : spec_float)
| SomefBatch (input_item somef_output_dir : string) (threshold : spec_float)
| Analysis (input : analysis_input) (pitfalls_output analysis_output : string).

Inductive completion : Type := Returned | Raised.

(** [input_item.startswith("http://") or
    input_item.startswith("https://")] *)
Definition is_url (input_item : string) : bool :=
  startswith "http://" input_item || startswith "https://" input_item.

Section WithEnvironment.
Variable world : Type.
(** [os.path.exists], [os.getcwd] and [os.path.join] *)
Variable path_exists : string -> world -> bool.
Variable getcwd : world -> string.
Variable path_join : string -> string -> string.
Variable run_somef_single :
  string -> string -> spec_float -> world -> completion * world.
Variable run_somef_batch :
  string -> string -> spec_float -> world -> completion * world.
Variable run_analysis :
  analysis_input -> string -> string -> world -> completion * world.

Definition state : Type := (world * list event)%type.

(** A computation: [None] when an exception leaves it. *)
Definition M (A : Type) : Type := state -> option A * state.

Definition ret {A} (a : A) : M A := fun s => (Some a, s).

Definition bind {A B} (m : M A) (k : A -> M B) : M B :=
  fun s =>
    match m s with
    | (Some a, s') => k a s'
    | (None, s') => (None, s')
    end.

Definition print (l : line) : M unit :=
  fun s => (Some tt, (fst s, (snd s ++ [Print l])%list)).

Definition ask {A} (f : world -> A) : M A :=
  fun s => (Some (f (fst s)), s).

(** A call of an imported function, logged as [ev]. *)
Definition call (ev : event) (f : world -> completion * world) : M unit :=
  fun s =>
    let (c, w) := f (fst s) in
    (match c with Returned => Some tt | Raised => None end,
     (w, (snd s ++ [ev])%list)).

Fixpoint for_each {A} (xs : list A) (body : A -> M unit) : M unit :=
  match xs with
  | [] => ret tt
  | x :: xs' => bind (body x) (fun _ => for_each xs' body)
  end.

Fixpoint for_acc {A S} (xs : list A) (acc : S) (body : A -> S -> M S)
  : M S :=
  match xs with
  | [] => ret acc
  | x :: xs' => bind (body x acc) (fun acc' => for_acc xs' acc' body)
  end.

Declare Scope cli_scope.
Notation "x <- m ;; k" := (bind m (fun x => k))
  (at level 61, m at next level, right associativity) : cli_scope.
Notation "m ;; k" := (bind m (fun _ => k))
  (at level 61, right associativity) : cli_scope.
Local Open Scope cli_scope.

(** The body of the loop of the [--skip-somef] branch. *)
Definition collect_path (json_path : string) (somef_json_paths : list path)
  : M (list path) :=
  found <- ask (path_exists json_path) ;;
  if negb found then
    print (FileNotFound json_path) ;;
    ret somef_json_paths
  else ret (somef_json_paths ++ [Path json_path])%list.

(** The body of the loop of the other branch. *)
Definition process_input (somef_output_dir : string) (threshold : spec_float)
           (input_item : string) : M unit :=
  if is_url input_item then
    print (ProcessingUrl input_item) ;;
    call (SomefSingle input_item somef_output_dir threshold)
         (run_somef_single input_item somef_output_dir threshold)
  else
    found <- ask (path_exists input_item) ;;
    if found then
      print (ProcessingFile input_item) ;;
      call (SomefBatch input_item somef_output_dir threshold)
           (run_somef_batch input_item somef_output_dir threshold)
    else print (SkippingInvalid input_item).

Definition is_nil {A} (l : list A) : bool :=
  match l with [] => true | _ :: _ => false end.

(** [cli], from the parsed arguments on. *)
Definition cli (a : args) : M unit :=
  if skip_somef a then
    print (SkippingSomef (List.length (input a))) ;;
    somef_json_paths <- for_acc (input a) [] collect_path ;;
    if is_nil somef_json_paths then print NoValidFiles
    else
      print (Analyzing (List.length somef_json_paths)) ;;
      call (Analysis (Paths somef_json_paths)
                     (pitfalls_output a) (analysis_output a))
           (run_analysis (Paths somef_json_paths)
                         (pitfalls_output a) (analysis_output a))
  else
    cwd <- ask getcwd ;;
    let somef_output_dir := path_join cwd "somef_outputs" in
    print (Detected (List.length (input a))) ;;
    for_each (input a)
             (process_input somef_output_dir (threshold a)) ;;
    print (RunningAnalysis somef_output_dir) ;;
    call (Analysis (Directory somef_output_dir)
                   (pitfalls_output a) (analysis_output a))
         (run_analysis (Directory somef_output_dir)
                       (pitfalls_output a) (analysis_output a)).

End WithEnvironment.

(** *** Reading a log *)

Definition is_call (ev : event) : bool :=
  match ev with Print _ => false | _ => true end.

Definition is_analysis (ev : event) : bool :=
  match ev with Analysis _ _ _ => true | _ => false end.

(** The calls of a log, in order. *)
Definition calls (log : list event) : list event := filter is_call log.

(** The files reported as not found, in order. *)
Fixpoint not_found (log : list event) : list string :=
  match log with
  | [] => []
  | Print (FileNotFound json_path) :: rest => json_path :: not_found rest
  | _ :: rest => not_found rest
  end.

(** The inputs reported as invalid, in order. *)
Fixpoint reported_invalid (log : list event) : list string :=
  match log with
  | [] => []
  | Print (SkippingInvalid input_item) :: rest =>
      input_item :: reported_invalid rest
  | _ :: rest => reported_invalid rest
  end.

(** The repositories handed to [run_somef_single], in order. *)
Fixpoint singles (log : list event) : list string :=
  match log with
  | [] => []
  | SomefSingle input_item _ _ :: rest => input_item :: singles rest
  | _ :: rest => singles rest
  end.

(** The files handed to [run_somef_batch], in order. *)
Fixpoint batches (log : list event) : list string :=
  match log with
  | [] => []
  | SomefBatch input_item _ _ :: rest => input_item :: batches rest
  | _ :: rest => batches rest
  end.

(** The inputs a log accounts for, handed to SoMEF or reported, in
    order. *)
Fixpoint subjects (log : list event) : list string :=
  match log with
  | [] => []
  | SomefSingle input_item _ _ :: rest => input_item :: subjects rest
  | SomefBatch input_item _ _ :: rest => input_item :: subjects rest
  | Print (SkippingInvalid input_item) :: rest => input_item :: subjects rest
  | _ :: rest => subjects rest
  end.

(** A call of SoMEF with the given output directory and threshold. *)
Definition somef_call (somef_output_dir : string) (threshold : spec_float)
           (ev : event) : Prop :=
  match ev with
  | SomefSingle _ d t | SomefBatch _ d t =>
      d = somef_output_dir /\ t = threshold
  | _ => False
  end.

End Cli.

(** ** More sample records, texts and runs *)
Module Examples.
Import Py Cli.

Definition codemeta_reference : pyval :=
  PyDict [("source", PyStr "repository/codemeta.json");
          ("technique", PyStr "code_parser");
          ("result", PyDict [("value", PyStr "https://doi.org/10.1000/p")])].

Definition readme_reference : pyval :=
  PyDict [("source", PyStr "README.md");
          ("technique", PyStr "regular_expression");
          ("result", PyDict [("value", PyStr "A paper")])].

Definition citation_author : pyval :=
  PyDict [("source", PyStr "repository/CITATION.cff");
          ("result", PyDict [("value", PyStr "Author Name")])].

(** Two records with the same entries in a different order. *)
Definition two_references : dict :=
  [("reference_publication", PyList [codemeta_reference; readme_reference]);
   ("authors", PyList [citation_author])].

Definition two_references_swapped : dict :=
  [("reference_publication", PyList [readme_reference; codemeta_reference]);
   ("authors", PyList [citation_author])].

(** The finding of p007 on [Samples.citation_record] and on the two
    records above. *)
Definition citation_sample_finding : dict :=
  [("has_pitfall", PyBool true); ("file_name", PyStr "repo.json");
   ("codemeta_has_reference", PyBool true);
   ("citation_cff_has_reference", PyBool false);
   ("citation_cff_exists", PyBool true)].





Definition identifier_sample_finding : dict :=
  [("has_warning", PyBool true); ("file_name", PyStr "repo.json");
   ("codemeta_identifier", PyStr "Software Title");
   ("other_identifier", PyStr "10.1234/example");
   ("codemeta_source", PyStr "repository/codemeta.json");
   ("other_source", PyStr "README.md");
   ("has_valid_identifier_elsewhere", PyBool true);
   ("other_identifiers",
    PyList [PyDict [("value", PyStr "10.1234/example");
                    ("source", PyStr "README.md")]])].

(** A record whose entry list holds a text instead of entries. *)
Definition malformed_record : dict :=
  [("reference_publication", PyList [PyStr "oops"])].

Definition readme_doi : pyval :=
  PyDict [("source", PyStr "README.md");
          ("result", PyDict [("value", PyStr "doi:10.1234/example")])].

(** A world is the list of the paths that exist in it. *)
Definition files : Type := list string.

Definition file_exists (p : string) (w : files) : bool :=
  existsb (String.eqb p) w.

Definition work_directory (_ : files) : string := "/work".

Definition join (a b : string) : string := (a ++ "/" ++ b)%string.

(** SoMEF writes one more file; the analysis changes nothing. *)
Definition somef_succeeds (_ out : string) (_ : spec_float) (w : files)
  : completion * files :=
  (Returned, (w ++ [join out "output.json"])%list).

Definition somef_fails (_ _ : string) (_ : spec_float) (w : files)
  : completion * files :=
  (Raised, w).

Definition analysis_succeeds (_ : analysis_input) (_ _ : string) (w : files)
  : completion * files :=
  (Returned, w).

(** [0.8] as a binary64 number. *)
Definition default_threshold : spec_float :=
  S754_finite false 7205759403792794 (-53).

Definition skip_args : args :=
  mkArgs ["a.json"; "missing.json"; "b.json"] true
         "pitfalls" "summary.json" default_threshold.

Definition mixed_args : args :=
  mkArgs ["https://github.com/user/repo"; "repos.json"; "nothing"] false
         "pitfalls" "summary.json" default_threshold.

Definition some_files : files := ["a.json"; "b.json"; "repos.json"].

End Examples.

(** * Proofs *)

(** ** Dictionaries *)
Module DictFacts.
Import Py.

Lemma keys_dict_set k v (d : dict) :
  In k (keys d) -> keys (dict_set k v d) = keys d.
Proof.
  induction d as [|[k' v'] d IH]; simpl; [tauto|].
  intros [Hk|Hk]; destruct (String.eqb_spec k k') as [->|Hne]; simpl; auto.
  - congruence.
  - now rewrite IH.
Qed.

Lemma dict_get_keys k (d : dict) :
  In k (keys d) -> exists v, dict_get k d = Some v.
Proof.
  induction d as [|[k' v'] d IH]; simpl; [tauto|].
  intros [Hk|Hk]; destruct (String.eqb_spec k k') as [->|Hne]; eauto.
  congruence.
Qed.

Lemma dict_get_set_same k v (d : dict) : dict_get k (dict_set k v d) = Some v.
Proof.
  induction d as [|[k' v'] d IH]; simpl.
  - now rewrite String.eqb_refl.
  - destruct (String.eqb_spec k k') as [->|Hne]; simpl.
    + now rewrite String.eqb_refl.
    + destruct (String.eqb_spec k k'); [contradiction|exact IH].
Qed.

Lemma dict_get_set_other k k' v (d : dict) :
  k <> k' -> dict_get k (dict_set k' v d) = dict_get k d.
Proof.
  intros Hne. induction d as [|[k0 v0] d IH]; simpl.
  - destruct (String.eqb_spec k k'); [contradiction|reflexivity].
  - destruct (String.eqb_spec k' k0) as [->|Hne0]; simpl.
    + destruct (String.eqb_spec k k0); [contradiction|reflexivity].
    + destruct (String.eqb_spec k k0); [reflexivity|exact IH].
Qed.

End DictFacts.

(** ** Rules of the program logic *)
Module HoareRules.
Import Py Eval Hoare DictFacts.

Section Rules.
Context {A B : Type}.
Variables (P : store -> Prop) (E : exn -> store -> Prop).

Lemma triple_ret (a : A) (Q : A -> store -> Prop) :
  (forall h, P h -> Q a h) -> triple P (ret a) Q E.
Proof. intros H h Hh. simpl. auto. Qed.

Lemma triple_bind (m : M A) (k : A -> M B) R (Q : B -> store -> Prop) :
  triple P m R E -> (forall a, triple (R a) (k a) Q E) ->
  triple P (bind m k) Q E.
Proof.
  intros Hm Hk h Hh. unfold bind. specialize (Hm h Hh).
  destruct (m h) as [[a|e] h']; [exact (Hk a h' Hm)|exact Hm].
Qed.

(** Sequencing under an invariant. *)
Lemma triple_seq (m : M A) (k : A -> M B) (Q : B -> store -> Prop) :
  triple P m (fun _ => P) E -> (forall a, triple P (k a) Q E) ->
  triple P (bind m k) Q E.
Proof. intros Hm Hk. exact (triple_bind m k (fun _ => P) Q Hm Hk). Qed.

Lemma triple_lift (o : outcome A) (Q : A -> store -> Prop) :
  (forall h, P h -> match o with Ok a => Q a h | Raise e => E e h end) ->
  triple P (lift o) Q E.
Proof. intros H h Hh. unfold lift. specialize (H h Hh). now destruct o. Qed.

(** A pure expression followed by its continuation: the continuation is
    verified for the value the expression has. *)
Lemma triple_bind_lift (o : outcome A) (k : A -> M B)
      (Q : B -> store -> Prop) :
  match o with
  | Ok a => triple P (k a) Q E
  | Raise e => forall h, P h -> E e h
  end ->
  triple P (bind (lift o) k) Q E.
Proof.
  intros H h Hh. unfold bind, lift. destruct o as [a|e]; [exact (H h Hh)|auto].
Qed.

End Rules.

Section StoreRules.
Context {B : Type}.
Variables (P : store -> Prop) (E : exn -> store -> Prop).

Lemma triple_load o (Q : dict -> store -> Prop) :
  (forall h, P h -> Q (deref o h) h) -> triple P (load o) Q E.
Proof. intros H h Hh. simpl. auto. Qed.

Lemma triple_bind_load o (k : dict -> M B) (Q : B -> store -> Prop) :
  (forall d, (exists h, P h /\ deref o h = d) -> triple P (k d) Q E) ->
  triple P (bind (load o) k) Q E.
Proof.
  intros H h Hh. unfold bind, load. apply (H (deref o h)); eauto.
Qed.

Lemma triple_setitem o k v (Q : unit -> store -> Prop) :
  (forall h, P h -> Q tt (update o (dict_set k v (deref o h)) h)) ->
  triple P (setitem o k v) Q E.
Proof. intros H h Hh. simpl. auto. Qed.

Lemma triple_new_result d (Q : unit -> store -> Prop) :
  (forall h, P h -> Q tt (update Result d h)) -> triple P (new_result d) Q E.
Proof. intros H h Hh. unfold new_result. apply H, Hh. Qed.

Lemma triple_bind_getitem o key (k : pyval -> M B) (Q : B -> store -> Prop) :
  (forall h, P h -> dict_get key (deref o h) = None -> E KeyError h) ->
  (forall v, triple P (k v) Q E) ->
  triple P (bind (getitem o key) k) Q E.
Proof.
  intros Hkey Hk h Hh. unfold bind, getitem.
  destruct (dict_get key (deref o h)) eqn:Hget; [exact (Hk p h Hh)|auto].
Qed.

(** Reading a key whose value the precondition determines. *)
Lemma triple_bind_getitem_val o key v (k : pyval -> M B)
      (Q : B -> store -> Prop) :
  (forall h, P h -> dict_get key (deref o h) = Some v) ->
  triple P (k v) Q E ->
  triple P (bind (getitem o key) k) Q E.
Proof.
  intros Hkey Hk h Hh. unfold bind, getitem.
  rewrite (Hkey h Hh). exact (Hk h Hh).
Qed.

Lemma triple_when b (m : M unit) :
  (b = true -> triple P m (fun _ => P) E) ->
  triple P (when b m) (fun _ => P) E.
Proof.
  intros H. destruct b; simpl; [auto|]. intros h Hh. exact Hh.
Qed.

Lemma triple_for_each {X} (xs : list X) (body : X -> M ctl) :
  (forall x, In x xs -> triple P (body x) (fun _ => P) E) ->
  triple P (for_each xs body) (fun _ => P) E.
Proof.
  induction xs as [|x xs IH]; intros Hbody; simpl.
  - intros h Hh. exact Hh.
  - apply triple_seq; [apply Hbody; now left|].
    intros [|]; [|intros h Hh; exact Hh].
    apply IH. intros y Hy. apply Hbody. now right.
Qed.

Lemma triple_for_acc {X S} (xs : list X) (acc : S)
      (body : X -> S -> M (ctl * S)) :
  (forall x a, In x xs -> triple P (body x a) (fun _ => P) E) ->
  triple P (for_acc xs acc body) (fun _ => P) E.
Proof.
  revert acc. induction xs as [|x xs IH]; intros acc Hbody; simpl.
  - intros h Hh. exact Hh.
  - apply triple_seq; [apply Hbody; now left|].
    intros [[|] acc']; [|intros h Hh; exact Hh].
    apply IH. intros y a Hy. apply Hbody. now right.
Qed.

End StoreRules.

Lemma triple_conseq {A} (P : store -> Prop) (m : M A)
      (Q Q' : A -> store -> Prop) (E E' : exn -> store -> Prop) :
  triple P m Q E ->
  (forall a h, Q a h -> Q' a h) -> (forall e h, E e h -> E' e h) ->
  triple P m Q' E'.
Proof.
  intros Hm HQ HE h Hh. specialize (Hm h Hh).
  destruct (m h) as [[a|e] h']; auto.
Qed.

(** Two specifications of the same run hold together. *)
Lemma triple_conj {A} (P1 P2 : store -> Prop) (m : M A)
      (Q1 Q2 : A -> store -> Prop) (E1 E2 : exn -> store -> Prop) :
  triple P1 m Q1 E1 -> triple P2 m Q2 E2 ->
  triple (fun h => P1 h /\ P2 h) m
         (fun a h => Q1 a h /\ Q2 a h) (fun e h => E1 e h /\ E2 e h).
Proof.
  intros H1 H2 h [Hh1 Hh2]. specialize (H1 h Hh1). specialize (H2 h Hh2).
  destruct (m h) as [[a|e] h']; auto.
Qed.

(** The first statement of every rule creates the finding. *)
Lemma triple_call {A} d0 flds lit (m : M A) Q E :
  keys lit = flds -> triple (Inv d0 flds) m Q E ->
  triple (fun h => somef_data h = d0) (bind (new_result lit) (fun _ => m)) Q E.
Proof.
  intros Hlit Hm h Hh. unfold bind, new_result.
  apply Hm. split; assumption.
Qed.

(** Assigning a documented field of the finding keeps the invariant. *)
Lemma Inv_setitem d0 flds k v h :
  In k flds -> Inv d0 flds h ->
  Inv d0 flds (update Result (dict_set k v (deref Result h)) h).
Proof.
  intros Hk [Hd Hf]. split; simpl; [exact Hd|].
  rewrite keys_dict_set; [exact Hf|]. now rewrite Hf.
Qed.

Lemma Inv_getitem d0 flds k h :
  In k flds -> Inv d0 flds h -> dict_get k (deref Result h) <> None.
Proof.
  intros Hk [_ Hf] Hnone. simpl in Hnone.
  destruct (dict_get_keys k (result h)) as [v Hv]; [now rewrite Hf|congruence].
Qed.

Lemma Quiet_setitem k v h :
  k <> "has_pitfall" -> k <> "codemeta_has_reference" ->
  Quiet h -> Quiet (update Result (dict_set k v (deref Result h)) h).
Proof.
  intros H1 H2 [Hp Hc]. split; simpl;
    (rewrite dict_get_set_other; [assumption|congruence]).
Qed.

End HoareRules.

(** ** Every rule keeps the record and the field set of its finding *)
Module Invariants.
Import Py Eval Hoare HoareRules Catalog.

Ltac in_fields := cbv; repeat first [left; reflexivity | right].

(** An assignment to the finding keeps whichever invariant is at hand. *)
Ltac keep_setitem :=
  first [ apply Inv_setitem; [in_fields|assumption]
        | apply Quiet_setitem; [discriminate|discriminate|assumption] ].

(** Nothing is promised, or the invariant is promised, when raising. *)
Ltac at_raise := intros; first [assumption | exact I].

(** One step of a rule body under the invariant, whatever is raised. *)
Ltac inv_step :=
  lazymatch goal with
  | |- triple _ (bind (lift ?o) _) _ _ =>
      apply triple_bind_lift; destruct o; [|at_raise]
  | |- triple _ (bind (load _) _) _ _ =>
      apply triple_bind_load; intros ? _
  | |- triple _ (bind (getitem _ _) _) _ _ =>
      apply triple_bind_getitem; [at_raise|intros ?]
  | |- triple _ (bind _ _) _ _ => apply triple_seq; [|intros ?]
  | |- triple _ (ret _) _ _ => apply triple_ret; intros ? Hinv; exact Hinv
  | |- triple _ (load Result) _ _ =>
      apply triple_load; intros ? Hinv; split; [exact Hinv|exact (proj2 Hinv)]
  | |- triple _ (when _ _) _ _ => apply triple_when; intros _
  | |- triple _ (setitem Result _ _) _ _ =>
      apply triple_setitem; intros ? Hinv; keep_setitem
  | |- triple _ (for_each _ _) _ _ => apply triple_for_each; intros ? _
  | |- triple _ (for_acc _ _ _) _ _ => apply triple_for_acc; intros ? ? _
  | |- triple _ (if ?b then _ else _) _ _ => destruct b
  | |- triple _ (match ?x with _ => _ end) _ _ => destruct x
  end.

Ltac inv_steps := repeat inv_step.

Lemma p007_scan_reference_publication d0 entry :
  keeps d0 P007.fields (P007.scan_reference_publication entry).
Proof. unfold keeps, P007.scan_reference_publication. inv_steps. Qed.

Lemma p007_scan_citation_entry d0 entry :
  keeps d0 P007.fields (P007.scan_citation_entry entry).
Proof. unfold keeps, P007.scan_citation_entry. inv_steps. Qed.

Lemma p007_scan_category d0 category :
  keeps d0 P007.fields (P007.scan_category category).
Proof.
  unfold keeps, P007.scan_category. inv_steps;
    apply p007_scan_citation_entry.
Qed.

Lemma p009_scan_entry ext fmt d0 entry :
  keeps d0 P009.fields (P009.scan_entry ext fmt entry).
Proof. unfold keeps, P009.scan_entry. inv_steps. Qed.

Lemma w006_find_codemeta d0 entry vars :
  keeps d0 W006.fields (W006.find_codemeta entry vars).
Proof. unfold keeps, W006.find_codemeta. inv_steps. Qed.

Lemma w006_collect_other d0 entry vars :
  keeps d0 W006.fields (W006.collect_other entry vars).
Proof. unfold keeps, W006.collect_other. inv_steps. Qed.

Lemma call_spec_intro d0 flds lit (m : M dict) :
  keys lit = flds -> yields d0 flds m ->
  call_spec d0 flds (bind (new_result lit) (fun _ => m)).
Proof.
  intros Hlit Hm. apply (triple_call d0 flds); [exact Hlit|].
  apply (triple_conseq _ _ _ _ _ _ Hm).
  - intros r h [[Hd _] Hr]. now split.
  - intros e h [Hd _]. exact Hd.
Qed.

Lemma p007_body d0 file_name :
  call_spec d0 P007.fields (P007.body file_name).
Proof.
  apply call_spec_intro; [reflexivity|]. unfold yields.
  inv_steps;
    first [apply p007_scan_reference_publication | apply p007_scan_category].
Qed.

Lemma p009_body ext fmt d0 file_name :
  call_spec d0 P009.fields (P009.body ext fmt file_name).
Proof.
  apply call_spec_intro; [reflexivity|]. unfold yields.
  inv_steps; apply p009_scan_entry.
Qed.

Lemma w006_body d0 file_name :
  call_spec d0 W006.fields (W006.body file_name).
Proof.
  apply call_spec_intro; [reflexivity|]. unfold yields.
  inv_steps; first [apply w006_find_codemeta | apply w006_collect_other].
Qed.

Lemma rule_body ext fmt r d0 file_name :
  call_spec d0 (documented_fields r) (body ext fmt r file_name).
Proof.
  destruct r; simpl;
    [apply p007_body | apply p009_body | apply w006_body].
Qed.

End Invariants.

(** ** Well-shaped entries do not make the operations raise *)
Module ShapeFacts.
Import PyString Py Catalog.

Lemma entry_ok_source entry :
  entry_ok entry = true ->
  exists s, get_method entry "source" (PyStr "") = Ok (PyStr s).
Proof.
  destruct entry as [| | | | |?|kvs]; try discriminate. simpl.
  unfold text_or_absent. intros H. apply andb_prop in H as [H _].
  destruct (dict_get "source" kvs) as [[]|]; try discriminate; eauto.
Qed.

Lemma entry_ok_technique entry :
  entry_ok entry = true ->
  exists t, get_method entry "technique" (PyStr "") = Ok t.
Proof.
  destruct entry as [| | | | |?|kvs]; try discriminate. simpl. eauto.
Qed.

Lemma entry_ok_has_result_value entry :
  entry_ok entry = true -> exists b, has_result_value entry = Ok b.
Proof.
  destruct entry as [| | | | |?|kvs]; try discriminate. simpl.
  unfold dict_or_absent, has_result_value. intros H.
  apply andb_prop in H as [_ H]. simpl. unfold dict_mem.
  destruct (dict_get "result" kvs) as [[]|]; try discriminate; simpl; eauto.
Qed.

Lemma entry_ok_result_value entry :
  entry_ok entry = true -> has_result_value entry = Ok true ->
  exists v, result_value entry = Ok v.
Proof.
  destruct entry as [| | | | |?|kvs]; try discriminate. simpl.
  unfold dict_or_absent, has_result_value, result_value. intros H.
  apply andb_prop in H as [_ H]. simpl. unfold dict_mem.
  destruct (dict_get "result" kvs) as [[| | | | | |r]|];
    try discriminate; simpl.
  unfold dict_mem. destruct (dict_get "value" r); [eauto|discriminate].
Qed.

Lemma value_ok_result_value entry v :
  value_ok entry = true -> entry_ok entry = true ->
  result_value entry = Ok v ->
  isinstance_str v || negb (truthy v) = true.
Proof.
  destruct entry as [| | | | |?|kvs]; try discriminate. simpl.
  unfold dict_or_absent, result_value. intros Hv H.
  apply andb_prop in H as [_ H]. simpl.
  destruct (dict_get "result" kvs) as [[| | | | | |r]|];
    try discriminate; simpl.
  destruct (dict_get "value" r); [|discriminate].
  intros [= ->]. exact Hv.
Qed.

Lemma is_repository_url_total v :
  isinstance_str v || negb (truthy v) = true ->
  exists b, P009.is_repository_url v = Ok b.
Proof.
  unfold P009.is_repository_url. intros H.
  destruct (truthy v) eqn:Ht; simpl; [|eauto].
  destruct v; try discriminate; simpl in *; try (rewrite Ht in H; discriminate).
  destruct (contains "github.io" (lower s)); eauto.
Qed.

Lemma is_homepage_url_repo_total v :
  isinstance_str v || negb (truthy v) = true ->
  exists b, P009.is_homepage_url_repo v = Ok b.
Proof.
  intros H. destruct (is_repository_url_total v H) as [b Hb].
  unfold P009.is_homepage_url_repo. rewrite Hb.
  destruct (truthy v) eqn:Ht; simpl; [|eauto].
  destruct v; try discriminate; simpl in *; try (rewrite Ht in H; discriminate).
  destruct b; eauto.
Qed.

Lemma attribute_ok_In p d attribute entries entry :
  attribute_ok p d attribute = true ->
  dict_get attribute d = Some (PyList entries) ->
  In entry entries -> p entry = true.
Proof.
  unfold attribute_ok. intros H Hget Hin. rewrite Hget in H.
  rewrite forallb_forall in H. auto.
Qed.

End ShapeFacts.

(** ** On well-shaped records the rules return *)
Module Totality.
Import PyString Py Eval Hoare HoareRules Catalog ShapeFacts Invariants.

Ltac ok_step :=
  lazymatch goal with
  | |- triple _ (bind (lift (Ok _)) _) _ _ =>
      apply triple_bind_lift; cbv beta iota;
      cbn [contains_lit lower_method obind]
  | |- triple _ (bind (lift (if ?b then _ else _)) _) _ _ => destruct b
  | |- triple _ (bind (lift ?o) _) _ _ =>
      match goal with H : o = Ok _ |- _ => rewrite H end
  | |- triple _ (bind (getitem Result _) _) _ _ =>
      apply triple_bind_getitem;
      [intros ? Hinv Hnone;
       refine (Inv_getitem _ _ _ _ _ Hinv Hnone); in_fields
      |intros ?]
  | |- triple _ (bind _ _) _ _ => apply triple_seq; [|intros ?]
  | |- triple _ (ret _) _ _ => apply triple_ret; intros ? Hinv; exact Hinv
  | |- triple _ (load Result) _ _ => apply triple_load; intros ? Hinv; exact Hinv
  | |- triple _ (when _ _) _ _ => apply triple_when; intros _
  | |- triple _ (setitem Result _ _) _ _ =>
      apply triple_setitem; intros ? Hinv;
      apply Inv_setitem; [in_fields|exact Hinv]
  | |- triple _ (if ?b then _ else _) _ _ => destruct b
  end.

Ltac ok_steps := repeat ok_step.

(** The facts a well-shaped entry provides, as rewriting equations. *)
Ltac entry_facts H :=
  let s := fresh "s" in let t := fresh "t" in let b := fresh "b" in
  let Hs := fresh "Hs" in let Ht := fresh "Ht" in let Hb := fresh "Hb" in
  destruct (entry_ok_source _ H) as [s Hs];
  destruct (entry_ok_technique _ H) as [t Ht];
  destruct (entry_ok_has_result_value _ H) as [b Hb].

Lemma loaded_record d0 flds d :
  (exists h, Inv d0 flds h /\ deref SomefData h = d) -> d = d0.
Proof. intros [h [[Hd _] Hl]]. simpl in Hl. congruence. Qed.

(** A loop over the entries of an attribute of a well-shaped record. *)
Lemma safe_attribute_loop d0 flds p attribute (scan : pyval -> M ctl) :
  attribute_ok p d0 attribute = true ->
  (forall e, p e = true -> safe d0 flds (scan e)) ->
  safe d0 flds (match dict_get attribute d0 with
                | Some (PyList es) => for_each es scan
                | _ => ret tt
                end).
Proof.
  intros Hattr Hscan. unfold safe.
  destruct (dict_get attribute d0) as [entries|] eqn:Hget;
    [|apply triple_ret; auto].
  destruct entries as [| | | | |es|]; try (apply triple_ret; auto).
  apply triple_for_each. intros e He. apply Hscan.
  exact (attribute_ok_In _ _ _ _ _ Hattr Hget He).
Qed.

Lemma p007_scan_reference_publication_safe d0 entry :
  entry_ok entry = true ->
  safe d0 P007.fields (P007.scan_reference_publication entry).
Proof.
  intros H. entry_facts H.
  unfold safe, P007.scan_reference_publication. ok_steps.
Qed.

Lemma p007_scan_citation_entry_safe d0 entry :
  entry_ok entry = true ->
  safe d0 P007.fields (P007.scan_citation_entry entry).
Proof.
  intros H. entry_facts H.
  unfold safe, P007.scan_citation_entry. ok_steps.
Qed.

Lemma p007_scan_category_safe d0 category :
  attribute_ok entry_ok d0 category = true ->
  safe d0 P007.fields (P007.scan_category category).
Proof.
  intros Hattr. unfold safe, P007.scan_category.
  apply triple_bind_load. intros d Hd. apply loaded_record in Hd. subst d.
  apply triple_seq.
  - match goal with
    | |- triple _ ?m _ _ =>
        change m with (match dict_get category d0 with
                       | Some (PyList es) => for_each es P007.scan_citation_entry
                       | _ => ret tt
                       end)
    end.
    apply (safe_attribute_loop d0 _ entry_ok); [exact Hattr|].
    intros e He. now apply p007_scan_citation_entry_safe.
  - intros _. ok_steps.
Qed.

Lemma p007_body_safe d0 file_name :
  record_ok P007_citation d0 = true ->
  triple (fun h => somef_data h = d0) (P007.body file_name)
         (fun _ _ => True) (fun _ _ => False).
Proof.
  intros Hok. cbn [record_ok forallb] in Hok.
  apply andb_prop in Hok as [Href Hcats].
  apply (triple_call d0 P007.fields); [reflexivity|].
  apply triple_conseq with (Q := fun _ => Inv d0 P007.fields)
                           (E := fun _ _ => False); auto.
  apply triple_bind_load. intros d Hd. apply loaded_record in Hd. subst d.
  apply triple_seq.
  - match goal with
    | |- triple _ ?m _ _ =>
        change m with (match dict_get "reference_publication" d0 with
                       | Some (PyList es) =>
                           for_each es P007.scan_reference_publication
                       | _ => ret tt
                       end)
    end.
    apply (safe_attribute_loop d0 _ entry_ok); [exact Href|].
    intros e He. now apply p007_scan_reference_publication_safe.
  - intros _. apply triple_seq.
    + apply triple_for_each. intros c Hc. apply p007_scan_category_safe.
      rewrite forallb_forall in Hcats. auto.
    + intros _. ok_steps.
Qed.

Section P009.
Variable ext : pyval -> outcome pyval.
Variable fmt : pyval -> string.
Hypothesis ext_total : forall s, exists v, ext (PyStr s) = Ok v.

Lemma p009_scan_entry_safe d0 entry :
  entry_ok entry && value_ok entry = true ->
  safe d0 P009.fields (P009.scan_entry ext fmt entry).
Proof.
  intros H. apply andb_prop in H as [H Hval]. entry_facts H.
  destruct (ext_total s) as [file Hfile].
  unfold safe, P009.scan_entry, P009.is_metadata_source.
  destruct b.
  - destruct (entry_ok_result_value _ H Hb) as [v Hv].
    destruct (is_homepage_url_repo_total v
                (value_ok_result_value _ _ Hval H Hv)) as [hp Hhp].
    ok_steps.
  - ok_steps.
Qed.

Lemma p009_body_safe d0 file_name :
  record_ok P009_homepage d0 = true ->
  triple (fun h => somef_data h = d0) (P009.body ext fmt file_name)
         (fun _ _ => True) (fun _ _ => False).
Proof.
  intros Hok. cbn [record_ok] in Hok.
  apply (triple_call d0 P009.fields); [reflexivity|].
  apply triple_conseq with (Q := fun _ => Inv d0 P009.fields)
                           (E := fun _ _ => False); auto.
  apply triple_bind_load. intros d Hd. apply loaded_record in Hd. subst d.
  destruct (dict_get "code_repository" d0) as [entries|] eqn:Hget;
    [|ok_steps].
  destruct entries as [| | | | |es|]; try solve [ok_steps].
  apply triple_seq; [|intros _; ok_steps].
  apply triple_for_each. intros e He. apply p009_scan_entry_safe.
  exact (attribute_ok_In _ _ _ _ _ Hok Hget He).
Qed.

End P009.

Lemma w006_find_codemeta_safe d0 entry vars :
  entry_ok entry = true ->
  safe d0 W006.fields (W006.find_codemeta entry vars).
Proof.
  intros H. entry_facts H.
  unfold safe, W006.find_codemeta, W006.is_codemeta.
  destruct b.
  - destruct (entry_ok_result_value _ H Hb) as [v Hv]. ok_steps.
  - ok_steps.
Qed.

Lemma w006_collect_other_safe d0 entry vars :
  entry_ok entry = true ->
  safe d0 W006.fields (W006.collect_other entry vars).
Proof.
  intros H. entry_facts H.
  unfold safe, W006.collect_other, W006.is_codemeta.
  destruct b.
  - destruct (entry_ok_result_value _ H Hb) as [v Hv]. ok_steps.
  - ok_steps.
Qed.

Lemma w006_body_safe d0 file_name :
  record_ok W006_identifier d0 = true ->
  triple (fun h => somef_data h = d0) (W006.body file_name)
         (fun _ _ => True) (fun _ _ => False).
Proof.
  intros Hok. cbn [record_ok] in Hok.
  apply (triple_call d0 W006.fields); [reflexivity|].
  apply triple_conseq with (Q := fun _ => Inv d0 W006.fields)
                           (E := fun _ _ => False); auto.
  apply triple_bind_load. intros d Hd. apply loaded_record in Hd. subst d.
  destruct (dict_get "identifier" d0) as [entries|] eqn:Hget;
    [|ok_steps].
  destruct entries as [| | | | |es|]; try solve [ok_steps].
  apply triple_seq.
  - apply triple_for_acc. intros e a He. apply w006_find_codemeta_safe.
    exact (attribute_ok_In _ _ _ _ _ Hok Hget He).
  - intros cm. apply triple_seq.
    + apply triple_for_acc. intros e a He. apply w006_collect_other_safe.
      exact (attribute_ok_In _ _ _ _ _ Hok Hget He).
    + intros ot. ok_steps.
Qed.

(** A rule evaluated on a well-shaped record returns a finding. *)
Lemma rule_returns ext fmt r d0 file_name :
  (forall s, exists v, ext (PyStr s) = Ok v) ->
  record_ok r d0 = true ->
  exists finding, evaluate ext fmt r d0 file_name = Ok finding.
Proof.
  intros Hext Hok.
  assert (H : triple (fun h => somef_data h = d0) (body ext fmt r file_name)
                     (fun _ _ => True) (fun _ _ => False)).
  { destruct r; simpl;
      [now apply p007_body_safe | now apply p009_body_safe
      | now apply w006_body_safe]. }
  unfold evaluate, Rules.call. specialize (H (mkStore d0 []) eq_refl).
  destruct (body ext fmt r file_name (mkStore d0 [])) as [[finding|e] h'];
    simpl; [eauto|contradiction].
Qed.

End Totality.

(** ** The second loop of [detect_identifier_name_warning] *)
Module W006Facts.
Import PyString Py Eval Hoare HoareRules Catalog Invariants Rules.
Import W006.

(** A valid identifier is a non-empty string. *)
Lemma valid_identifier_str v :
  is_valid_identifier v = true -> exists s, v = PyStr s /\ truthy v = true.
Proof.
  unfold is_valid_identifier.
  destruct (truthy v) eqn:Ht; simpl; [|discriminate].
  destruct v; simpl; try discriminate. eauto.
Qed.

Lemma collect_other_classify entry vars h :
  collect_other entry vars h =
  (match classify_other entry with
   | Raise e => Raise e
   | Ok None => Ok (Continue, vars)
   | Ok (Some found) => Ok (Continue, push found vars)
   end, h).
Proof.
  unfold collect_other, classify_other, push, bind, lift, ret, other_record.
  destruct (get_method entry "source" (PyStr "")) as [source|]; simpl; auto.
  destruct (get_method entry "technique" (PyStr "")) as [technique|];
    simpl; auto.
  destruct (is_codemeta source technique) as [[|]|]; simpl; auto.
  destruct (has_result_value entry) as [[|]|]; simpl; auto.
  destruct (result_value entry) as [v|]; simpl; auto.
  destruct (is_valid_identifier v); simpl; auto.
  destruct (is_none (other_identifier vars)); reflexivity.
Qed.

Lemma collect_other_loop es : forall vars h vars' h',
  for_acc es vars collect_other h = (Ok vars', h') ->
  h' = h
  /\ vars' = record_all (contributions es) vars
  /\ forall e, In e es -> exists c, classify_other e = Ok c.
Proof.
  induction es as [|e es IH]; intros vars h vars' h'; simpl.
  - unfold ret. intros [= <- <-]. repeat split. intros e [].
  - unfold bind at 1. rewrite collect_other_classify. unfold contribution.
    destruct (classify_other e) as [[found|]|] eqn:Hc; try discriminate.
    + intros Hrun. apply IH in Hrun as (-> & -> & Hall).
      repeat split. intros e' [<-|Hin]; eauto.
    + intros Hrun. apply IH in Hrun as (-> & -> & Hall).
      repeat split. intros e' [<-|Hin]; eauto.
Qed.

Lemma push_identifiers found vars :
  other_identifiers (push found vars) =
  (other_identifiers vars ++ [other_record found])%list.
Proof. unfold push. now destruct (is_none (other_identifier vars)). Qed.

Lemma record_all_identifiers found : forall vars,
  other_identifiers (record_all found vars) =
  (other_identifiers vars ++ map other_record found)%list.
Proof.
  induction found as [|f found IH]; intros vars; simpl.
  - now rewrite app_nil_r.
  - unfold record_all in *. simpl. rewrite IH, push_identifiers.
    now rewrite <- app_assoc.
Qed.

Lemma record_all_kept found : forall vars,
  is_none (other_identifier vars) = false ->
  other_identifier (record_all found vars) = other_identifier vars.
Proof.
  induction found as [|f found IH]; intros vars Hset; [reflexivity|].
  unfold record_all in *. simpl.
  assert (Hp : other_identifier (push f vars) = other_identifier vars).
  { unfold push. now rewrite Hset. }
  rewrite IH; [exact Hp|]. now rewrite Hp.
Qed.

Lemma contributions_valid es found :
  In found (contributions es) -> is_valid_identifier (fst found) = true.
Proof.
  induction es as [|e es IH]; simpl; [tauto|].
  destruct (contribution e) as [f|] eqn:Hc; [|exact IH].
  intros [<-|Hin]; [|auto].
  unfold contribution, classify_other in Hc.
  destruct (get_method e "source" (PyStr "")) as [source|]; simpl in Hc;
    [|discriminate].
  destruct (get_method e "technique" (PyStr "")) as [technique|];
    simpl in Hc; [|discriminate].
  destruct (is_codemeta source technique) as [[|]|]; simpl in Hc;
    try discriminate.
  destruct (has_result_value e) as [[|]|]; simpl in Hc; try discriminate.
  destruct (result_value e) as [v|]; simpl in Hc; [|discriminate].
  destruct (is_valid_identifier v) eqn:Hv; [|discriminate].
  injection Hc as <-. exact Hv.
Qed.

(** The first recorded identifier is the first contribution. *)
Lemma record_all_first es :
  other_identifier (record_all (contributions es) (mkOther PyNone PyNone []))
  = match contributions es with
    | [] => PyNone
    | found :: _ => fst found
    end.
Proof.
  destruct (contributions es) as [|f fs] eqn:Hcs; [reflexivity|].
  unfold record_all. simpl. fold (record_all fs (push f (mkOther PyNone PyNone []))).
  rewrite record_all_kept; [reflexivity|].
  unfold push. simpl.
  destruct (valid_identifier_str (fst f)) as [s [-> _]]; [|reflexivity].
  apply (contributions_valid es). rewrite Hcs. now left.
Qed.

Lemma contributions_first es :
  match contributions es with
  | [] => forall e, In e es -> contribution e = None
  | found :: _ =>
      exists pre e post,
        es = (pre ++ e :: post)%list
        /\ (forall e', In e' pre -> contribution e' = None)
        /\ contribution e = Some found
  end.
Proof.
  induction es as [|e es IH]; simpl; [tauto|].
  destruct (contribution e) as [f|] eqn:Hc.
  - exists [], e, es. repeat split; [intros e' []|exact Hc].
  - destruct (contributions es) as [|f fs].
    + intros e' [<-|Hin]; auto.
    + destruct IH as (pre & e0 & post & -> & Hpre & He0).
      exists (e :: pre), e0, post. repeat split; [|exact He0].
      intros e' [<-|Hin]; auto.
Qed.

End W006Facts.

Module W006Main.
Import PyString Py Eval Hoare HoareRules Catalog Invariants Rules.
Import W006 W006Facts.

(** The first loop only assigns locals. *)
Lemma find_codemeta_loop_store es vars h o h' :
  for_acc es vars find_codemeta h = (o, h') -> h' = h.
Proof.
  intros Hrun.
  assert (H : triple (fun x => x = h) (for_acc es vars find_codemeta)
                     (fun _ x => x = h) (fun _ x => x = h)).
  { apply triple_for_acc. intros e a _. unfold find_codemeta. inv_steps. }
  specialize (H h eq_refl). rewrite Hrun in H. now destruct o.
Qed.

Lemma length_positive {X} (l : list X) :
  (0 <? Z.of_nat (List.length l)) = true <-> l <> [].
Proof.
  destruct l; simpl; split; try congruence; try discriminate.
  intros _. apply Z.ltb_lt. lia.
Qed.

(** The finding of an early return: nothing was looked at. *)
Lemma untouched_finding file_name :
  let finding := [("has_warning", PyBool false);
                  ("file_name", PyStr file_name);
                  ("codemeta_identifier", PyNone);
                  ("other_identifier", PyNone);
                  ("codemeta_source", PyNone);
                  ("other_source", PyNone);
                  ("has_valid_identifier_elsewhere", PyBool false);
                  ("other_identifiers", PyList [])] in
  exists codemeta other others elsewhere warning,
    dict_get "codemeta_identifier" finding = Some codemeta
    /\ dict_get "other_identifier" finding = Some other
    /\ dict_get "other_identifiers" finding = Some (PyList others)
    /\ dict_get "has_valid_identifier_elsewhere" finding
       = Some (PyBool elsewhere)
    /\ dict_get "has_warning" finding = Some (PyBool warning)
    /\ (warning = true ->
        codemeta <> PyNone /\ is_valid_identifier codemeta = false
        /\ other <> PyNone /\ elsewhere = true)
    /\ (elsewhere = true <-> others <> [])
    /\ others = map other_record (contributions [])
    /\ first_valid_other [] other.
Proof.
  exists PyNone, PyNone, [], false, false.
  do 5 (split; [reflexivity|]).
  split; [discriminate|]. split; [split; [discriminate|congruence]|].
  split; [reflexivity|]. left. split; [reflexivity|intros e []].
Qed.

(** C10.  In a finding that [detect_identifier_name_warning] returns:
    a warning implies a codemeta identifier that is not [None] and not
    valid, another identifier that is not [None] and the flag
    [has_valid_identifier_elsewhere]; that flag is set exactly when
    [other_identifiers] is not empty; [other_identifiers] lists the
    valid identifiers of the entries outside codemeta.json in extraction
    order and [other_identifier] is the first of them. *)
Theorem identifier_warning_invariants d file_name finding :
  detect_identifier_name_warning d file_name = Ok finding ->
  exists codemeta other others elsewhere warning,
    dict_get "codemeta_identifier" finding = Some codemeta
    /\ dict_get "other_identifier" finding = Some other
    /\ dict_get "other_identifiers" finding = Some (PyList others)
    /\ dict_get "has_valid_identifier_elsewhere" finding
       = Some (PyBool elsewhere)
    /\ dict_get "has_warning" finding = Some (PyBool warning)
    /\ (warning = true ->
        codemeta <> PyNone /\ is_valid_identifier codemeta = false
        /\ other <> PyNone /\ elsewhere = true)
    /\ (elsewhere = true <-> others <> [])
    /\ others = map other_record (contributions (identifier_entries d))
    /\ first_valid_other (identifier_entries d) other.
Proof.
  unfold detect_identifier_name_warning, call, W006.body, identifier_entries.
  unfold bind at 1, new_result. cbn [update somef_data].
  unfold bind at 1, load. cbn [deref somef_data].
  destruct (dict_get "identifier" d) as [entries|] eqn:Hget.
  2:{ simpl. intros [= <-]. apply untouched_finding. }
  destruct entries as [| | | | |es|];
    try (simpl; intros [= <-]; apply untouched_finding).
  unfold bind at 1.
  destruct (for_acc es (PyNone, PyNone) find_codemeta _) as [[cm|e] h2] eqn:Hcm;
    [|discriminate].
  apply find_codemeta_loop_store in Hcm. subst h2.
  unfold bind at 1.
  destruct (for_acc es (mkOther PyNone PyNone []) collect_other _)
    as [[ot|e] h3] eqn:Hot; [|discriminate].
  apply collect_other_loop in Hot as (-> & -> & Hall).
  set (ot := record_all (contributions es) (mkOther PyNone PyNone [])).
  assert (Hids : other_identifiers ot = map other_record (contributions es)).
  { unfold ot. now rewrite record_all_identifiers. }
  assert (Hfirst : other_identifier ot
                   = match contributions es with
                     | [] => PyNone
                     | found :: _ => fst found
                     end) by apply record_all_first.
  assert (Hfirst' : first_valid_other es (other_identifier ot)).
  { rewrite Hfirst. pose proof (contributions_first es) as Hc.
    destruct (contributions es) as [|[v s] fs].
    - left. now split.
    - right. destruct Hc as (pre & e & post & -> & Hpre & He).
      exists pre, e, post, s. now repeat split. }
  assert (Hsome : truthy (other_identifier ot) = true ->
                  other_identifiers ot <> []).
  { rewrite Hfirst, Hids. destruct (contributions es); simpl;
      [discriminate|congruence]. }
  clearbody ot.
  destruct (truthy (fst cm) && negb (is_valid_identifier (fst cm))
            && truthy (other_identifier ot)) eqn:Hcond;
    simpl; intros [= <-];
    exists (fst cm), (other_identifier ot), (other_identifiers ot),
           (0 <? Z.of_nat (List.length (other_identifiers ot)));
    [exists true|exists false];
    do 5 (split; [reflexivity|]);
    (split; [|split; [apply length_positive|split; assumption]]).
  - intros _. apply andb_prop in Hcond as [Hcond Hother].
    apply andb_prop in Hcond as [Hcm Hvalid].
    split; [|split; [|split]].
    + intros Heq. rewrite Heq in Hcm. discriminate.
    + now apply negb_true_iff.
    + intros Heq. rewrite Heq in Hother. discriminate.
    + apply length_positive. exact (Hsome Hother).
  - discriminate.
Qed.

End W006Main.

(** ** The rule interface *)
Module RuleFacts.
Import PyString Py Eval Hoare HoareRules Catalog Invariants Totality.
Import Rules.

(** C3.  Whatever the record, a finding that a rule returns has exactly
    the documented fields of the rule, in their documented order; and on
    a well-shaped record the rule does return such a finding. *)
Theorem finding_fully_populated
        (extract_metadata_source_filename : pyval -> outcome pyval)
        (format_value : pyval -> string)
        (r : rule) (somef_data : dict) (file_name : string) :
  (forall finding,
     evaluate extract_metadata_source_filename format_value r
              somef_data file_name = Ok finding ->
     keys finding = documented_fields r)
  /\ ((forall s, exists v, extract_metadata_source_filename (PyStr s) = Ok v) ->
      record_ok r somef_data = true ->
      exists finding,
        evaluate extract_metadata_source_filename format_value r
                 somef_data file_name = Ok finding
        /\ keys finding = documented_fields r).
Proof.
  assert (Hkeys : forall finding,
             evaluate extract_metadata_source_filename format_value r
                      somef_data file_name = Ok finding ->
             keys finding = documented_fields r).
  { unfold evaluate, call. intros finding Hrun.
    pose proof (rule_body extract_metadata_source_filename format_value r
                          somef_data file_name (mkStore somef_data [])
                          eq_refl) as H.
    destruct (body _ _ r file_name (mkStore somef_data [])) as [[f|e] h'];
      simpl in Hrun; [|discriminate].
    injection Hrun as <-. exact (proj2 H). }
  split; [exact Hkeys|].
  intros Hext Hok.
  destruct (rule_returns _ format_value r somef_data file_name Hext Hok)
    as [finding Hrun].
  exists finding. split; [exact Hrun|exact (Hkeys finding Hrun)].
Qed.

Lemma body_outcome ext fmt r file_name h :
  fst (body ext fmt r file_name h)
  = evaluate ext fmt r (Eval.somef_data h) file_name.
Proof. destruct h as [d stale]. unfold evaluate, call. now destruct r. Qed.

(** C7.  Running a rule body from any store that holds the record
    leaves the record as it was, whether the body returns or raises, and
    a second call in the store the first one leaves has the same
    outcome. *)
Theorem evaluation_leaves_record_unchanged
        (extract_metadata_source_filename : pyval -> outcome pyval)
        (format_value : pyval -> string)
        (r : rule) (somef_data stale : dict) (file_name : string) :
  let first := body extract_metadata_source_filename format_value r
                    file_name (mkStore somef_data stale) in
  let second := body extract_metadata_source_filename format_value r
                     file_name (snd first) in
  Eval.somef_data (snd first) = somef_data
  /\ Eval.somef_data (snd second) = somef_data
  /\ fst second = fst first.
Proof.
  cbv zeta.
  assert (Hframe : forall h,
             Eval.somef_data
               (snd (body extract_metadata_source_filename format_value r
                          file_name h))
             = Eval.somef_data h).
  { intros h.
    pose proof (rule_body extract_metadata_source_filename format_value r
                          (Eval.somef_data h) file_name h eq_refl) as H.
    destruct (body _ _ r file_name h) as [[f|e] h'];
      simpl; [exact (proj1 H)|exact H]. }
  split; [exact (Hframe _)|]. split.
  - now rewrite !Hframe.
  - now rewrite !body_outcome, Hframe.
Qed.

(** C9.  A URL that [is_homepage_url_repo] accepts, or whose lower-case
    form contains [github.io], is not a repository URL for
    [is_repository_url]. *)
Theorem url_classifiers_exclusive (url : string) :
  P009.is_homepage_url_repo (PyStr url) = Ok true
  \/ contains "github.io" (lower url) = true ->
  P009.is_repository_url (PyStr url) = Ok false.
Proof.
  intros [H|H].
  - unfold P009.is_homepage_url_repo in H.
    destruct (truthy (PyStr url)) eqn:Ht; simpl in H; [|discriminate].
    destruct (P009.is_repository_url (PyStr url)) as [[|]|];
      simpl in H; try discriminate. reflexivity.
  - unfold P009.is_repository_url.
    destruct (truthy (PyStr url)); simpl; [|reflexivity].
    now rewrite H.
Qed.

End RuleFacts.

(** ** Trailing whitespace *)
Module VersionFacts.
Import PyString.

Lemma rstrip_idempotent s : rstrip (rstrip s) = rstrip s.
Proof.
  induction s as [|c s IH]; [reflexivity|]. simpl.
  destruct (is_empty (rstrip s) && is_space c) eqn:Hc; [reflexivity|].
  simpl. now rewrite IH, Hc.
Qed.

(** A suffix of a text without trailing whitespace has none either. *)
Lemma rstrip_fixed_tail c s :
  rstrip (String c s) = String c s -> rstrip s = s.
Proof.
  simpl. destruct (is_empty (rstrip s) && is_space c); [discriminate|].
  now intros [= ->].
Qed.

End VersionFacts.

(** ** Batch aggregation *)
Module BatchFacts.
Import Batch.

Lemma round_half_even_nearest num den :
  0 < den -> 2 * Z.abs (round_half_even num den * den - num) <= den.
Proof.
  intros Hden. unfold round_half_even.
  pose proof (Z.div_mod num den ltac:(lia)) as Hdm.
  pose proof (Z.mod_pos_bound num den Hden) as Hr.
  destruct (2 * (num mod den) <? den) eqn:H1.
  - apply Z.ltb_lt in H1. nia.
  - apply Z.ltb_ge in H1.
    destruct (den <? 2 * (num mod den)) eqn:H2.
    + apply Z.ltb_lt in H2. nia.
    + apply Z.ltb_ge in H2. destruct (Z.even (num / den)); nia.
Qed.

(** C8.  For a batch with at least one repository, the percentage of a
    check id, in hundredths, is an integer nearest to
    [count / total * 100 * 100]; one triggering repository out of three
    gives 33.33 and two out of three give 66.67. *)
Theorem aggregate_percentage_rounded
        (check_id : string) (rs : list repo_findings) :
  rs <> [] ->
  let a := aggregate check_id rs in
  2 * Z.abs (percentage a * total a - 10000 * count a) <= total a
  /\ (total a = 3 -> count a = 1 -> percentage a = 3333)
  /\ (total a = 3 -> count a = 2 -> percentage a = 6667).
Proof.
  intros Hne. cbv zeta. unfold aggregate. cbn [percentage total count].
  unfold percentage_hundredths. split.
  - replace (10000 * count_triggered check_id rs)
      with (count_triggered check_id rs * 10000) by lia.
    apply round_half_even_nearest. unfold total_repos.
    destruct rs; [contradiction|simpl; lia].
  - split; intros -> ->; reflexivity.
Qed.

End BatchFacts.

(** ** The rows of the test-suite

    The embedding is run on the parametrised rows of the repository's
    tests; each table pairs an input with the value the test expects. *)
Module TestRows.
Import PyString Py Eval Rules Samples.

(** [TestIsValidIdentifier.test_identifier_validation] *)
Example is_valid_identifier_rows :
  agree_bool (fun s => W006.is_valid_identifier (PyStr s))
    [("", false); ("doi:10.1234/example", true); ("DOI:10.5678/test", true);
     ("10.1000/journal.12345", true); ("10.5281/zenodo.67890", true);
     ("https://example.com", true); ("http://example.org/resource", true);
     ("https://doi.org/10.1234/example", true); ("Project Name", false);
     ("My Software", false); ("John Doe", false); ("Software Title", false);
     ("doi:", false); ("10.", false); ("ftp://example.com", false);
     ("DOI:10.1234/test", true); ("HTTPS://EXAMPLE.COM", true)] = true
  /\ W006.is_valid_identifier PyNone = false.
Proof. split; reflexivity. Qed.

(** [TestIsRepositoryUrl.test_is_repository_url_scenarios] *)
Example is_repository_url_rows :
  agree_outcome P009.is_repository_url
    [("https://github.com/user/repo", true);
     ("https://gitlab.com/user/project", true);
     ("https://bitbucket.org/team/repo", true);
     ("https://sourceforge.net/projects/myproject", true);
     ("https://git.example.com/repo", true);
     ("https://example.com/repo.git", true);
     ("HTTPS://GITHUB.COM/USER/REPO", true);
     ("https://GitLab.com/project", true);
     ("https://example.org", false); ("https://www.example.com", false);
     ("https://docs.example.com", false); ("", false);
     ("https://github.com", false); ("github.com/user/repo", true);
     ("git.company.com/project", true)] = true
  /\ P009.is_repository_url PyNone = Ok false.
Proof. split; reflexivity. Qed.

(** [TestIsHomepageUrlRepo.test_is_homepage_url_repo_scenarios] *)
Example is_homepage_url_repo_rows :
  agree_outcome P009.is_homepage_url_repo
    [("https://example.org/", true); ("https://www.example.com/", true);
     ("https://myproject.io/", true); ("https://docs.example.com/", true);
     ("https://documentation.example.org/", true);
     ("https://example.readthedocs.io/", true);
     ("https://user.github.io/project", true);
     ("https://github.com/user/repo", false);
     ("https://gitlab.com/project", false);
     ("https://bitbucket.org/team/repo", false);
     ("HTTPS://WWW.EXAMPLE.COM/", true); ("https://Docs.Example.org/", true);
     ("", false); ("https://github.org/user/repo", false);
     ("https://example.org/projects/repo.git", false)] = true
  /\ P009.is_homepage_url_repo PyNone = Ok false.
Proof. split; reflexivity. Qed.

(** Rows of [TestDetectCitationMissingReferencePublicationPitfall]. *)
Example citation_rows :
  detect_citation_missing_reference_publication_pitfall [] "test_repo.json"
  = Ok [("has_pitfall", PyBool false); ("file_name", PyStr "test_repo.json");
        ("codemeta_has_reference", PyBool false);
        ("citation_cff_has_reference", PyBool false);
        ("citation_cff_exists", PyBool false)]
  /\ detect_citation_missing_reference_publication_pitfall
       [("reference_publication", PyStr "some string")] "test_repo.json"
     = detect_citation_missing_reference_publication_pitfall
         [] "test_repo.json"
  /\ detect_citation_missing_reference_publication_pitfall
       citation_record "test_repo.json"
     = Ok [("has_pitfall", PyBool true); ("file_name", PyStr "test_repo.json");
           ("codemeta_has_reference", PyBool true);
           ("citation_cff_has_reference", PyBool false);
           ("citation_cff_exists", PyBool true)].
Proof. repeat split; reflexivity. Qed.

(** [test_codemeta_identifier_captured] and the warning row of
    [test_detect_warning_scenarios]. *)
Example identifier_rows :
  detect_identifier_name_warning identifier_record "test.json"
  = Ok [("has_warning", PyBool true); ("file_name", PyStr "test.json");
        ("codemeta_identifier", PyStr "Software Title");
        ("other_identifier", PyStr "10.1234/example");
        ("codemeta_source", PyStr "repository/codemeta.json");
        ("other_source", PyStr "README.md");
        ("has_valid_identifier_elsewhere", PyBool true);
        ("other_identifiers",
         PyList [PyDict [("value", PyStr "10.1234/example");
                         ("source", PyStr "README.md")]])].
Proof. reflexivity. Qed.

(** [test_empty_source_field] of [test_p009.py], with the stub the test
    installs. *)
Example homepage_rows :
  detect_coderepository_homepage_pitfall stub no_format
    [("code_repository",
      PyList [PyDict [("technique", PyStr "code_parser");
                      ("source", PyStr "");
                      ("result",
                       PyDict [("value", PyStr "https://www.example.org/")])]])]
    "test.json"
  = Ok [("has_pitfall", PyBool true); ("file_name", PyStr "test.json");
        ("repository_url", PyStr "https://www.example.org/");
        ("source", PyStr "technique: code_parser");
        ("metadata_source_file", PyNone); ("is_homepage", PyBool true)].
Proof. reflexivity. Qed.

(** [TestNormalizeVersion] of [test_p012.py]. *)
Example normalize_version_rows :
  forallb (Suite.test_normalize_version Versions.normalize_version)
          Suite.version_rows = true.
Proof. reflexivity. Qed.

(** [TestNormalizeRepositoryUrl.test_url_normalization] *)
Example normalize_repository_url_rows :
  forallb (Suite.test_url_normalization P016.normalize_repository_url)
          Suite.url_rows = true.
Proof. reflexivity. Qed.

(** [TestIsValidUrlFormat] of [test_p008.py] and [test_p015.py]. *)
Example is_valid_url_format_rows :
  agree_bool Prober.is_valid_url_format
    [("https://example.com", true); ("http://example.com", true);
     ("https://www.example.com/path", true);
     ("https://example.com:8080/path", true); ("example.com", false);
     ("www.example.com", false); ("/path/to/file", false);
     ("not a url", false); ("", false); ("   ", false);
     ("https://", false); ("http://", false);
     ("https://github.com/user/repo", true);
     ("https://travis-ci.org/user/repo", true);
     ("ftp://files.example.com", true); ("not-a-url", false);
     ("github.com", false); ("://invalid", false)] = true.
Proof. reflexivity. Qed.

(** [TestCheckCiUrlStatus.test_various_status_codes] and the status
    tests of [TestCheckUrlStatus]. *)
Example status_code_rows :
  forallb (Suite.test_various_status_codes Prober.check_ci_url_status)
          Suite.status_rows = true
  /\ forallb (Suite.test_various_status_codes Prober.check_url_status)
             Suite.url_status_rows = true.
Proof. split; reflexivity. Qed.

End TestRows.

(** ** Inputs on which the claims are exercised *)
Module Witnesses.
Import PyString Py Eval Catalog Rules Samples.

(** C1 fails as stated: an entry list holding a string, an entry whose
    [source] is a number and an entry whose [result] is a number make
    the three rules raise. *)
Lemma malformed_entries_raise :
  detect_citation_missing_reference_publication_pitfall
    [("reference_publication", PyList [PyStr "oops"])] "repo.json"
  = Raise AttributeError
  /\ detect_coderepository_homepage_pitfall stub no_format
       [("code_repository",
         PyList [PyDict [("source", PyInt 7);
                         ("result", PyDict [("value", PyStr "x")])]])]
       "repo.json"
     = Raise AttributeError
  /\ detect_identifier_name_warning
       [("identifier",
         PyList [PyDict [("source", PyStr "README.md");
                         ("result", PyInt 7)]])]
       "repo.json"
     = Raise TypeError.
Proof. repeat split; reflexivity. Qed.

Lemma finding_fully_populated_witness :
  keys [("has_pitfall", PyBool true); ("file_name", PyStr "repo.json");
        ("codemeta_has_reference", PyBool true);
        ("citation_cff_has_reference", PyBool false);
        ("citation_cff_exists", PyBool true)]
  = documented_fields P007_citation
  /\ exists finding,
       evaluate stub no_format P007_citation citation_record "repo.json"
       = Ok finding
       /\ keys finding = documented_fields P007_citation.
Proof.
  destruct (RuleFacts.finding_fully_populated
              stub no_format P007_citation citation_record "repo.json")
    as [Hkeys Hreturns].
  split.
  - apply Hkeys. reflexivity.
  - apply Hreturns; [intros s; exists PyNone; reflexivity|reflexivity].
Defined.

Lemma url_classifiers_exclusive_witness :
  P009.is_repository_url
    (PyStr "https://github.com/user/user.github.io") = Ok false.
Proof.
  apply RuleFacts.url_classifiers_exclusive. right. reflexivity.
Defined.

Lemma identifier_warning_invariants_witness :
  exists codemeta other (others : list pyval) elsewhere warning,
    dict_get "codemeta_identifier"
             [("has_warning", PyBool true); ("file_name", PyStr "repo.json");
              ("codemeta_identifier", PyStr "Software Title");
              ("other_identifier", PyStr "10.1234/example");
              ("codemeta_source", PyStr "repository/codemeta.json");
              ("other_source", PyStr "README.md");
              ("has_valid_identifier_elsewhere", PyBool true);
              ("other_identifiers",
               PyList [PyDict [("value", PyStr "10.1234/example");
                               ("source", PyStr "README.md")]])]
    = Some codemeta
    /\ other = PyStr "10.1234/example"
    /\ others <> [] /\ elsewhere = true /\ warning = true.
Proof.
  destruct (W006Main.identifier_warning_invariants
              identifier_record "repo.json" _ eq_refl)
    as (codemeta & other & others & elsewhere & warning
        & Hc & Ho & Hos & He & Hw & _ & _ & _ & _).
  exists codemeta, other, others, elsewhere, warning.
  injection Ho as <-. injection Hos as <-. injection He as <-.
  injection Hw as <-. repeat split; [exact Hc|discriminate].
Defined.

Lemma aggregate_percentage_rounded_witness :
  [[("P001", true)]; [("P001", false)]; []] <> ([] : list Batch.repo_findings)
  /\ Batch.percentage
       (Batch.aggregate "P001" [[("P001", true)]; [("P001", false)]; []])
     = 3333.
Proof.
  assert (Hne : [[("P001", true)]; [("P001", false)]; []]
                <> ([] : list Batch.repo_findings)) by discriminate.
  split; [exact Hne|].
  destruct (BatchFacts.aggregate_percentage_rounded "P001" _ Hne)
    as (_ & Hthird & _).
  apply Hthird; reflexivity.
Defined.

End Witnesses.

(** * Further properties of the rules *)

(** ** [p007]: the finding as a function of the record *)
Module P007Facts.
Import PyString Py Eval Rules Readings.

Lemma scan_reference_publication_run f hp cm cff ex entry h c h' :
  result h = citation_state f hp cm cff ex ->
  P007.scan_reference_publication entry h = (Ok c, h') ->
  c = Continue /\ somef_data h' = somef_data h
  /\ result h' = citation_state f hp (cm || reference_in_codemeta entry)
                                (cff || reference_in_citation entry) ex.
Proof.
  intros Hres. unfold P007.scan_reference_publication, reference_in_codemeta,
    reference_in_citation, cites_codemeta, cites_citation.
  unfold bind, lift, ret, when, setitem. destruct h as [d r]. simpl in Hres.
  subst r.
  destruct (get_method entry "source" (PyStr "")) as [source|]; simpl;
    [|discriminate].
  destruct (get_method entry "technique" (PyStr "")) as [technique|]; simpl;
    [|discriminate].
  destruct (if eq_str technique "code_parser"
            then contains_lit "codemeta.json" source else Ok false)
    as [[|]|]; simpl; [| |discriminate].
  - destruct (has_result_value entry) as [[|]|]; simpl; try discriminate;
      intros [= <- <-]; rewrite ?orb_true_r, ?orb_false_r; auto.
  - destruct (contains_lit "CITATION.cff" source) as [[|]|]; simpl;
      try discriminate.
    + destruct (has_result_value entry) as [[|]|]; simpl; try discriminate;
        intros [= <- <-]; rewrite ?orb_true_r, ?orb_false_r; auto.
    + intros [= <- <-]; rewrite ?orb_true_r, ?orb_false_r; auto.
Qed.

Lemma reference_publication_loop f hp ex es : forall cm cff h h',
  result h = citation_state f hp cm cff ex ->
  for_each es P007.scan_reference_publication h = (Ok tt, h') ->
  somef_data h' = somef_data h
  /\ result h' = citation_state f hp (cm || existsb reference_in_codemeta es)
                                (cff || existsb reference_in_citation es) ex.
Proof.
  induction es as [|e es IH]; intros cm cff h h' Hres; simpl.
  - unfold ret. intros [= <-]. now rewrite !orb_false_r.
  - unfold bind.
    destruct (P007.scan_reference_publication e h) as [[c|x] h1] eqn:Hrun;
      [|discriminate].
    destruct (scan_reference_publication_run _ _ _ _ _ _ _ _ _ Hres Hrun)
      as (-> & Hd & Hres1).
    intros Hrest. destruct (IH _ _ _ _ Hres1 Hrest) as [Hd' Hres'].
    split; [congruence|]. now rewrite Hres', <- !orb_assoc.
Qed.

Lemma scan_citation_entry_run f hp cm cff ex entry h c h' :
  result h = citation_state f hp cm cff ex ->
  P007.scan_citation_entry entry h = (Ok c, h') ->
  somef_data h' = somef_data h
  /\ match c with
     | Break => cites_citation entry = true
                /\ result h' = citation_state f hp cm cff true
     | Continue => cites_citation entry = false /\ h' = h
     end.
Proof.
  intros Hres. unfold P007.scan_citation_entry, cites_citation.
  unfold bind, lift, ret, setitem. destruct h as [d r]. simpl in Hres. subst r.
  destruct (get_method entry "source" (PyStr "")) as [source|]; simpl;
    [|discriminate].
  destruct (contains_lit "CITATION.cff" source) as [[|]|]; simpl;
    try discriminate; intros [= <- <-]; auto.
Qed.

Lemma citation_entries_loop f hp cm cff es : forall ex h h',
  result h = citation_state f hp cm cff ex ->
  for_each es P007.scan_citation_entry h = (Ok tt, h') ->
  somef_data h' = somef_data h
  /\ result h' = citation_state f hp cm cff (ex || existsb cites_citation es).
Proof.
  induction es as [|e es IH]; intros ex h h' Hres; simpl.
  - unfold ret. intros [= <-]. now rewrite orb_false_r.
  - unfold bind.
    destruct (P007.scan_citation_entry e h) as [[c|x] h1] eqn:Hrun;
      [|discriminate].
    destruct (scan_citation_entry_run _ _ _ _ _ _ _ _ _ Hres Hrun)
      as (Hd & Hc).
    destruct c.
    + destruct Hc as [Hno ->]. rewrite Hno. simpl. now apply IH.
    + destruct Hc as [Hyes Hres1]. unfold ret. intros [= <-].
      split; [exact Hd|]. now rewrite Hyes, orb_true_r.
Qed.

Lemma scan_category_run f hp cm cff ex category h c h' :
  result h = citation_state f hp cm cff ex ->
  P007.scan_category category h = (Ok c, h') ->
  let ex' := ex || category_cites_citation (somef_data h) category in
  somef_data h' = somef_data h
  /\ result h' = citation_state f hp cm cff ex'
  /\ c = (if ex' then Break else Continue).
Proof.
  intros Hres.
  unfold P007.scan_category, category_cites_citation, attribute_entries.
  unfold bind at 1, load. cbn [deref]. unfold bind at 1.
  set (d := somef_data h).
  assert (Hloop : forall h1,
             match dict_get category d with
             | Some (PyList es) => for_each es P007.scan_citation_entry
             | _ => ret tt
             end h = (Ok tt, h1) ->
             somef_data h1 = d
             /\ result h1
                = citation_state f hp cm cff
                    (ex || existsb cites_citation
                             match dict_get category d with
                             | Some (PyList es) => es
                             | _ => []
                             end)).
  { intros h1.
    destruct (dict_get category d) as [[| | | | |es|]|];
      try (unfold ret; intros [= <-]; rewrite orb_false_r; now split).
    intros Hrun. exact (citation_entries_loop _ _ _ _ _ _ _ _ Hres Hrun). }
  match goal with
  | |- context [match ?run with pair _ _ => _ end] =>
      destruct run as [[[]|x] h1] eqn:Hrun; [|discriminate]
  end.
  destruct (Hloop h1 eq_refl) as [Hd Hres1].
  unfold bind, getitem. cbn [deref]. rewrite Hres1. simpl.
  match goal with
  | |- context [if ?b then ret Break else ret Continue] =>
      destruct b eqn:Hb
  end; unfold ret; intros [= <- <-]; auto.
Qed.

Lemma categories_loop f hp cm cff cats : forall ex h h',
  result h = citation_state f hp cm cff ex ->
  for_each cats P007.scan_category h = (Ok tt, h') ->
  somef_data h' = somef_data h
  /\ result h'
     = citation_state f hp cm cff
         (ex || existsb (category_cites_citation (somef_data h)) cats).
Proof.
  induction cats as [|c cats IH]; intros ex h h' Hres; simpl.
  - unfold ret. intros [= <-]. now rewrite orb_false_r.
  - unfold bind.
    destruct (P007.scan_category c h) as [[k|x] h1] eqn:Hrun; [|discriminate].
    destruct (scan_category_run _ _ _ _ _ _ _ _ _ Hres Hrun)
      as (Hd & Hres1 & Hk). cbv zeta in *.
    destruct (ex || category_cites_citation (somef_data h) c) eqn:Hex;
      subst k.
    + unfold ret. intros [= <-]. split; [exact Hd|].
      rewrite Hres1. now rewrite orb_assoc, Hex.
    + intros Hrest. destruct (IH _ _ _ Hres1 Hrest) as [Hd' Hres'].
      split; [congruence|]. rewrite Hres', Hd. now rewrite orb_assoc, Hex.
Qed.

(** The three loops of p007 leave the finding computed entry by entry. *)
Lemma citation_finding_of_run (d : dict) (file_name : string)
        (finding : dict) :
  detect_citation_missing_reference_publication_pitfall d file_name
  = Ok finding ->
  finding = citation_finding d file_name.
Proof.
  unfold detect_citation_missing_reference_publication_pitfall, call,
    P007.body.
  unfold bind at 1, new_result. cbn [update somef_data].
  unfold bind at 1, load. cbn [deref somef_data].
  set (h0 := mkStore d _).
  assert (Hres0 : result h0
                  = citation_state file_name false false false false)
    by reflexivity.
  unfold bind at 1.
  assert (Hloop : forall h1,
             match dict_get "reference_publication" d with
             | Some (PyList es) =>
                 for_each es P007.scan_reference_publication
             | _ => ret tt
             end h0 = (Ok tt, h1) ->
             somef_data h1 = d
             /\ result h1
                = citation_state file_name false
                    (existsb reference_in_codemeta
                             (attribute_entries d "reference_publication"))
                    (existsb reference_in_citation
                             (attribute_entries d "reference_publication"))
                    false).
  { intros h1. unfold attribute_entries.
    destruct (dict_get "reference_publication" d) as [[| | | | |es|]|];
      try (unfold ret; intros [= <-]; now split).
    intros Hrun.
    exact (reference_publication_loop _ _ _ _ _ _ _ _ Hres0 Hrun). }
  match goal with
  | |- context [match ?run with pair _ _ => _ end] =>
      destruct run as [[[]|x] h1] eqn:Hrun; [|discriminate]
  end.
  destruct (Hloop h1 eq_refl) as [Hd1 Hres1].
  unfold bind at 1.
  destruct (for_each P007.citation_cff_sources P007.scan_category h1)
    as [[[]|x] h2] eqn:Hcats; [|discriminate].
  destruct (categories_loop _ _ _ _ _ _ _ _ Hres1 Hcats) as [Hd2 Hres2].
  rewrite Hd1, orb_false_l in Hres2.
  unfold citation_finding.
  set (cm := existsb reference_in_codemeta _) in *.
  set (cff := existsb reference_in_citation _) in *.
  set (ex := existsb (category_cites_citation d) _) in *.
  unfold bind, getitem, when, setitem, load, ret. cbn [deref].
  destruct h2 as [d2 r2]. simpl in Hres2. subst r2. clearbody cm cff ex.
  destruct cm, ex, cff; simpl; intros [= <-]; reflexivity.
Qed.

(** X1.  Whenever [detect_citation_missing_reference_publication_pitfall]
    returns, its finding is the one computed from the record entry by
    entry: [codemeta_has_reference] and [citation_cff_has_reference] say
    whether some reference_publication entry qualifies,
    [citation_cff_exists] whether some entry of the five categories
    comes from CITATION.cff, and [has_pitfall] is the first and the
    third without the second. *)
Theorem citation_finding_characterised (d : dict) (file_name : string)
        (finding : dict) :
  detect_citation_missing_reference_publication_pitfall d file_name
  = Ok finding ->
  finding = citation_finding d file_name.
Proof. apply citation_finding_of_run. Qed.

Lemma existsb_permutation {X} (p : X -> bool) (l l' : list X) :
  Permutation.Permutation l l' -> existsb p l = existsb p l'.
Proof.
  intros Hperm. induction Hperm; simpl.
  - reflexivity.
  - now rewrite IHHperm.
  - now rewrite !orb_assoc, (orb_comm (p y)).
  - congruence.
Qed.

(** X2.  The finding of p007 does not depend on the order of the
    entries: two records whose attributes hold the same entries up to
    order, on both of which the rule returns, get the same finding. *)
Theorem citation_finding_order_independent (d d' : dict)
        (file_name : string) (finding finding' : dict) :
  (forall attribute,
     Permutation.Permutation (attribute_entries d attribute)
                             (attribute_entries d' attribute)) ->
  detect_citation_missing_reference_publication_pitfall d file_name
  = Ok finding ->
  detect_citation_missing_reference_publication_pitfall d' file_name
  = Ok finding' ->
  finding = finding'.
Proof.
  intros Hperm Hrun Hrun'.
  apply citation_finding_of_run in Hrun.
  apply citation_finding_of_run in Hrun'. subst.
  unfold citation_finding.
  rewrite !(existsb_permutation _ _ _ (Hperm "reference_publication")).
  assert (Hcats : forall cats,
             existsb (category_cites_citation d) cats
             = existsb (category_cites_citation d') cats).
  { induction cats as [|c cats IH]; [reflexivity|]. simpl.
    unfold category_cites_citation at 1 3.
    now rewrite (existsb_permutation _ _ _ (Hperm c)), IH. }
  now rewrite Hcats.
Qed.

End P007Facts.

Module P009Facts.
Import PyString Py Eval Rules Readings.

(** A homepage URL is a non-empty string. *)
Lemma homepage_url_is_text v :
  P009.is_homepage_url_repo v = Ok true -> exists url, v = PyStr url.
Proof.
  unfold P009.is_homepage_url_repo.
  destruct (truthy v) eqn:Ht; simpl; [|discriminate].
  destruct v; simpl; try discriminate. eauto.
Qed.

Section WithHelpers.
Variable ext : pyval -> outcome pyval.
Variable fmt : pyval -> string.

Lemma scan_entry_run f entry h c h' :
  result h = homepage_default f ->
  P009.scan_entry ext fmt entry h = (Ok c, h') ->
  somef_data h' = somef_data h
  /\ if homepage_entry entry
     then c = Break
          /\ exists technique source url file,
               get_method entry "technique" (PyStr "") = Ok technique
               /\ get_method entry "source" (PyStr "") = Ok source
               /\ result_value entry = Ok (PyStr url)
               /\ P009.is_homepage_url_repo (PyStr url) = Ok true
               /\ ext source = Ok file
               /\ result h'
                  = homepage_found f (PyStr url)
                      (if truthy source then source
                       else PyStr (P009.technique_label fmt technique))
                      file
     else c = Continue /\ h' = h.
Proof.
  intros Hres. unfold P009.scan_entry, homepage_entry.
  unfold bind, lift, ret, setitem. destruct h as [d r]. simpl in Hres. subst r.
  destruct (get_method entry "technique" (PyStr "")) as [technique|]; simpl;
    [|discriminate].
  destruct (get_method entry "source" (PyStr "")) as [source|]; simpl;
    [|discriminate].
  destruct (P009.is_metadata_source technique source) as [[|]|]; simpl;
    try discriminate; [|intros [= <- <-]; auto].
  destruct (has_result_value entry) as [[|]|]; simpl;
    try discriminate; [|intros [= <- <-]; auto].
  destruct (result_value entry) as [v|]; simpl; [|discriminate].
  destruct (P009.is_homepage_url_repo v) as [[|]|] eqn:Hhome; simpl;
    try discriminate; [|intros [= <- <-]; auto].
  destruct (homepage_url_is_text v Hhome) as [url ->].
  destruct (ext source) as [file|] eqn:Hext; simpl; [|discriminate].
  intros [= <- <-]. split; [reflexivity|]. split; [reflexivity|].
  exists technique, source, url, file.
  do 3 (split; [reflexivity|]). split; [exact Hhome|].
  split; [exact Hext|reflexivity].
Qed.

Lemma entries_loop f es : forall h h',
  result h = homepage_default f ->
  for_each es (P009.scan_entry ext fmt) h = (Ok tt, h') ->
  match find homepage_entry es with
  | None => result h' = homepage_default f
  | Some entry =>
      exists technique source url file,
        get_method entry "technique" (PyStr "") = Ok technique
        /\ get_method entry "source" (PyStr "") = Ok source
        /\ result_value entry = Ok (PyStr url)
        /\ P009.is_homepage_url_repo (PyStr url) = Ok true
        /\ ext source = Ok file
        /\ result h'
           = homepage_found f (PyStr url)
               (if truthy source then source
                else PyStr (P009.technique_label fmt technique))
               file
  end.
Proof.
  induction es as [|e es IH]; intros h h' Hres; simpl.
  - unfold ret. now intros [= <-].
  - unfold bind.
    destruct (P009.scan_entry ext fmt e h) as [[c|x] h1] eqn:Hrun;
      [|discriminate].
    destruct (scan_entry_run _ _ _ _ _ Hres Hrun) as [_ Hc].
    destruct (homepage_entry e).
    + destruct Hc as [-> Hfound]. unfold ret. now intros [= <-].
    + destruct Hc as [-> ->]. now apply IH.
Qed.

(** The loop of p009 stops at the first homepage entry. *)
Lemma homepage_finding_of_run (d : dict) (file_name : string)
        (finding : dict) :
  detect_coderepository_homepage_pitfall ext fmt d file_name = Ok finding ->
  match find homepage_entry (attribute_entries d "code_repository") with
  | None => finding = homepage_default file_name
  | Some entry =>
      exists technique source url file,
        get_method entry "technique" (PyStr "") = Ok technique
        /\ get_method entry "source" (PyStr "") = Ok source
        /\ result_value entry = Ok (PyStr url)
        /\ P009.is_homepage_url_repo (PyStr url) = Ok true
        /\ ext source = Ok file
        /\ finding
           = homepage_found file_name (PyStr url)
               (if truthy source then source
                else PyStr (P009.technique_label fmt technique))
               file
  end.
Proof.
  unfold detect_coderepository_homepage_pitfall, call, P009.body,
    attribute_entries.
  unfold bind at 1, new_result. cbn [update somef_data].
  unfold bind at 1, load. cbn [deref somef_data].
  destruct (dict_get "code_repository" d) as [[| | | | |es|]|];
    try (simpl; now intros [= <-]).
  unfold bind.
  match goal with
  | |- context [for_each es _ ?h0] =>
      destruct (for_each es (P009.scan_entry ext fmt) h0)
        as [[[]|x] h1] eqn:Hrun; [|discriminate];
      pose proof (entries_loop file_name es h0 h1 eq_refl Hrun) as Hloop
  end.
  cbn [deref fst]. intros [= <-]. exact Hloop.
Qed.


End WithHelpers.

End P009Facts.

Module W006Spec.
Import PyString Py Eval Rules Readings W006 W006Facts W006Main.

Lemma find_codemeta_run entry vars h c vars' h' :
  fst vars = PyNone ->
  find_codemeta entry vars h = (Ok (c, vars'), h') ->
  h' = h
  /\ if codemeta_entry entry
     then c = Break
          /\ result_value entry = Ok (fst vars')
          /\ get_method entry "source" (PyStr "") = Ok (snd vars')
     else c = Continue /\ vars' = vars.
Proof.
  intros Hnone. unfold find_codemeta, codemeta_entry.
  unfold bind, lift, ret. rewrite Hnone.
  destruct (get_method entry "source" (PyStr "")) as [source|]; simpl;
    [|discriminate].
  destruct (get_method entry "technique" (PyStr "")) as [technique|];
    simpl; [|discriminate].
  destruct (is_codemeta source technique) as [[|]|]; simpl;
    try discriminate; [|intros [= <- <- <-]; auto].
  destruct (has_result_value entry) as [[|]|]; simpl;
    try discriminate; [|intros [= <- <- <-]; auto].
  destruct (result_value entry) as [v|]; simpl; [|discriminate].
  intros [= <- <- <-]. auto.
Qed.

Lemma find_codemeta_loop es : forall h vars' h',
  for_acc es (PyNone, PyNone) find_codemeta h = (Ok vars', h') ->
  match find codemeta_entry es with
  | None => vars' = (PyNone, PyNone)
  | Some entry =>
      result_value entry = Ok (fst vars')
      /\ get_method entry "source" (PyStr "") = Ok (snd vars')
  end.
Proof.
  induction es as [|e es IH]; intros h vars' h'; simpl.
  - unfold ret. now intros [= <-].
  - unfold bind.
    destruct (find_codemeta e (PyNone, PyNone) h) as [[[c vars1]|x] h1]
      eqn:Hrun; [|discriminate].
    destruct (find_codemeta_run e (PyNone, PyNone) _ _ _ _ eq_refl Hrun)
      as [-> Hc].
    destruct (codemeta_entry e).
    + destruct Hc as (-> & Hv & Hs). unfold ret. now intros [= <-].
    + destruct Hc as [-> ->]. apply IH.
Qed.

Lemma record_all_source_kept found : forall vars,
  is_none (other_identifier vars) = false ->
  other_source (record_all found vars) = other_source vars.
Proof.
  induction found as [|f found IH]; intros vars Hset; [reflexivity|].
  unfold record_all in *. simpl.
  assert (Hp : other_identifier (push f vars) = other_identifier vars
               /\ other_source (push f vars) = other_source vars).
  { unfold push. now rewrite Hset. }
  destruct Hp as [Hi Hs]. rewrite IH; [exact Hs|]. now rewrite Hi.
Qed.

Lemma record_all_first_source es :
  other_source (record_all (contributions es) (mkOther PyNone PyNone []))
  = match contributions es with
    | [] => PyNone
    | found :: _ => snd found
    end.
Proof.
  destruct (contributions es) as [|f fs] eqn:Hcs; [reflexivity|].
  unfold record_all. simpl.
  fold (record_all fs (push f (mkOther PyNone PyNone []))).
  rewrite record_all_source_kept; [reflexivity|].
  unfold push. simpl.
  destruct (valid_identifier_str (fst f)) as [s [-> _]]; [|reflexivity].
  apply (contributions_valid es). rewrite Hcs. now left.
Qed.

(** The two loops of w006 leave the finding computed from their finds. *)
Lemma identifier_finding_of_run (d : dict) (file_name : string)
        (finding : dict) :
  detect_identifier_name_warning d file_name = Ok finding ->
  exists codemeta_identifier codemeta_source,
    match find codemeta_entry (identifier_entries d) with
    | None => codemeta_identifier = PyNone /\ codemeta_source = PyNone
    | Some entry =>
        result_value entry = Ok codemeta_identifier
        /\ get_method entry "source" (PyStr "") = Ok codemeta_source
    end
    /\ finding
       = identifier_finding file_name codemeta_identifier codemeta_source
                            (contributions (identifier_entries d)).
Proof.
  unfold detect_identifier_name_warning, call, W006.body, identifier_entries.
  unfold bind at 1, new_result. cbn [update somef_data].
  unfold bind at 1, load. cbn [deref somef_data].
  destruct (dict_get "identifier" d) as [[| | | | |es|]|];
    try (simpl; intros [= <-]; exists PyNone, PyNone; now split).
  unfold bind at 1.
  destruct (for_acc es (PyNone, PyNone) find_codemeta _)
    as [[[cm cms]|e] h2] eqn:Hcm; [|discriminate].
  pose proof (find_codemeta_loop _ _ _ _ Hcm) as Hfirst.
  apply find_codemeta_loop_store in Hcm. subst h2.
  unfold bind at 1.
  destruct (for_acc es (mkOther PyNone PyNone []) collect_other _)
    as [[ot|e] h3] eqn:Hot; [|discriminate].
  apply collect_other_loop in Hot as (-> & -> & _).
  set (ot := record_all (contributions es) (mkOther PyNone PyNone [])).
  assert (Hids : other_identifiers ot = map other_record (contributions es)).
  { unfold ot. now rewrite record_all_identifiers. }
  pose proof (record_all_first es) as Hoid.
  pose proof (record_all_first_source es) as Hosrc.
  fold ot in Hoid, Hosrc. clearbody ot.
  intros Hrun. exists cm, cms. split.
  { destruct (find codemeta_entry es); [exact Hfirst|].
    injection Hfirst as -> ->. now split. }
  revert Hrun. unfold identifier_finding.
  cbn [fst snd]. rewrite <- Hoid, <- Hosrc.
  assert (Hlen : (0 <? Z.of_nat (List.length (other_identifiers ot)))
                 = match contributions es with
                   | [] => false
                   | _ :: _ => true
                   end).
  { rewrite Hids. now destruct (contributions es). }
  rewrite <- Hlen, <- Hids.
  destruct (truthy cm && negb (is_valid_identifier cm)
            && truthy (other_identifier ot));
    simpl; intros [= <-]; reflexivity.
Qed.

(** X4.  Whenever [detect_identifier_name_warning] returns, its finding
    is the one computed from the identifier entries:
    [codemeta_identifier] and [codemeta_source] are the value and the
    source of the first codemeta entry that has a value (a null value
    included), [other_identifier] and [other_source] those of the first
    valid identifier outside codemeta, [other_identifiers] all of these,
    and [has_warning] is set exactly when the codemeta identifier is
    truthy and not valid and another identifier was found. *)
Theorem identifier_finding_characterised (d : dict) (file_name : string)
        (finding : dict) :
  detect_identifier_name_warning d file_name = Ok finding ->
  exists codemeta_identifier codemeta_source,
    match find codemeta_entry (identifier_entries d) with
    | None => codemeta_identifier = PyNone /\ codemeta_source = PyNone
    | Some entry =>
        result_value entry = Ok codemeta_identifier
        /\ get_method entry "source" (PyStr "") = Ok codemeta_source
    end
    /\ finding
       = identifier_finding file_name codemeta_identifier codemeta_source
                            (contributions (identifier_entries d)).
Proof. apply identifier_finding_of_run. Qed.

End W006Spec.

(** ** Fail-open evaluation *)
Module FailOpen.
Import PyString Py Eval Catalog Rules Readings Totality Samples.

Lemma lacks_value_holds entry :
  lacks_value entry = true -> holds (has_result_value entry) = false.
Proof.
  unfold lacks_value, holds.
  now destruct (has_result_value entry) as [[|]|].
Qed.

Lemma find_none (p : pyval -> bool) es :
  (forall e, In e es -> p e = false) -> find p es = None.
Proof.
  induction es as [|e es IH]; [reflexivity|]. intros H. simpl.
  rewrite (H e (or_introl eq_refl)). apply IH. intros e' He'.
  apply H. now right.
Qed.

Lemma existsb_none (p : pyval -> bool) es :
  (forall e, In e es -> p e = false) -> existsb p es = false.
Proof.
  induction es as [|e es IH]; [reflexivity|]. intros H. simpl.
  rewrite (H e (or_introl eq_refl)). apply IH. intros e' He'.
  apply H. now right.
Qed.

(** Without a value anywhere in the evidence attribute, no entry of it
    counts for a rule. *)
Lemma no_evidence_entries r d e :
  no_evidence r d = true ->
  In e (attribute_entries d (evidence_attribute r)) ->
  holds (has_result_value e) = false.
Proof.
  unfold no_evidence, attribute_entries.
  destruct (dict_get (evidence_attribute r) d) as [[| | | | |es|]|];
    try (intros _ []).
  intros Hall Hin. apply lacks_value_holds.
  rewrite forallb_forall in Hall. now apply Hall.
Qed.

Lemma citation_rule_fails_open d file_name finding :
  detect_citation_missing_reference_publication_pitfall d file_name
  = Ok finding ->
  no_evidence P007_citation d = true ->
  flag "has_pitfall" finding = false.
Proof.
  intros Hrun Hno. apply P007Facts.citation_finding_of_run in Hrun as ->.
  unfold citation_finding, flag. cbn [dict_get String.eqb Ascii.eqb Bool.eqb
    truthy].
  rewrite (existsb_none reference_in_codemeta); [reflexivity|].
  intros e He. unfold reference_in_codemeta.
  rewrite (no_evidence_entries P007_citation d e Hno He).
  apply andb_false_r.
Qed.

Lemma homepage_rule_fails_open ext fmt d file_name finding :
  detect_coderepository_homepage_pitfall ext fmt d file_name = Ok finding ->
  no_evidence P009_homepage d = true ->
  flag "has_pitfall" finding = false.
Proof.
  intros Hrun Hno. apply P009Facts.homepage_finding_of_run in Hrun.
  rewrite (find_none homepage_entry) in Hrun; [now subst finding|].
  intros e He. unfold homepage_entry.
  rewrite (no_evidence_entries P009_homepage d e Hno He).
  now rewrite andb_false_r.
Qed.

Lemma identifier_rule_fails_open d file_name finding :
  detect_identifier_name_warning d file_name = Ok finding ->
  no_evidence W006_identifier d = true ->
  flag "has_warning" finding = false.
Proof.
  intros Hrun Hno.
  apply W006Spec.identifier_finding_of_run in Hrun
    as (codemeta_identifier & codemeta_source & Hfirst & ->).
  rewrite (find_none codemeta_entry) in Hfirst.
  - destruct Hfirst as [-> _]. reflexivity.
  - intros e He. unfold codemeta_entry.
    rewrite (no_evidence_entries W006_identifier d e Hno He).
    apply andb_false_r.
Qed.

(** C1, as the code has it.  A rule evaluated on a record whose list
    attributes hold dictionaries with a string [source] and a dictionary
    [result] (and, for the homepage rule, string or falsy repository
    values and a helper that accepts strings) returns a finding and
    raises nothing.  And whenever a rule returns a finding, on any
    record at all, the finding reports no issue if the evidence cannot
    be resolved: the evidence attribute is absent, is not a list, is
    empty, or none of its entries has a [result] holding a [value]. *)
Theorem rule_returns_and_fails_open
        (extract_metadata_source_filename : pyval -> outcome pyval)
        (format_value : pyval -> string)
        (r : rule) (somef_data : dict) (file_name : string) :
  ((forall s, exists v, extract_metadata_source_filename (PyStr s) = Ok v) ->
   record_ok r somef_data = true ->
   exists finding,
     evaluate extract_metadata_source_filename format_value r
              somef_data file_name = Ok finding)
  /\ (forall finding,
        evaluate extract_metadata_source_filename format_value r
                 somef_data file_name = Ok finding ->
        no_evidence r somef_data = true ->
        flag (issue_field r) finding = false).
Proof.
  split.
  - intros Hext Hok. exact (rule_returns _ _ _ _ _ Hext Hok).
  - intros finding Hrun Hno. destruct r; cbn [issue_field].
    + exact (citation_rule_fails_open _ _ _ Hrun Hno).
    + exact (homepage_rule_fails_open _ _ _ _ _ Hrun Hno).
    + exact (identifier_rule_fails_open _ _ _ Hrun Hno).
Qed.

Lemma rule_returns_and_fails_open_witness :
  record_ok P009_homepage valueless_record = true
  /\ no_evidence P009_homepage valueless_record = true
  /\ exists finding,
       evaluate stub no_format P009_homepage valueless_record "test_repo.json"
       = Ok finding
       /\ flag "has_pitfall" finding = false.
Proof.
  split; [reflexivity|]. split; [reflexivity|].
  destruct (rule_returns_and_fails_open
              stub no_format P009_homepage valueless_record "test_repo.json")
    as [Hreturns Hquiet].
  destruct Hreturns as [finding Hrun];
    [intros s; exists PyNone; reflexivity|reflexivity|].
  exists finding. split; [exact Hrun|].
  exact (Hquiet finding Hrun eq_refl).
Defined.

End FailOpen.

(** ** The exceptions a rule can raise *)
Module RaiseFacts.
Import PyString Py Eval Hoare HoareRules Catalog Invariants Rules.

Lemma get_method_raises v k default e :
  get_method v k default = Raise e -> e <> KeyError.
Proof. destruct v; simpl; intros [= <-]; discriminate. Qed.

Lemma contains_lit_raises lit v e :
  contains_lit lit v = Raise e -> e <> KeyError.
Proof. destruct v; simpl; intros [= <-]; discriminate. Qed.

Lemma lower_method_raises v e :
  lower_method v = Raise e -> e <> KeyError.
Proof. destruct v; simpl; intros [= <-]; discriminate. Qed.

(** The membership test protects the subscript that follows it. *)
Lemma has_result_value_raises entry e :
  has_result_value entry = Raise e -> e <> KeyError.
Proof.
  unfold has_result_value.
  destruct entry as [| | | |s|xs|kvs]; simpl; try (intros [= <-]; discriminate).
  - destruct (PyString.contains "result" s); simpl;
      intros [= <-]; discriminate.
  - destruct (existsb _ xs); simpl; intros [= <-]; discriminate.
  - unfold dict_mem. destruct (dict_get "result" kvs) as [r|]; simpl;
      [|discriminate].
    apply contains_lit_raises.
Qed.

Lemma result_value_raises entry e :
  has_result_value entry = Ok true ->
  result_value entry = Raise e -> e <> KeyError.
Proof.
  unfold has_result_value, result_value.
  destruct entry as [| | | |s|xs|kvs]; simpl; try discriminate;
    try (intros _ [= <-]; discriminate).
  unfold dict_mem. destruct (dict_get "result" kvs) as [r|]; simpl;
    [|discriminate].
  destruct r as [| | | |s|xs|kvs']; simpl; try discriminate;
    try (intros _ [= <-]; discriminate).
  unfold dict_mem. destruct (dict_get "value" kvs'); discriminate.
Qed.

Lemma is_repository_url_raises v e :
  P009.is_repository_url v = Raise e -> e <> KeyError.
Proof.
  unfold P009.is_repository_url. destruct (truthy v); simpl; [|discriminate].
  destruct (lower_method v) eqn:Hl; simpl.
  - destruct (PyString.contains "github.io" a); discriminate.
  - intros [= <-]. exact (lower_method_raises _ _ Hl).
Qed.

Lemma is_homepage_url_repo_raises v e :
  P009.is_homepage_url_repo v = Raise e -> e <> KeyError.
Proof.
  unfold P009.is_homepage_url_repo.
  destruct (truthy v); simpl; [|discriminate].
  destruct (lower_method v) eqn:Hl; simpl.
  - destruct (P009.is_repository_url v) as [[|]|] eqn:Hr; simpl;
      try discriminate.
    intros [= <-]. exact (is_repository_url_raises _ _ Hr).
  - intros [= <-]. exact (lower_method_raises _ _ Hl).
Qed.

Lemma is_metadata_source_raises technique source e :
  P009.is_metadata_source technique source = Raise e -> e <> KeyError.
Proof.
  unfold P009.is_metadata_source.
  destruct (eq_str technique "code_parser"); [discriminate|].
  destruct (in_literals technique P009.metadata_sources); [discriminate|].
  destruct (lower_method source) eqn:Hl; simpl; [discriminate|].
  intros [= <-]. exact (lower_method_raises _ _ Hl).
Qed.

Lemma is_codemeta_raises source technique e :
  W006.is_codemeta source technique = Raise e -> e <> KeyError.
Proof.
  unfold W006.is_codemeta.
  destruct (lower_method source) eqn:Hl; simpl; [discriminate|].
  intros [= <-]. exact (lower_method_raises _ _ Hl).
Qed.

Lemma guarded_contains_raises (b : bool) lit v e :
  (if b then contains_lit lit v else Ok false) = Raise e -> e <> KeyError.
Proof. destruct b; [apply contains_lit_raises|discriminate]. Qed.

(** [m] keeps the invariant and raises no [KeyError]. *)
Ltac no_key_error :=
  intros ? _;
  first [ eapply get_method_raises; eassumption
        | eapply contains_lit_raises; eassumption
        | eapply guarded_contains_raises; eassumption
        | eapply has_result_value_raises; eassumption
        | eapply result_value_raises; eassumption
        | eapply is_metadata_source_raises; eassumption
        | eapply is_homepage_url_repo_raises; eassumption
        | eapply is_codemeta_raises; eassumption ].

Ltac key_step :=
  lazymatch goal with
  | |- triple _ (bind (lift ?o) _) _ _ =>
      let Ho := fresh "Ho" in
      apply triple_bind_lift; destruct o eqn:Ho; [|no_key_error]
  | |- triple _ (bind (load _) _) _ _ =>
      apply triple_bind_load; intros ? _
  | |- triple _ (bind (getitem Result _) _) _ _ =>
      apply triple_bind_getitem;
      [intros ? Hinv Hnone;
       exfalso; refine (Inv_getitem _ _ _ _ _ Hinv Hnone); in_fields
      |intros ?]
  | |- triple _ (bind _ _) _ _ => apply triple_seq; [|intros ?]
  | |- triple _ (ret _) _ _ => apply triple_ret; intros ? Hinv; exact Hinv
  | |- triple _ (load Result) _ _ =>
      apply triple_load; intros ? Hinv; exact Hinv
  | |- triple _ (when _ _) _ _ => apply triple_when; intros _
  | |- triple _ (setitem Result _ _) _ _ =>
      apply triple_setitem; intros ? Hinv; keep_setitem
  | |- triple _ (for_each _ _) _ _ => apply triple_for_each; intros ? _
  | |- triple _ (for_acc _ _ _) _ _ => apply triple_for_acc; intros ? ? _
  | |- triple _ (if ?b then _ else _) _ _ => destruct b
  | |- triple _ (match ?x with _ => _ end) _ _ => destruct x
  end.

Ltac key_steps := repeat key_step.

Lemma p007_scan_reference_publication_keys d0 entry :
  triple (Inv d0 P007.fields) (P007.scan_reference_publication entry)
         (fun _ => Inv d0 P007.fields) (fun e _ => e <> KeyError).
Proof. unfold P007.scan_reference_publication. key_steps. Qed.

Lemma p007_scan_category_keys d0 category :
  triple (Inv d0 P007.fields) (P007.scan_category category)
         (fun _ => Inv d0 P007.fields) (fun e _ => e <> KeyError).
Proof.
  unfold P007.scan_category. key_steps.
  unfold P007.scan_citation_entry. key_steps.
Qed.

Lemma p007_body_keys d0 file_name :
  triple (fun h => somef_data h = d0) (P007.body file_name)
         (fun _ _ => True) (fun e _ => e <> KeyError).
Proof.
  apply (triple_call d0 P007.fields); [reflexivity|].
  apply triple_conseq with (Q := fun _ => Inv d0 P007.fields)
                           (E := fun e _ => e <> KeyError); auto.
  key_steps;
    first [apply p007_scan_reference_publication_keys
          | apply p007_scan_category_keys].
Qed.

Lemma w006_body_keys d0 file_name :
  triple (fun h => somef_data h = d0) (W006.body file_name)
         (fun _ _ => True) (fun e _ => e <> KeyError).
Proof.
  apply (triple_call d0 W006.fields); [reflexivity|].
  apply triple_conseq with (Q := fun _ => Inv d0 W006.fields)
                           (E := fun e _ => e <> KeyError); auto.
  key_steps; unfold W006.find_codemeta, W006.collect_other; key_steps.
Qed.

Section P009.
Variable ext : pyval -> outcome pyval.
Variable fmt : pyval -> string.
Hypothesis ext_raises : forall v, ext v <> Raise KeyError.

Lemma ext_raises' v e : ext v = Raise e -> e <> KeyError.
Proof. intros Hv ->. exact (ext_raises v Hv). Qed.

Lemma p009_body_keys d0 file_name :
  triple (fun h => somef_data h = d0) (P009.body ext fmt file_name)
         (fun _ _ => True) (fun e _ => e <> KeyError).
Proof.
  apply (triple_call d0 P009.fields); [reflexivity|].
  apply triple_conseq with (Q := fun _ => Inv d0 P009.fields)
                           (E := fun e _ => e <> KeyError); auto.
  key_steps. unfold P009.scan_entry.
  repeat first [ key_step
               | apply triple_bind_lift; destruct (ext _) eqn:Hext;
                 [|intros ? _; eapply ext_raises'; eassumption] ].
Qed.

End P009.

(** X5.  A rule never fails with [KeyError]: every subscript is taken
    after a membership test on the same object, so what a malformed
    record can raise is [AttributeError] or [TypeError] (given a helper
    that raises no [KeyError] itself). *)
Theorem rules_raise_no_key_error
        (extract_metadata_source_filename : pyval -> outcome pyval)
        (format_value : pyval -> string)
        (r : rule) (somef_data : dict) (file_name : string) (e : exn) :
  (forall v, extract_metadata_source_filename v <> Raise KeyError) ->
  evaluate extract_metadata_source_filename format_value r
           somef_data file_name = Raise e ->
  e = AttributeError \/ e = TypeError.
Proof.
  intros Hext Hrun.
  assert (H : triple (fun h => Eval.somef_data h = somef_data)
                     (body extract_metadata_source_filename format_value
                           r file_name)
                     (fun _ _ => True) (fun e _ => e <> KeyError)).
  { destruct r; simpl;
      [apply p007_body_keys | now apply p009_body_keys
      | apply w006_body_keys]. }
  unfold evaluate, call in Hrun.
  specialize (H (mkStore somef_data []) eq_refl).
  destruct (body _ _ r file_name (mkStore somef_data [])) as [[f|x] h'];
    simpl in Hrun; [discriminate|].
  injection Hrun as ->. destruct e; auto. contradiction.
Qed.

End RaiseFacts.

(** ** The matcher decides the meaning of a pattern *)
Module RegexFacts.
Import PyString Regex RegexMeaning.

Lemma append_nil_r s : (s ++ "")%string = s.
Proof. induction s; simpl; congruence. Qed.

Lemma append_assoc s1 s2 s3 :
  ((s1 ++ s2) ++ s3)%string = (s1 ++ (s2 ++ s3))%string.
Proof. induction s1; simpl; congruence. Qed.

Lemma append_eq_nil s1 s2 : (s1 ++ s2)%string = "" -> s1 = "" /\ s2 = "".
Proof. destruct s1; simpl; [auto|discriminate]. Qed.

Lemma nullable_lang r : nullable r = true <-> lang r "".
Proof.
  split.
  - induction r; simpl; intros H; try discriminate.
    + constructor.
    + apply andb_prop in H as [H1 H2].
      change "" with ("" ++ "")%string. constructor; auto.
    + apply orb_prop in H as [H|H]; [apply lang_alt_l|apply lang_alt_r]; auto.
    + constructor.
  - intros H. remember "" as s eqn:Hs.
    induction H; simpl; try discriminate; auto.
    + apply append_eq_nil in Hs as [-> ->]. now rewrite IHlang1, IHlang2.
    + now rewrite IHlang.
    + rewrite IHlang; [apply orb_true_r|exact Hs].
Qed.

(** A non-empty word of a starred pattern starts with a non-empty word
    of the pattern. *)
Lemma star_cons_inv r c s :
  lang (Star r) (String c s) ->
  exists s1 s2, s = (s1 ++ s2)%string
                /\ lang r (String c s1) /\ lang (Star r) s2.
Proof.
  intros H. remember (Star r) as r' eqn:Hr. remember (String c s) as w eqn:Hw.
  revert c s Hw. induction H; intros c0 s0 Hw; try discriminate.
  injection Hr as ->.
  destruct s1 as [|c1 s1]; simpl in Hw.
  - apply IHlang2; auto.
  - injection Hw as -> <-. eauto.
Qed.

Lemma deriv_lang c r : forall s, lang (deriv c r) s <-> lang r (String c s).
Proof.
  induction r; intros s; simpl.
  - split; intros H; inversion H.
  - split; intros H; inversion H.
  - destruct (Ascii.eqb_spec (lower_char c0) (lower_char c)) as [Heq|Hne];
      split; intros H; inversion H; subst.
    + now constructor.
    + constructor.
    + congruence.
  - destruct (is_digit c) eqn:Hd; split; intros H; inversion H; subst.
    + now constructor.
    + constructor.
    + congruence.
  - destruct (Z.eqb_spec (code c) 10) as [Heq|Hne];
      split; intros H; inversion H; subst.
    + contradiction.
    + now constructor.
    + constructor.
  - assert (Hcat : lang (Cat (deriv c r1) r2) s
                   -> lang (Cat r1 r2) (String c s)).
    { intros H. inversion H; subst.
      change (String c (s1 ++ s2)) with (String c s1 ++ s2)%string.
      constructor; [now apply IHr1|assumption]. }
    assert (Hinv : lang (Cat r1 r2) (String c s) ->
                   lang (Cat (deriv c r1) r2) s
                   \/ (lang r1 "" /\ lang r2 (String c s))).
    { intros H. inversion H; subst.
      destruct s1 as [|c1 s1]; simpl in *.
      - right. subst. now split.
      - match goal with Heq : String _ _ = String _ _ |- _ =>
          injection Heq as -> <- end.
        left. constructor; [now apply IHr1|assumption]. }
    destruct (nullable r1) eqn:Hn; split; intros H.
    + inversion H; subst; [now apply Hcat|].
      change (String c s) with ("" ++ String c s)%string.
      constructor; [now apply nullable_lang|now apply IHr2].
    + destruct (Hinv H) as [H1|[_ H2]];
        [now apply lang_alt_l|apply lang_alt_r; now apply IHr2].
    + now apply Hcat.
    + destruct (Hinv H) as [H1|[H1 _]]; [exact H1|].
      apply nullable_lang in H1. congruence.
  - split; intros H; inversion H; subst;
      solve [apply lang_alt_l; now apply IHr1
            | apply lang_alt_r; now apply IHr2].
  - split; intros H.
    + inversion H; subst.
      change (String c (s1 ++ s2)) with (String c s1 ++ s2)%string.
      constructor; [now apply IHr|assumption].
    + destruct (star_cons_inv _ _ _ H) as (s1 & s2 & -> & H1 & H2).
      constructor; [now apply IHr|assumption].
Qed.

(** [matches] answers whether some prefix of the string is a word of the
    pattern. *)
Lemma matches_lang r : forall s,
  matches r s = true <-> exists p q, s = (p ++ q)%string /\ lang r p.
Proof.
  intros s. revert r. induction s as [|c s IH]; intros r; simpl.
  - rewrite orb_false_r. rewrite nullable_lang. split.
    + intros H. exists "", "". now split.
    + intros (p & q & Hpq & H). symmetry in Hpq.
      apply append_eq_nil in Hpq as [-> _]. exact H.
  - split.
    + intros H. apply orb_prop in H as [H|H].
      * exists "", (String c s). split; [reflexivity|now apply nullable_lang].
      * apply IH in H as (p & q & -> & H).
        exists (String c p), q. split; [reflexivity|now apply deriv_lang].
    + intros (p & q & Hpq & H). destruct p as [|c' p]; simpl in Hpq.
      * apply nullable_lang in H. now rewrite H.
      * injection Hpq as <- ->. apply orb_true_iff. right.
        apply IH. exists p, q. split; [reflexivity|now apply deriv_lang].
Qed.

End RegexFacts.

(** ** Characters and substrings *)
Module TextFacts.
Import PyString Readings.

Ltac all_ascii c := destruct c as [[] [] [] [] [] [] [] []]; vm_compute.

Lemma lower_char_idempotent c : lower_char (lower_char c) = lower_char c.
Proof. all_ascii c; reflexivity. Qed.

Lemma lower_idempotent s : lower (lower s) = lower s.
Proof.
  induction s as [|c s IH]; simpl; [reflexivity|].
  now rewrite lower_char_idempotent, IH.
Qed.

Lemma lower_is_empty s : is_empty (lower s) = is_empty s.
Proof. now destruct s. Qed.

(** No lower-cased character is a capital D. *)
Lemma lower_char_not_capital_d c : Ascii.eqb (lower_char c) "D" = false.
Proof. all_ascii c; reflexivity. Qed.

Lemma lower_has_no_capital_d s : has_char "D" (lower s) = false.
Proof.
  induction s as [|c s IH]; simpl; [reflexivity|].
  now rewrite lower_char_not_capital_d, IH.
Qed.

Lemma prefix_head a n x t :
  String.prefix (String a n) (String x t) = true -> a = x.
Proof. simpl. destruct (ascii_dec a x); [auto|discriminate]. Qed.

(** A text that contains a word contains its first character. *)
Lemma contains_has_char a n t :
  contains (String a n) t = true -> has_char a t = true.
Proof.
  induction t as [|x t IH]; [discriminate|].
  cbn [contains has_char]. intros H. apply orb_prop in H as [H|H].
  - apply prefix_head in H as ->. now rewrite Ascii.eqb_refl.
  - rewrite (IH H). apply orb_true_r.
Qed.

Lemma lower_contains_no_description s :
  contains "DESCRIPTION" (lower s) = false.
Proof.
  destruct (contains "DESCRIPTION" (lower s)) eqn:H; [|reflexivity].
  apply contains_has_char in H. now rewrite lower_has_no_capital_d in H.
Qed.

Lemma lstrip_head s :
  lstrip s = ""
  \/ exists c t, lstrip s = String c t /\ is_space c = false.
Proof.
  induction s as [|c s IH]; simpl; [now left|].
  destruct (is_space c) eqn:Hc; [exact IH|]. right. eauto.
Qed.

Lemma rstrip_head c s :
  is_space c = false -> rstrip (String c s) = String c (rstrip s).
Proof. intros Hc. simpl. now rewrite Hc, andb_false_r. Qed.

Lemma lstrip_fixed c s :
  is_space c = false -> lstrip (String c s) = String c s.
Proof. intros Hc. simpl. now rewrite Hc. Qed.

Lemma strip_idempotent s : strip (strip s) = strip s.
Proof.
  unfold strip. destruct (lstrip_head s) as [->|(c & t & -> & Hc)];
    [reflexivity|].
  rewrite (rstrip_head _ _ Hc), (lstrip_fixed _ _ Hc), (rstrip_head _ _ Hc).
  now rewrite VersionFacts.rstrip_idempotent.
Qed.

End TextFacts.

(** ** The URL classifiers of [p009] *)
Module ClassifierFacts.
Import PyString Py Readings TextFacts.

(** X6.  Every URL whose lower-case form contains [github.io] is a
    homepage for [is_homepage_url_repo], whatever else it contains. *)
Theorem github_pages_is_homepage (url : string) :
  contains "github.io" (lower url) = true ->
  P009.is_homepage_url_repo (PyStr url) = Ok true.
Proof.
  intros H.
  assert (Hne : is_empty url = false) by (now destruct url).
  unfold P009.is_homepage_url_repo, P009.is_repository_url.
  cbn [truthy lower_method obind]. rewrite Hne. cbn [negb obind].
  rewrite H. cbn [obind]. unfold P009.any_indicator, P009.homepage_indicators.
  cbn [existsb]. rewrite H. now rewrite !orb_true_r.
Qed.

(** X7.  Both classifiers ignore letter case: two URLs with the same
    lower-case form are classified alike, and so a URL is classified
    like its lower-case form. *)
Theorem classifiers_ignore_case (u v : string) :
  lower u = lower v ->
  P009.is_repository_url (PyStr u) = P009.is_repository_url (PyStr v)
  /\ P009.is_homepage_url_repo (PyStr u)
     = P009.is_homepage_url_repo (PyStr v)
  /\ P009.is_repository_url (PyStr (lower u))
     = P009.is_repository_url (PyStr u).
Proof.
  intros H.
  assert (He : is_empty u = is_empty v)
    by (now rewrite <- (lower_is_empty u), H, lower_is_empty).
  unfold P009.is_homepage_url_repo, P009.is_repository_url.
  cbn [truthy lower_method obind].
  rewrite lower_idempotent, lower_is_empty, H, He. auto.
Qed.

(** X8.  [is_metadata_source] never recognises [DESCRIPTION] through
    the source: the source is lower-cased before the file names are
    looked up in it, so only the seven lower-case names can be found
    there; the technique tests are not affected. *)
Theorem description_not_found_in_source (technique : pyval) (s : string) :
  P009.is_metadata_source technique (PyStr s)
  = Ok (eq_str technique "code_parser"
        || in_literals technique P009.metadata_sources
        || P009.any_indicator lowercase_sources (lower s)).
Proof.
  unfold P009.is_metadata_source.
  destruct (eq_str technique "code_parser"); [reflexivity|].
  destruct (in_literals technique P009.metadata_sources); [reflexivity|].
  cbn [lower_method obind orb].
  unfold P009.any_indicator, P009.metadata_sources, lowercase_sources.
  cbn [existsb]. now rewrite lower_contains_no_description.
Qed.

End ClassifierFacts.

(** ** What [is_valid_identifier] accepts and rejects *)
Module IdentifierFacts.
Import PyString Regex Py RegexMeaning RegexFacts TextFacts Readings W006.

Lemma has_char_append c s1 s2 :
  has_char c (s1 ++ s2) = has_char c s1 || has_char c s2.
Proof.
  induction s1 as [|x s1 IH]; simpl; [reflexivity|].
  now rewrite IH, orb_assoc.
Qed.

Lemma lang_cat_inv r1 r2 p :
  lang (Cat r1 r2) p ->
  exists s1 s2, p = (s1 ++ s2)%string /\ lang r1 s1 /\ lang r2 s2.
Proof.
  intros H.
  inversion H as [ | | | | q1 q2 s1 s2 H1 H2 | | | | ]; subst. eauto.
Qed.

Lemma lang_lit_cat x r p :
  lang (Cat (Lit x) r) p ->
  exists c t, p = String c t /\ lower_char x = lower_char c /\ lang r t.
Proof.
  intros H. apply lang_cat_inv in H as (s1 & s2 & -> & H1 & H2).
  inversion H1 as [ | y c Hc | | | | | | | ]; subst. simpl. eauto.
Qed.

Lemma lang_cat_has_r c r1 r2 :
  (forall s, lang r2 s -> has_char c s = true) ->
  forall p, lang (Cat r1 r2) p -> has_char c p = true.
Proof.
  intros Hr p H. apply lang_cat_inv in H as (s1 & s2 & -> & _ & H2).
  rewrite has_char_append, (Hr _ H2). apply orb_true_r.
Qed.

Lemma lang_cat_has_l c r1 r2 :
  (forall s, lang r1 s -> has_char c s = true) ->
  forall p, lang (Cat r1 r2) p -> has_char c p = true.
Proof.
  intros Hr p H. apply lang_cat_inv in H as (s1 & s2 & -> & H1 & _).
  now rewrite has_char_append, (Hr _ H1).
Qed.

Ltac fixed_char c :=
  all_ascii c; intros H; first [reflexivity | discriminate H].

Lemma lit_one c : lower_char "1" = lower_char c -> c = "1"%char.
Proof. fixed_char c. Qed.

Lemma lit_slash c : lower_char "/" = lower_char c -> c = "/"%char.
Proof. fixed_char c. Qed.

Lemma lit_colon c : lower_char ":" = lower_char c -> c = ":"%char.
Proof. fixed_char c. Qed.

Lemma lit_d c :
  lower_char "d" = lower_char c ->
  is_space c = false /\ Ascii.eqb (lower_char c) "f" = false.
Proof. all_ascii c; intros H; first [now split | discriminate H]. Qed.

(** A word that begins with a literal slash, colon or one. *)
Lemma lang_starts_has x c r :
  (forall y, lower_char x = lower_char y -> y = c) ->
  forall p, lang (Cat (Lit x) r) p -> has_char c p = true.
Proof.
  intros Hx p H. apply lang_lit_cat in H as (y & t & -> & Hy & _).
  apply Hx in Hy as ->. simpl. now rewrite Ascii.eqb_refl.
Qed.

(** The part the two DOI patterns share: [\.\d+/.+]. *)
Lemma doi_tail_has_slash s :
  lang (Cat (Lit ".") (Cat (Plus Digit) (Cat (Lit "/") (Plus Dot)))) s ->
  has_char "/" s = true.
Proof.
  revert s. do 2 apply lang_cat_has_r. apply lang_starts_has, lit_slash.
Qed.

Lemma doi_bare_word p :
  lang doi_bare p ->
  exists rest, p = String "1" rest /\ has_char "/" p = true.
Proof.
  intros H. assert (Hs := H).
  apply (lang_cat_has_r "/" _ _ doi_tail_has_slash) in Hs.
  apply lang_cat_inv in H as (s1 & s2 & -> & H1 & _).
  apply lang_lit_cat in H1 as (c & t & -> & Hc & _).
  apply lit_one in Hc as ->. simpl. eauto.
Qed.

Lemma doi_prefixed_has_one :
  forall p, lang doi_prefixed p -> has_char "1" p = true.
Proof.
  apply lang_cat_has_l. do 4 apply lang_cat_has_r.
  apply lang_starts_has, lit_one.
Qed.

Lemma doi_prefixed_has_colon :
  forall p, lang doi_prefixed p -> has_char ":" p = true.
Proof.
  apply lang_cat_has_l. do 3 apply lang_cat_has_r.
  apply lang_starts_has, lit_colon.
Qed.

Lemma doi_prefixed_word p :
  lang doi_prefixed p ->
  exists c rest, p = String c rest
    /\ lower_char "d" = lower_char c
    /\ has_char "1" p = true /\ has_char "/" p = true.
Proof.
  intros H. assert (Hs := H). assert (Hone := doi_prefixed_has_one _ H).
  apply (lang_cat_has_r "/" _ _ doi_tail_has_slash) in Hs.
  apply lang_cat_inv in H as (s1 & s2 & -> & H1 & _).
  apply lang_lit_cat in H1 as (c & t & -> & Hc & _).
  exists c, (t ++ s2)%string. auto.
Qed.

Lemma url_word_has_colon p : lang url_pattern p -> has_char ":" p = true.
Proof.
  revert p. do 2 apply lang_cat_has_r. apply lang_cat_has_l.
  apply lang_starts_has, lit_colon.
Qed.

Lemma matches_has c r text :
  (forall p, lang r p -> has_char c p = true) ->
  matches r text = true -> has_char c text = true.
Proof.
  intros Hr H. apply matches_lang in H as (p & q & -> & Hp).
  now rewrite has_char_append, (Hr _ Hp).
Qed.

(** What a text that matches one of the DOI patterns looks like. *)
Lemma doi_match_shape text :
  existsb (fun pattern => matches pattern text) doi_patterns = true ->
  exists c rest, text = String c rest
    /\ is_space c = false /\ Ascii.eqb (lower_char c) "f" = false
    /\ has_char "1" text = true /\ has_char "/" text = true.
Proof.
  unfold doi_patterns. cbn [existsb]. rewrite orb_false_r.
  intros H. apply orb_prop in H as [H|H];
    apply matches_lang in H as (p & q & -> & Hp).
  - apply doi_prefixed_word in Hp as (c & rest & -> & Hc & H1 & Hs).
    exists c, (rest ++ q)%string. apply lit_d in Hc as [Hsp Hf].
    rewrite !has_char_append, H1, Hs. auto.
  - apply doi_bare_word in Hp as (rest & -> & Hs).
    exists "1"%char, (rest ++ q)%string.
    rewrite !has_char_append, Hs. auto.
Qed.

(** *** Stripping keeps what is not white space *)

Lemma is_empty_eq s : is_empty s = true -> s = ""%string.
Proof. now destruct s. Qed.

Lemma space_differs x c :
  is_space x = true -> is_space c = false -> Ascii.eqb x c = false.
Proof.
  intros Hx Hc. destruct (Ascii.eqb x c) eqn:E; [|reflexivity].
  apply Ascii.eqb_eq in E as ->. congruence.
Qed.

Lemma has_char_lstrip c s :
  is_space c = false -> has_char c (lstrip s) = has_char c s.
Proof.
  intros Hc. induction s as [|x s IH]; [reflexivity|].
  cbn [lstrip]. destruct (is_space x) eqn:Hx; [|reflexivity].
  cbn [has_char]. now rewrite IH, (space_differs _ _ Hx Hc).
Qed.

Lemma has_char_rstrip c s :
  is_space c = false -> has_char c (rstrip s) = has_char c s.
Proof.
  intros Hc. induction s as [|x s IH]; [reflexivity|].
  cbn [rstrip has_char]. rewrite <- IH.
  destruct (is_empty (rstrip s)) eqn:He; cbn [andb]; [|reflexivity].
  destruct (is_space x) eqn:Hx; [|reflexivity].
  rewrite (is_empty_eq _ He), (space_differs _ _ Hx Hc). reflexivity.
Qed.

Lemma has_char_strip c s :
  is_space c = false -> has_char c (strip s) = has_char c s.
Proof.
  intros Hc. unfold strip. now rewrite has_char_rstrip, has_char_lstrip.
Qed.

Lemma has_char_lower c s :
  has_char c s = true -> has_char (lower_char c) (lower s) = true.
Proof.
  induction s as [|x s IH]; [discriminate|]. cbn [has_char lower].
  intros H. apply orb_prop in H as [H|H].
  - apply Ascii.eqb_eq in H as ->. now rewrite Ascii.eqb_refl.
  - rewrite (IH H). apply orb_true_r.
Qed.

Lemma has_char_remove c x s :
  Ascii.eqb c x = false ->
  has_char c (remove_char x s) = has_char c s.
Proof.
  intros Hcx. induction s as [|y s IH]; [reflexivity|].
  cbn [remove_char has_char]. destruct (Ascii.eqb y x) eqn:Hy.
  - apply Ascii.eqb_eq in Hy as ->. rewrite IH.
    now rewrite Ascii.eqb_sym, Hcx.
  - cbn [has_char]. now rewrite IH.
Qed.

Lemma has_char_not_all p c s :
  has_char c s = true -> p c = false -> all_chars p s = false.
Proof.
  induction s as [|x s IH]; [discriminate|]. cbn [has_char all_chars].
  intros H Hp. apply orb_prop in H as [H|H].
  - apply Ascii.eqb_eq in H as ->. now rewrite Hp.
  - rewrite (IH H Hp). apply andb_false_r.
Qed.

(** A text of the shape of a DOI passes every test of
    [is_valid_identifier]. *)
Lemma doi_shaped_text_valid (text : string) :
  existsb (fun pattern => matches pattern text) doi_patterns = true ->
  is_valid_identifier (PyStr text) = true.
Proof.
  intros H.
  apply doi_match_shape in H as (c & rest & -> & Hsp & Hf & Hone & Hslash).
  unfold is_valid_identifier. cbn [truthy isinstance_str negb orb].
  unfold valid_identifier_text.
  assert (Hstrip : strip (String c rest) = String c (rstrip rest)).
  { unfold strip. now rewrite (lstrip_fixed _ _ Hsp), (rstrip_head _ _ Hsp). }
  assert (Hone' : has_char "1" (strip (String c rest)) = true)
    by (now rewrite has_char_strip).
  assert (Hslash' : has_char "/" (strip (String c rest)) = true)
    by (now rewrite has_char_strip).
  set (identifier := strip (String c rest)) in *. cbv zeta.
  rewrite Hstrip at 1. cbn [is_empty].
  destruct (existsb _ doi_patterns); [reflexivity|].
  assert (Hmem : mem (lower identifier) ["doi:"; "10."] = false).
  { apply has_char_lower in Hslash'.
    change (lower_char "/") with "/"%char in Hslash'.
    unfold mem. cbn [existsb].
    destruct (String.eqb (lower identifier) "doi:") eqn:E1.
    { apply String.eqb_eq in E1. now rewrite E1 in Hslash'. }
    destruct (String.eqb (lower identifier) "10.") eqn:E2.
    { apply String.eqb_eq in E2. now rewrite E2 in Hslash'. }
    reflexivity. }
  rewrite Hmem.
  destruct (matches url_pattern identifier); [reflexivity|].
  assert (Hftp : startswith "ftp://" (lower identifier) = false).
  { subst identifier. rewrite Hstrip. unfold startswith.
    cbn [lower String.prefix].
    destruct (ascii_dec "f" (lower_char c)) as [E|]; [|reflexivity].
    rewrite <- E in Hf. discriminate. }
  rewrite Hftp. cbn [existsb]. rewrite Hslash'. cbn [orb negb].
  rewrite andb_false_r.
  assert (Halpha :
    isalpha (remove_char "_" (remove_char "-" (remove_char " " identifier)))
    = false).
  { unfold isalpha. rewrite (has_char_not_all is_alpha_char "1");
      [apply andb_false_r| |reflexivity].
    now rewrite !has_char_remove. }
  now rewrite Halpha.
Qed.

(** X9.  Every text that matches one of the DOI patterns, as
    [has_doi_in_other_sources] tests it, is a valid identifier, also
    when stripping it removes the part that matched [.+]. *)
Theorem doi_text_is_valid (text : string) :
  existsb (fun pattern => matches pattern text) doi_patterns = true ->
  is_valid_identifier (PyStr text) = true.
Proof. apply doi_shaped_text_valid. Qed.

(** X10.  [has_doi_in_other_sources] answers [True] only when some
    entry whose lower-cased source does not contain [codemeta.json]
    carries a text that [is_valid_identifier] accepts. *)
Theorem doi_elsewhere_is_valid_identifier (identifier_entries : list pyval) :
  has_doi_in_other_sources identifier_entries = Ok true ->
  exists entry source text,
    In entry identifier_entries
    /\ get_method entry "source" (PyStr "") = Ok (PyStr source)
    /\ contains "codemeta.json" (lower source) = false
    /\ result_value entry = Ok (PyStr text)
    /\ is_valid_identifier (PyStr text) = true.
Proof.
  induction identifier_entries as [|entry rest IH]; [discriminate|].
  cbn [has_doi_in_other_sources].
  assert (Hrest : has_doi_in_other_sources rest = Ok true ->
    exists entry0 source text,
      In entry0 (entry :: rest)
      /\ get_method entry0 "source" (PyStr "") = Ok (PyStr source)
      /\ contains "codemeta.json" (lower source) = false
      /\ result_value entry0 = Ok (PyStr text)
      /\ is_valid_identifier (PyStr text) = true).
  { intros H. destruct (IH H) as (e & s & t & Hin & Hrest).
    exists e, s, t. split; [now right|exact Hrest]. }
  destruct (get_method entry "source" (PyStr "")) as [source|] eqn:Hsrc;
    [|discriminate]. cbn [obind].
  destruct (lower_method source) as [source_lower|] eqn:Hlow;
    [|discriminate]. cbn [obind].
  destruct source; try discriminate. injection Hlow as <-.
  destruct (contains "codemeta.json" (lower s)) eqn:Hcm; [exact Hrest|].
  destruct (has_result_value entry) as [[|]|]; cbn [obind];
    [|exact Hrest|discriminate].
  destruct (result_value entry) as [value|] eqn:Hval; [|discriminate].
  cbn [obind]. destruct value; try exact Hrest.
  destruct (existsb _ doi_patterns) eqn:Hdoi; [|exact Hrest].
  intros _. exists entry, s, s0. split; [now left|].
  repeat split; auto. now apply doi_shaped_text_valid.
Qed.

(** *** Plain names *)

Lemma alpha_not_space c : is_alpha_char c = true -> is_space c = false.
Proof. all_ascii c; intros H; first [reflexivity | discriminate H]. Qed.

Lemma alpha_kept c :
  is_alpha_char c = true ->
  Ascii.eqb c " " = false /\ Ascii.eqb c "-" = false
  /\ Ascii.eqb c "_" = false.
Proof. all_ascii c; intros H; first [now repeat split | discriminate H]. Qed.

Lemma all_chars_lstrip p s :
  all_chars p s = true -> all_chars p (lstrip s) = true.
Proof.
  induction s as [|c s IH]; [auto|]. cbn [lstrip].
  destruct (is_space c); [|auto]. cbn [all_chars]. intros H.
  apply andb_prop in H as [_ H]. auto.
Qed.

Lemma all_chars_rstrip p s :
  all_chars p s = true -> all_chars p (rstrip s) = true.
Proof.
  induction s as [|c s IH]; [auto|]. cbn [rstrip all_chars]. intros H.
  apply andb_prop in H as [Hc H].
  destruct (is_empty (rstrip s) && is_space c); [reflexivity|].
  cbn [all_chars]. now rewrite Hc, IH.
Qed.

Lemma any_char_lstrip s :
  any_char is_alpha_char (lstrip s) = any_char is_alpha_char s.
Proof.
  induction s as [|c s IH]; [reflexivity|]. cbn [lstrip].
  destruct (is_space c) eqn:Hc; [|reflexivity]. cbn [any_char].
  destruct (is_alpha_char c) eqn:Ha; [|exact IH].
  apply alpha_not_space in Ha. congruence.
Qed.

Lemma any_char_rstrip s :
  any_char is_alpha_char (rstrip s) = any_char is_alpha_char s.
Proof.
  induction s as [|c s IH]; [reflexivity|]. cbn [rstrip any_char].
  rewrite <- IH.
  destruct (is_empty (rstrip s)) eqn:He; cbn [andb]; [|reflexivity].
  destruct (is_space c) eqn:Hc; [|reflexivity].
  rewrite (is_empty_eq _ He). cbn [any_char].
  destruct (is_alpha_char c) eqn:Ha; [|reflexivity].
  apply alpha_not_space in Ha. congruence.
Qed.

Lemma any_char_nonempty p s : any_char p s = true -> is_empty s = false.
Proof. now destruct s. Qed.

Lemma any_char_remove p x s :
  p x = false -> any_char p (remove_char x s) = any_char p s.
Proof.
  intros Hx. induction s as [|c s IH]; [reflexivity|].
  cbn [remove_char any_char]. destruct (Ascii.eqb c x) eqn:E.
  - apply Ascii.eqb_eq in E as ->. now rewrite Hx, IH.
  - cbn [any_char]. now rewrite IH.
Qed.

Lemma all_chars_has_not p c s :
  all_chars p s = true -> p c = false -> has_char c s = false.
Proof.
  intros Hall Hc. destruct (has_char c s) eqn:H; [|reflexivity].
  rewrite (has_char_not_all p c s H Hc) in Hall. discriminate.
Qed.

(** Once spaces, hyphens and underscores are removed from a plain name,
    only letters are left. *)
Lemma name_letters s :
  all_chars name_char s = true ->
  all_chars is_alpha_char
    (remove_char "_" (remove_char "-" (remove_char " " s))) = true.
Proof.
  induction s as [|c s IH]; [reflexivity|]. cbn [all_chars]. intros H.
  apply andb_prop in H as [Hc H]. specialize (IH H). unfold name_char in Hc.
  cbn [remove_char]. destruct (Ascii.eqb c " ") eqn:E1; [exact IH|].
  cbn [remove_char]. destruct (Ascii.eqb c "-") eqn:E2; [exact IH|].
  cbn [remove_char]. destruct (Ascii.eqb c "_") eqn:E3; [exact IH|].
  rewrite !orb_false_r in Hc. cbn [all_chars]. now rewrite Hc, IH.
Qed.

(** X11.  A plain name is never a valid identifier: a text made of
    letters, spaces, hyphens and underscores with at least one letter
    in it is rejected. *)
Theorem plain_name_is_rejected (s : string) :
  all_chars name_char s = true ->
  any_char is_alpha_char s = true ->
  is_valid_identifier (PyStr s) = false.
Proof.
  intros Hall Hany.
  unfold is_valid_identifier.
  destruct (negb (truthy (PyStr s)) || negb (isinstance_str (PyStr s)));
    [reflexivity|].
  unfold valid_identifier_text.
  assert (Hall' : all_chars name_char (strip s) = true)
    by (now apply all_chars_rstrip, all_chars_lstrip).
  assert (Hany' : any_char is_alpha_char (strip s) = true)
    by (unfold strip; now rewrite any_char_rstrip, any_char_lstrip).
  set (identifier := strip s) in *. cbv zeta. clearbody identifier.
  rewrite (any_char_nonempty _ _ Hany').
  assert (Hno : forall c, name_char c = false ->
                          has_char c identifier = false)
    by (intros c; apply all_chars_has_not, Hall').
  assert (Hdoi : existsb (fun pattern => matches pattern identifier)
                         doi_patterns = false).
  { unfold doi_patterns. cbn [existsb].
    destruct (matches doi_prefixed identifier) eqn:E1.
    { apply (matches_has ":" _ _ doi_prefixed_has_colon) in E1.
      now rewrite Hno in E1. }
    destruct (matches doi_bare identifier) eqn:E2; [|reflexivity].
    apply matches_lang in E2 as (p & q & -> & Hp).
    apply doi_bare_word in Hp as (rest & -> & _).
    specialize (Hno "1"%char eq_refl). cbn in Hno. discriminate. }
  rewrite Hdoi. destruct (mem _ _); [reflexivity|].
  destruct (matches url_pattern identifier) eqn:Eu.
  { apply (matches_has ":" _ _ url_word_has_colon) in Eu.
    now rewrite Hno in Eu. }
  destruct (startswith _ _); [reflexivity|].
  cbn [existsb].
  rewrite (Hno "/"%char eq_refl), (Hno ":"%char eq_refl),
    (Hno "."%char eq_refl). cbn [orb negb].
  rewrite andb_true_r. destruct (has_char " " identifier); [reflexivity|].
  unfold isalpha. rewrite (name_letters _ Hall'), andb_true_r.
  rewrite (any_char_nonempty is_alpha_char);
    [reflexivity|]. now rewrite !any_char_remove.
Qed.

(** *** Texts with a digit *)

Lemma no_space_lstrip s : any_char is_space s = false -> lstrip s = s.
Proof.
  destruct s as [|c s]; [reflexivity|]. cbn [any_char lstrip]. intros H.
  apply orb_false_elim in H as [-> _]. reflexivity.
Qed.

Lemma no_space_rstrip s : any_char is_space s = false -> rstrip s = s.
Proof.
  induction s as [|c s IH]; [reflexivity|]. cbn [any_char rstrip].
  intros H. apply orb_false_elim in H as [Hc H].
  now rewrite (IH H), Hc, andb_false_r.
Qed.

Lemma no_space_has_char c s :
  any_char is_space s = false -> is_space c = true -> has_char c s = false.
Proof.
  induction s as [|x s IH]; [reflexivity|]. cbn [any_char has_char].
  intros H Hc. apply orb_false_elim in H as [Hx H]. rewrite (IH H Hc).
  destruct (Ascii.eqb x c) eqn:E; [|reflexivity].
  apply Ascii.eqb_eq in E as ->. congruence.
Qed.

Lemma lower_char_digit c : is_digit (lower_char c) = is_digit c.
Proof. all_ascii c; reflexivity. Qed.

Lemma any_digit_lower s : any_char is_digit (lower s) = any_char is_digit s.
Proof.
  induction s as [|c s IH]; [reflexivity|]. cbn [lower any_char].
  now rewrite lower_char_digit, IH.
Qed.

Lemma digit_kept c :
  is_digit c = true ->
  is_alpha_char c = false /\ Ascii.eqb c " " = false
  /\ Ascii.eqb c "-" = false /\ Ascii.eqb c "_" = false.
Proof. all_ascii c; intros H; first [now repeat split | discriminate H]. Qed.

Lemma any_digit_remove x s :
  is_digit x = false ->
  any_char is_digit (remove_char x s) = any_char is_digit s.
Proof. apply any_char_remove. Qed.

Lemma any_digit_not_alpha s :
  any_char is_digit s = true -> all_chars is_alpha_char s = false.
Proof.
  induction s as [|c s IH]; [discriminate|]. cbn [any_char all_chars].
  intros H. apply orb_prop in H as [H|H].
  - apply digit_kept in H as (-> & _). reflexivity.
  - rewrite (IH H). apply andb_false_r.
Qed.

Lemma lower_char_fixed_point c :
  is_alpha_char (lower_char c) = false -> lower_char c = c.
Proof. all_ascii c; intros H; first [reflexivity | discriminate H]. Qed.

Lemma lower_ten_dot s : lower s = "10."%string -> s = "10."%string.
Proof.
  destruct s as [|c1 [|c2 [|c3 [|c4 s]]]]; try discriminate.
  cbn [lower]. intros [= H1 H2 H3].
  rewrite <- (lower_char_fixed_point c1), <- (lower_char_fixed_point c2),
    <- (lower_char_fixed_point c3), H1, H2, H3;
    first [reflexivity | now rewrite H1 | now rewrite H2 | now rewrite H3].
Qed.

(** X12.  Any text without white space that contains a digit is a
    valid identifier, unless it is [10.] or starts with [ftp://]
    (in any letter case). *)
Theorem text_with_digit_is_valid (s : string) :
  any_char is_space s = false ->
  any_char is_digit s = true ->
  s <> "10."%string ->
  startswith "ftp://" (lower s) = false ->
  is_valid_identifier (PyStr s) = true.
Proof.
  intros Hsp Hdig Hten Hftp.
  unfold is_valid_identifier.
  assert (Hne : is_empty s = false) by (now apply any_char_nonempty in Hdig).
  cbn [truthy isinstance_str]. rewrite Hne. cbn [negb orb].
  unfold valid_identifier_text, strip.
  rewrite (no_space_lstrip _ Hsp), (no_space_rstrip _ Hsp). rewrite Hne.
  destruct (existsb _ doi_patterns); [reflexivity|].
  assert (Hmem : mem (lower s) ["doi:"; "10."] = false).
  { unfold mem. cbn [existsb].
    destruct (String.eqb (lower s) "doi:") eqn:E1.
    { apply String.eqb_eq in E1. rewrite <- any_digit_lower, E1 in Hdig.
      discriminate. }
    destruct (String.eqb (lower s) "10.") eqn:E2; [|reflexivity].
    apply String.eqb_eq, lower_ten_dot in E2. contradiction. }
  rewrite Hmem. destruct (matches url_pattern s); [reflexivity|].
  rewrite Hftp, (no_space_has_char " " s Hsp eq_refl). cbn [andb].
  unfold isalpha. rewrite any_digit_not_alpha; [now rewrite andb_false_r|].
  now rewrite !any_digit_remove.
Qed.

(** X13.  White space around a text never changes the verdict of
    [is_valid_identifier]. *)
Theorem surrounding_space_ignored (s : string) :
  is_valid_identifier (PyStr (strip s)) = is_valid_identifier (PyStr s).
Proof.
  unfold is_valid_identifier. cbn [truthy isinstance_str negb orb].
  unfold valid_identifier_text. rewrite strip_idempotent.
  destruct (is_empty (strip s)) eqn:He; cbn [negb].
  - now destruct (negb (is_empty s)).
  - destruct s as [|c s]; [discriminate|]. reflexivity.
Qed.

End IdentifierFacts.

(** ** The command line *)
Module CliFacts.
Import PyString Cli.

Lemma calls_app l1 l2 : calls (l1 ++ l2)%list = (calls l1 ++ calls l2)%list.
Proof. apply filter_app. Qed.

Lemma calls_print l rest : calls (Print l :: rest) = calls rest.
Proof. reflexivity. Qed.

Lemma not_found_app l1 l2 :
  not_found (l1 ++ l2)%list = (not_found l1 ++ not_found l2)%list.
Proof.
  induction l1 as [|[[]| | |] l1 IH]; simpl; auto. now rewrite IH.
Qed.

Lemma subjects_app l1 l2 :
  subjects (l1 ++ l2)%list = (subjects l1 ++ subjects l2)%list.
Proof.
  induction l1 as [|[[]| | |] l1 IH]; simpl; auto; now rewrite IH.
Qed.

Lemma singles_app l1 l2 :
  singles (l1 ++ l2)%list = (singles l1 ++ singles l2)%list.
Proof.
  induction l1 as [|[[]| | |] l1 IH]; simpl; auto; now rewrite IH.
Qed.

Section WithEnvironment.
Variable world : Type.
Variable path_exists : string -> world -> bool.
Variable getcwd : world -> string.
Variable path_join : string -> string -> string.
Variable run_somef_single :
  string -> string -> spec_float -> world -> completion * world.
Variable run_somef_batch :
  string -> string -> spec_float -> world -> completion * world.
Variable run_analysis :
  analysis_input -> string -> string -> world -> completion * world.

Local Abbreviation collect := (collect_path world path_exists).
Local Abbreviation process :=
  (process_input world path_exists run_somef_single run_somef_batch).
Local Abbreviation run :=
  (cli world path_exists getcwd path_join
       run_somef_single run_somef_batch run_analysis).

(** The loop of the [--skip-somef] branch keeps the existing files and
    reports the others; it leaves the world as it is. *)
Lemma collect_loop inputs : forall acc w log,
  for_acc world inputs acc collect (w, log) =
  (Some (acc ++ map Path (filter (fun p => path_exists p w) inputs))%list,
   (w, (log ++ map (fun p => Print (FileNotFound p))
                   (filter (fun p => negb (path_exists p w)) inputs))%list)).
Proof.
  induction inputs as [|p inputs IH]; intros acc w log.
  - simpl. unfold ret. now rewrite !app_nil_r.
  - cbn [for_acc filter]. unfold bind at 1.
    unfold collect_path at 1. unfold bind, ask, print, ret. cbn [fst snd].
    destruct (path_exists p w); cbn [negb map].
    + rewrite IH. now rewrite <- app_assoc.
    + rewrite IH. now rewrite <- app_assoc.
Qed.

Lemma calls_reports ps :
  calls (map (fun p => Print (FileNotFound p)) ps) = [].
Proof. induction ps; simpl; auto. Qed.

Lemma not_found_reports ps :
  not_found (map (fun p => Print (FileNotFound p)) ps) = ps.
Proof. induction ps; simpl; congruence. Qed.

(** X14.  With [--skip-somef], SoMEF is never run.  The analysis is
    called once, on the inputs that exist, in the order given, and not
    at all when none exists; every other input is reported as not
    found.  When no input exists [cli] returns and the world is
    unchanged. *)
Theorem skip_mode_analyses_existing_files a w r w' log :
  skip_somef a = true ->
  run a (w, []) = (r, (w', log)) ->
  let existing := filter (fun p => path_exists p w) (input a) in
  calls log =
    (if is_nil existing then []
     else [Analysis (Paths (map Path existing))
                    (pitfalls_output a) (analysis_output a)])
  /\ not_found log = filter (fun p => negb (path_exists p w)) (input a)
  /\ (is_nil existing = true -> r = Some tt /\ w' = w).
Proof.
  intros Hskip. unfold cli. rewrite Hskip.
  unfold bind at 1. unfold print at 1. cbn [fst snd].
  unfold bind at 1. rewrite collect_loop. cbn [app].
  cbv zeta.
  destruct (filter (fun p => path_exists p w) (input a)) as [|p ps] eqn:Hex.
  - cbn [map is_nil]. unfold print. cbn [fst snd]. intros [= <- <- <-].
    rewrite calls_print, !calls_app, calls_reports. cbn [not_found].
    rewrite !not_found_app, not_found_reports. cbn. rewrite ?app_nil_r.
    repeat split; reflexivity.
  - cbn [map is_nil]. unfold bind, print, call. cbn [fst snd].
    destruct (run_analysis _ _ _ w) as [c w1].
    intros [= <- <- <-].
    rewrite calls_print, !calls_app, calls_reports. cbn [not_found].
    rewrite !not_found_app, not_found_reports. cbn. rewrite ?app_nil_r.
    split; [reflexivity|split; [reflexivity|discriminate]].
Qed.

(** One turn of the loop of the other branch. *)
Lemma process_step dir th i w log r w1 log1 :
  process dir th i (w, log) = (r, (w1, log1)) ->
  exists evs, log1 = (log ++ evs)%list
    /\ Forall (somef_call dir th) (calls evs)
    /\ subjects evs = [i]
    /\ singles evs = (if is_url i then [i] else [])
    /\ (r = None -> exists evs0 ev,
          evs = (evs0 ++ [ev])%list /\ is_call ev = true).
Proof.
  unfold process_input. destruct (is_url i).
  - unfold bind, print, call. cbn [fst snd].
    destruct (run_somef_single i dir th w) as [c w2]. intros [= <- <- <-].
    exists [Print (ProcessingUrl i); SomefSingle i dir th].
    rewrite <- app_assoc. repeat split; auto.
    + repeat constructor.
    + intros _. now exists [Print (ProcessingUrl i)], (SomefSingle i dir th).
  - unfold bind at 1. unfold ask. cbn [fst].
    destruct (path_exists i w).
    + unfold bind, print, call. cbn [fst snd].
      destruct (run_somef_batch i dir th w) as [c w2]. intros [= <- <- <-].
      exists [Print (ProcessingFile i); SomefBatch i dir th].
      rewrite <- app_assoc. repeat split; auto.
      * repeat constructor.
      * intros _.
        now exists [Print (ProcessingFile i)], (SomefBatch i dir th).
    + unfold print. cbn [fst snd]. intros [= <- <- <-].
      exists [Print (SkippingInvalid i)].
      split; [reflexivity|]. split; [constructor|].
      split; [reflexivity|]. split; [reflexivity|discriminate].
Qed.

(** The loop accounts for its inputs in order and stops at the first
    call that raises. *)
Lemma process_loop dir th inputs : forall w log r w1 log1,
  for_each world inputs (process dir th) (w, log) = (r, (w1, log1)) ->
  exists evs, log1 = (log ++ evs)%list
    /\ Forall (somef_call dir th) (calls evs)
    /\ (exists rest, inputs = (subjects evs ++ rest)%list
                     /\ (r = Some tt -> rest = []))
    /\ (exists rest, filter is_url inputs = (singles evs ++ rest)%list
                     /\ (r = Some tt -> rest = []))
    /\ (r = None -> exists evs0 ev,
          evs = (evs0 ++ [ev])%list /\ is_call ev = true).
Proof.
  induction inputs as [|i inputs IH]; intros w log r w1 log1.
  - simpl. unfold ret. intros [= <- <- <-]. exists [].
    rewrite app_nil_r. split; [reflexivity|]. split; [constructor|].
    split; [now exists []|]. split; [now exists []|discriminate].
  - cbn [for_each]. unfold bind at 1.
    destruct (process dir th i (w, log)) as [[[]|] [w2 log2]] eqn:Hstep;
      apply process_step in Hstep
        as (evs & -> & Hcalls & Hsub & Hsing & Hfail).
    + intros Hrest.
      apply IH in Hrest
        as (evs' & -> & Hcalls' & (rest & Hin & Hdone)
            & (rest' & Hurl & Hdone') & Hfail').
      exists (evs ++ evs')%list. rewrite app_assoc.
      rewrite calls_app, subjects_app, singles_app, Hsub, Hsing.
      split; [reflexivity|]. split; [now apply Forall_app|].
      split; [|split].
      * exists rest. split; [|exact Hdone]. cbn [app]. now rewrite Hin at 1.
      * exists rest'. split; [|exact Hdone']. cbn [filter].
        destruct (is_url i); cbn [app]; now rewrite Hurl at 1.
      * intros Hr. destruct (Hfail' Hr) as (evs0 & ev & -> & Hev).
        exists (evs ++ evs0)%list, ev. now rewrite app_assoc.
    + intros [= <- <- <-]. exists evs. rewrite Hsub, Hsing.
      split; [reflexivity|]. split; [exact Hcalls|].
      split; [|split; [|exact Hfail]].
      * exists inputs. split; [reflexivity|discriminate].
      * cbn [filter]. destruct (is_url i).
        -- exists (filter is_url inputs). split; [reflexivity|discriminate].
        -- exists (filter is_url inputs). split; [reflexivity|discriminate].
Qed.

(** X15.  Without [--skip-somef], when [cli] returns: every input
    was handed to SoMEF or reported as invalid, in the order given;
    the inputs that start with [http://] or [https://] are the ones
    handed to [run_somef_single], whether or not a file of that name
    exists; every SoMEF call got the [somef_outputs] directory and the
    threshold; and the analysis was called once, after all of them, on
    that directory, also when no input was valid. *)
Theorem normal_mode_runs_analysis_last a w w' log :
  skip_somef a = false ->
  run a (w, []) = (Some tt, (w', log)) ->
  let dir := path_join (getcwd w) "somef_outputs" in
  exists before,
    calls log = (before ++ [Analysis (Directory dir) (pitfalls_output a)
                                     (analysis_output a)])%list
    /\ Forall (somef_call dir (threshold a)) before
    /\ subjects log = input a
    /\ singles log = filter is_url (input a).
Proof.
  intros Hskip. unfold cli. rewrite Hskip.
  unfold bind at 1. unfold ask at 1. cbn [fst]. cbv zeta.
  set (dir := path_join (getcwd w) "somef_outputs").
  unfold bind at 1. unfold print at 1. cbn [fst snd].
  unfold bind at 1.
  destruct (for_each world (input a) (process dir (threshold a)) _)
    as [[[]|] [w1 log1]] eqn:Hloop; [|discriminate].
  apply process_loop in Hloop
    as (evs & -> & Hcalls & (rest & Hin & Hdone)
        & (rest' & Hurl & Hdone') & _).
  rewrite (Hdone eq_refl), app_nil_r in Hin.
  rewrite (Hdone' eq_refl), app_nil_r in Hurl.
  unfold bind, print, call. cbn [fst snd].
  destruct (run_analysis _ _ _ w1) as [[] w2]; [|discriminate].
  intros [= <- <-]. exists (calls evs).
  rewrite calls_print. cbn [subjects singles].
  rewrite !calls_app, !subjects_app, !singles_app. cbn.
  rewrite !app_nil_r. auto.
Qed.

(** X16.  Without [--skip-somef], when an exception leaves [cli]:
    the call that raised is the last thing that happened, no analysis
    was run before it, and the inputs after the one being processed
    were neither handed to SoMEF nor reported. *)
Theorem normal_mode_stops_at_failure a w w' log :
  skip_somef a = false ->
  run a (w, []) = (None, (w', log)) ->
  let dir := path_join (getcwd w) "somef_outputs" in
  exists log0 ev rest,
    log = (log0 ++ [ev])%list
    /\ is_call ev = true
    /\ Forall (somef_call dir (threshold a)) (calls log0)
    /\ input a = (subjects log ++ rest)%list.
Proof.
  intros Hskip. unfold cli. rewrite Hskip.
  unfold bind at 1. unfold ask at 1. cbn [fst]. cbv zeta.
  set (dir := path_join (getcwd w) "somef_outputs").
  unfold bind at 1. unfold print at 1. cbn [fst snd].
  unfold bind at 1.
  destruct (for_each world (input a) (process dir (threshold a)) _)
    as [[[]|] [w1 log1]] eqn:Hloop;
    apply process_loop in Hloop
      as (evs & -> & Hcalls & (rest & Hin & Hdone) & _ & Hfail).
  - rewrite (Hdone eq_refl), app_nil_r in Hin.
    unfold bind, print, call. cbn [fst snd].
    destruct (run_analysis _ _ _ w1) as [[] w2]; [discriminate|].
    intros [= <- <-].
    exists (Print (Detected (List.length (input a))) :: evs
            ++ [Print (RunningAnalysis dir)])%list,
           (Analysis (Directory dir) (pitfalls_output a) (analysis_output a)),
           [].
    split; [reflexivity|]. split; [reflexivity|]. split.
    + rewrite calls_print, !calls_app. cbn. now rewrite app_nil_r.
    + cbn [subjects]. rewrite !subjects_app. cbn. now rewrite !app_nil_r.
  - intros [= <- <-]. destruct (Hfail eq_refl) as (evs0 & ev & -> & Hev).
    exists (Print (Detected (List.length (input a))) :: evs0)%list, ev, rest.
    split; [reflexivity|]. split; [exact Hev|]. split.
    + rewrite calls_app in Hcalls. apply Forall_app in Hcalls as [H0 _].
      exact H0.
    + cbn [app subjects]. exact Hin.
Qed.

End WithEnvironment.
End CliFacts.

(** ** The further properties on sample inputs *)
Module Illustrations.
Import PyString Py Catalog Rules Samples Readings Examples Cli.

Lemma citation_finding_characterised_witness :
  citation_sample_finding = citation_finding citation_record "repo.json".
Proof.
  apply (P007Facts.citation_finding_characterised citation_record).
  reflexivity.
Defined.

Lemma citation_finding_order_independent_witness :
  detect_citation_missing_reference_publication_pitfall
    two_references "repo.json" = Ok citation_sample_finding
  /\ detect_citation_missing_reference_publication_pitfall
       two_references_swapped "repo.json" = Ok citation_sample_finding
  /\ citation_sample_finding = citation_sample_finding.
Proof.
  split; [reflexivity|]. split; [reflexivity|].
  apply (P007Facts.citation_finding_order_independent
           two_references two_references_swapped "repo.json").
  - intros attribute. unfold attribute_entries, two_references,
      two_references_swapped. cbn [dict_get].
    destruct (String.eqb attribute "reference_publication").
    + apply Permutation.perm_swap.
    + apply Permutation.Permutation_refl.
  - reflexivity.
  - reflexivity.
Defined.


Lemma identifier_finding_characterised_witness :
  exists codemeta_identifier codemeta_source,
    (codemeta_identifier = PyStr "Software Title"
     /\ codemeta_source = PyStr "repository/codemeta.json")
    /\ identifier_sample_finding
       = identifier_finding "repo.json" codemeta_identifier codemeta_source
           (W006.contributions (W006.identifier_entries identifier_record)).
Proof.
  destruct (W006Spec.identifier_finding_characterised
              identifier_record "repo.json" identifier_sample_finding eq_refl)
    as (codemeta_identifier & codemeta_source & Hfirst & Hfinding).
  exists codemeta_identifier, codemeta_source.
  split; [|exact Hfinding]. cbn in Hfirst. destruct Hfirst as [H1 H2].
  injection H1 as <-. injection H2 as <-. now split.
Defined.

Lemma rules_raise_no_key_error_witness :
  evaluate stub no_format P007_citation malformed_record "repo.json"
  = Raise AttributeError
  /\ (AttributeError = AttributeError \/ AttributeError = TypeError).
Proof.
  split; [reflexivity|].
  apply (RaiseFacts.rules_raise_no_key_error
           stub no_format P007_citation malformed_record "repo.json").
  - intros v. discriminate.
  - reflexivity.
Defined.

Lemma github_pages_is_homepage_witness :
  P009.is_homepage_url_repo
    (PyStr "https://github.com/User/User.GitHub.io") = Ok true.
Proof.
  apply ClassifierFacts.github_pages_is_homepage. reflexivity.
Defined.

Lemma classifiers_ignore_case_witness :
  P009.is_repository_url (PyStr "HTTPS://GitHub.com/User/Repo")
  = P009.is_repository_url (PyStr "https://github.com/user/repo")
  /\ P009.is_homepage_url_repo (PyStr "HTTPS://GitHub.com/User/Repo")
     = P009.is_homepage_url_repo (PyStr "https://github.com/user/repo")
  /\ P009.is_repository_url (PyStr (lower "HTTPS://GitHub.com/User/Repo"))
     = P009.is_repository_url (PyStr "HTTPS://GitHub.com/User/Repo").
Proof.
  exact (ClassifierFacts.classifiers_ignore_case
           "HTTPS://GitHub.com/User/Repo" "https://github.com/user/repo"
           eq_refl).
Defined.

Lemma doi_text_is_valid_witness :
  W006.is_valid_identifier (PyStr "10.1234/ ") = true.
Proof. apply IdentifierFacts.doi_text_is_valid. reflexivity. Defined.

Lemma doi_elsewhere_is_valid_identifier_witness :
  exists entry source text,
    In entry [codemeta_reference; readme_doi]
    /\ get_method entry "source" (PyStr "") = Ok (PyStr source)
    /\ contains "codemeta.json" (lower source) = false
    /\ result_value entry = Ok (PyStr text)
    /\ W006.is_valid_identifier (PyStr text) = true.
Proof.
  apply IdentifierFacts.doi_elsewhere_is_valid_identifier. reflexivity.
Defined.

Lemma plain_name_is_rejected_witness :
  W006.is_valid_identifier (PyStr " Jane Doe-Smith ") = false.
Proof.
  apply IdentifierFacts.plain_name_is_rejected; reflexivity.
Defined.

Lemma text_with_digit_is_valid_witness :
  W006.is_valid_identifier (PyStr "v1") = true.
Proof.
  apply IdentifierFacts.text_with_digit_is_valid;
    [reflexivity|reflexivity|discriminate|reflexivity].
Defined.

Lemma skip_mode_analyses_existing_files_witness :
  exists r w' log,
    cli files file_exists work_directory join
        somef_succeeds somef_succeeds analysis_succeeds
        skip_args (some_files, []) = (r, (w', log))
    /\ calls log = [Analysis (Paths [Path "a.json"; Path "b.json"])
                             "pitfalls" "summary.json"]
    /\ not_found log = ["missing.json"].
Proof.
  eexists _, _, _. split; [reflexivity|].
  destruct (CliFacts.skip_mode_analyses_existing_files
              files file_exists work_directory join
              somef_succeeds somef_succeeds analysis_succeeds
              skip_args some_files _ _ _ eq_refl eq_refl)
    as (Hcalls & Hreports & _).
  split; [exact Hcalls|exact Hreports].
Defined.

Lemma normal_mode_runs_analysis_last_witness :
  exists w' log before,
    cli files file_exists work_directory join
        somef_succeeds somef_succeeds analysis_succeeds
        mixed_args (some_files, []) = (Some tt, (w', log))
    /\ calls log
       = (before ++ [Analysis (Directory "/work/somef_outputs")
                              "pitfalls" "summary.json"])%list
    /\ subjects log = input mixed_args
    /\ singles log = ["https://github.com/user/repo"].
Proof.
  eexists _, _.
  destruct (CliFacts.normal_mode_runs_analysis_last
              files file_exists work_directory join
              somef_succeeds somef_succeeds analysis_succeeds
              mixed_args some_files _ _ eq_refl eq_refl)
    as (before & Hcalls & _ & Hsubjects & Hsingles).
  exists before. split; [vm_compute; reflexivity|].
  split; [exact Hcalls|]. split; [exact Hsubjects|exact Hsingles].
Defined.

Lemma normal_mode_stops_at_failure_witness :
  exists w' log log0 ev rest,
    cli files file_exists work_directory join
        somef_fails somef_succeeds analysis_succeeds
        mixed_args (some_files, []) = (None, (w', log))
    /\ log = (log0 ++ [ev])%list
    /\ is_call ev = true
    /\ input mixed_args = (subjects log ++ rest)%list.
Proof.
  eexists _, _.
  destruct (CliFacts.normal_mode_stops_at_failure
              files file_exists work_directory join
              somef_fails somef_succeeds analysis_succeeds
              mixed_args some_files _ _ eq_refl eq_refl)
    as (log0 & ev & rest & Hlog & Hev & _ & Hrest).
  exists log0, ev, rest. split; [vm_compute; reflexivity|].
  split; [exact Hlog|]. split; [exact Hev|exact Hrest].
Defined.

End Illustrations.

(** * The rules whose code is missing *)

(** ** Version normalisation and the version-mismatch rule *)
Module VersionRule.
Import PyString Py Versions Wording TextFacts.

Lemma all_chars_append p a b :
  all_chars p (a ++ b) = all_chars p a && all_chars p b.
Proof.
  induction a as [|c a IH]; [reflexivity|]. simpl.
  now rewrite IH, andb_assoc.
Qed.

Lemma space_is_lead c : is_space c = true -> is_lead c = true.
Proof. unfold is_lead. now intros ->. Qed.

Lemma spaces_are_lead s :
  all_chars is_space s = true -> all_chars is_lead s = true.
Proof.
  induction s as [|c s IH]; [reflexivity|]. simpl. intros H.
  apply andb_prop in H as [Hc H]. now rewrite (space_is_lead c Hc), IH.
Qed.

Lemma not_lead c :
  is_lead c = false ->
  is_space c = false /\ c <> "v"%char /\ c <> "V"%char.
Proof.
  unfold is_lead. intros H.
  apply orb_false_elim in H as [H HV].
  apply orb_false_elim in H as [Hs Hv].
  split; [exact Hs|]. split; intros ->; discriminate.
Qed.

Lemma drop_lead_head s :
  drop_lead s = ""
  \/ exists c t, drop_lead s = String c t /\ is_lead c = false.
Proof.
  induction s as [|c s IH]; [now left|]. simpl.
  destruct (is_lead c) eqn:Hc; [exact IH|]. right. eauto.
Qed.

Lemma drop_lead_split s :
  exists lead, s = (lead ++ drop_lead s)%string
               /\ all_chars is_lead lead = true.
Proof.
  induction s as [|c s IH]; [now exists ""|]. simpl.
  destruct (is_lead c) eqn:Hc.
  - destruct IH as (lead & Hs & Hlead). exists (String c lead).
    simpl. now rewrite <- Hs, Hc, Hlead.
  - now exists "".
Qed.

Lemma drop_lead_append lead r :
  all_chars is_lead lead = true -> drop_lead (lead ++ r) = drop_lead r.
Proof.
  induction lead as [|c lead IH]; [reflexivity|]. simpl. intros H.
  apply andb_prop in H as [-> H]. now apply IH.
Qed.

Lemma drop_lead_empty s :
  drop_lead s = "" <-> all_chars is_lead s = true.
Proof.
  induction s as [|c s IH]; [now split|]. simpl.
  destruct (is_lead c); simpl; [exact IH|]. split; discriminate.
Qed.

Lemma rstrip_split s :
  exists trail, s = (rstrip s ++ trail)%string
                /\ all_chars is_space trail = true.
Proof.
  induction s as [|c s IH]; [now exists ""|].
  destruct IH as (trail & Hs & Htrail). cbn [rstrip].
  destruct (is_empty (rstrip s)) eqn:He; cbn [andb].
  - destruct (is_space c) eqn:Hc.
    + exists (String c s). split; [reflexivity|]. simpl. rewrite Hc.
      rewrite Hs. destruct (rstrip s); [exact Htrail|discriminate].
    + exists trail. simpl. now rewrite <- Hs.
  - exists trail. simpl. now rewrite <- Hs.
Qed.

Lemma rstrip_spaces trail :
  all_chars is_space trail = true -> rstrip trail = "".
Proof.
  induction trail as [|c t IH]; [reflexivity|]. simpl. intros H.
  apply andb_prop in H as [Hc H]. now rewrite (IH H), Hc.
Qed.

Lemma rstrip_append_spaces x trail :
  all_chars is_space trail = true -> rstrip (x ++ trail) = rstrip x.
Proof.
  intros H. induction x as [|c x IH]; simpl.
  - now apply rstrip_spaces.
  - now rewrite IH.
Qed.

Lemma rstrip_append_fixed x r :
  rstrip r = r -> r <> "" -> rstrip (x ++ r) = (x ++ r)%string.
Proof.
  intros Hr Hne. induction x as [|c x IH]; [exact Hr|]. simpl.
  rewrite IH. destruct (x ++ r)%string eqn:E; [|reflexivity].
  destruct x; [simpl in E; contradiction|discriminate].
Qed.

(** A suffix of a text without trailing whitespace has none either. *)
Lemma rstrip_drop_lead s : rstrip s = s -> rstrip (drop_lead s) = drop_lead s.
Proof.
  induction s as [|c s IH]; [reflexivity|]. intros H. cbn [drop_lead].
  destruct (is_lead c); [|exact H].
  apply IH. exact (VersionFacts.rstrip_fixed_tail _ _ H).
Qed.

(** A trimmed text that is not empty starts with something else than
    whitespace, and has no whitespace behind. *)
Lemma trimmed s :
  strip s = s -> s <> "" ->
  rstrip s = s /\ exists c t, s = String c t /\ is_space c = false.
Proof.
  unfold strip. intros H Hne. split.
  - rewrite <- H at 1. rewrite VersionFacts.rstrip_idempotent. exact H.
  - destruct (lstrip_head s) as [E|(c & t & E & Hc)].
    + rewrite E in H. simpl in H. congruence.
    + rewrite E, (rstrip_head _ _ Hc) in H. eauto.
Qed.

Lemma normalize_normalised s r :
  normalize_version (Some s) = Some r -> normalised s r.
Proof.
  unfold normalize_version. cbv zeta.
  destruct (is_empty (drop_lead (rstrip s))) eqn:He; [discriminate|].
  intros [= <-].
  destruct (rstrip_split s) as (trail & Hs & Htrail).
  destruct (drop_lead_split (rstrip s)) as (lead & Hr & Hlead).
  assert (Hfix : rstrip (drop_lead (rstrip s)) = drop_lead (rstrip s))
    by (apply rstrip_drop_lead, VersionFacts.rstrip_idempotent).
  destruct (drop_lead_head (rstrip s)) as [E|(c & t & E & Hc)];
    [rewrite E in He; discriminate|].
  destruct (not_lead c Hc) as (Hsp & Hv & HV).
  split; [|split; [|split]].
  - exists lead, trail. split; [|now split].
    rewrite Hs at 1. rewrite Hr at 1. now rewrite RegexFacts.append_assoc.
  - unfold strip. rewrite E, (lstrip_fixed _ _ Hsp), <- E. exact Hfix.
  - rewrite E. discriminate.
  - intros t'. rewrite E. split; intros [= Hc' _]; congruence.
Qed.

Lemma normalised_normalize s r :
  normalised s r -> normalize_version (Some s) = Some r.
Proof.
  intros ((lead & trail & -> & Hlead & Htrail) & Hstrip & Hne & Hv).
  destruct (trimmed r Hstrip Hne) as (Hr & c & t & -> & Hsp).
  assert (Hc : is_lead c = false).
  { unfold is_lead. rewrite Hsp. destruct (Hv t) as [H1 H2].
    destruct (Ascii.eqb_spec c "v") as [->|_]; [contradiction|].
    destruct (Ascii.eqb_spec c "V") as [->|_]; [contradiction|].
    reflexivity. }
  unfold normalize_version. cbv zeta.
  rewrite <- RegexFacts.append_assoc, (rstrip_append_spaces _ _ Htrail).
  rewrite (rstrip_append_fixed _ _ Hr Hne).
  rewrite (drop_lead_append _ _ Hlead). cbn [drop_lead]. now rewrite Hc.
Qed.

(** C4.  [normalize_version] is idempotent on every argument; it
    returns a text exactly when that text is the argument without
    surrounding whitespace and without [v]/[V] in front, and nothing
    exactly when the argument is missing or holds nothing else; so
    ["V1.2.3"] and ["v1.2.3"] both give ["1.2.3"]. *)
Theorem normalize_version_idempotent :
  (forall version,
     normalize_version (normalize_version version)
     = normalize_version version)
  /\ (forall s r, normalize_version (Some s) = Some r <-> normalised s r)
  /\ (forall s,
        normalize_version (Some s) = None <->
        all_chars (fun c => is_space c || Ascii.eqb c "v" || Ascii.eqb c "V")
                  s = true)
  /\ normalize_version None = None
  /\ normalize_version (Some "") = None
  /\ normalize_version (Some "   ") = None
  /\ normalize_version (Some "V1.2.3") = Some "1.2.3"
  /\ normalize_version (Some "v1.2.3") = Some "1.2.3".
Proof.
  split; [|split; [|split; [|repeat split; reflexivity]]].
  - intros [s|]; [|reflexivity].
    destruct (normalize_version (Some s)) as [r|] eqn:Hn; [|reflexivity].
    apply normalised_normalize.
    destruct (normalize_normalised s r Hn) as (_ & Hrest).
    split; [|exact Hrest]. exists "", "". simpl.
    split; [now rewrite RegexFacts.append_nil_r|now split].
  - intros s r. split; [apply normalize_normalised|apply normalised_normalize].
  - intros s. unfold normalize_version. cbv zeta.
    change (fun c => is_space c || Ascii.eqb c "v" || Ascii.eqb c "V")
      with is_lead.
    destruct (rstrip_split s) as (trail & Hs & Htrail).
    destruct (is_empty (drop_lead (rstrip s))) eqn:He.
    + split; [intros _|reflexivity].
      rewrite Hs, all_chars_append, (spaces_are_lead _ Htrail), andb_true_r.
      apply drop_lead_empty. now destruct (drop_lead (rstrip s)).
    + split; [discriminate|]. intros Hall.
      apply (IdentifierFacts.all_chars_rstrip is_lead) in Hall.
      apply drop_lead_empty in Hall. rewrite Hall in He. discriminate.
Qed.

(** *** The resolver *)

Lemma field_text_holds v k s : field_text v k = Some s <-> holds_text v k s.
Proof.
  unfold field_text, holds_text. split.
  - destruct v as [| | | | | |kvs]; try discriminate.
    destruct (dict_get k kvs) as [[| | | |t| |]|] eqn:E; try discriminate.
    intros [= <-]. eauto.
  - intros (kvs & -> & E). now rewrite E.
Qed.

Lemma result_text_nested e k s :
  result_text e k = Some s <-> nested_text e k s.
Proof.
  unfold result_text, nested_text, field. split.
  - destruct e as [| | | | | |kvs]; try discriminate.
    destruct (dict_get "result" kvs) as [r|] eqn:E; [|discriminate].
    intros H. exists kvs, r. repeat split; auto.
    now apply field_text_holds.
  - intros (kvs & r & -> & E & H). rewrite E. now apply field_text_holds.
Qed.

Lemma entry_text_gives e k s : entry_text e k = Some s <-> gives_text e k s.
Proof.
  unfold entry_text, gives_text. split.
  - destruct (field_text e k) as [t|] eqn:E.
    + intros [= <-]. left. now apply field_text_holds.
    + intros H. right. split; [|now apply result_text_nested].
      intros s' Hs'. apply field_text_holds in Hs'. congruence.
  - intros [H|[Hno H]].
    + apply field_text_holds in H. now rewrite H.
    + destruct (field_text e k) as [t|] eqn:E.
      * apply field_text_holds in E. now destruct (Hno t).
      * now apply result_text_nested.
Qed.

Lemma names_config_file_structured source :
  names_config_file source = true <-> structured source.
Proof.
  unfold names_config_file, structured, config_files.
  rewrite existsb_exists. reflexivity.
Qed.

Lemma from_structured_metadata_version e source version :
  entry_source e = Some source /\ entry_value e = Some version
  /\ from_structured_metadata e = true
  <-> version_from source version e.
Proof.
  unfold version_from, from_structured_metadata, entry_source, entry_value.
  rewrite <- entry_text_gives, <- result_text_nested,
    <- names_config_file_structured.
  split.
  - intros (Hs & Hv & H). rewrite Hs, Hv in H. auto.
  - intros (Hs & H & Hv). rewrite Hs, Hv. auto.
Qed.

Lemma from_structured_metadata_versioned e :
  from_structured_metadata e = true <-> versioned e.
Proof.
  unfold versioned. split.
  - intros H. assert (H' := H). unfold from_structured_metadata in H'.
    destruct (entry_source e) as [source|] eqn:Hs; [|discriminate].
    destruct (entry_value e) as [version|] eqn:Hv; [|discriminate].
    exists source, version. now apply from_structured_metadata_version.
  - intros (source & version & H).
    now apply from_structured_metadata_version in H.
Qed.

Lemma has_tag_released e : has_tag e = true <-> released e.
Proof.
  unfold has_tag, released, tagged, release_tag. split.
  - destruct (entry_text e "tag") as [t|] eqn:E; [|discriminate].
    intros _. exists t. now apply entry_text_gives.
  - intros (t & H). apply entry_text_gives in H. now rewrite H.
Qed.

Lemma find_split (p : pyval -> bool) es e :
  find p es = Some e <->
  exists before after,
    es = (before ++ e :: after)%list /\ p e = true
    /\ forall x, In x before -> p x = false.
Proof.
  split.
  - induction es as [|x es IH]; [discriminate|]. simpl.
    destruct (p x) eqn:Hx.
    + intros [= <-]. exists [], es. repeat split; auto. intros ? [].
    + intros H. destruct (IH H) as (before & after & -> & He & Hb).
      exists (x :: before), after. repeat split; auto.
      intros y [<-|Hy]; auto.
  - intros (before & after & -> & He & Hb).
    induction before as [|x before IH]; simpl.
    + now rewrite He.
    + rewrite (Hb x (or_introl eq_refl)). apply IH.
      intros y Hy. apply Hb. now right.
Qed.

(** The resolver returns the first entry that satisfies the predicate. *)
Lemma find_entry_first (p : pyval -> bool) (P : pyval -> Prop) :
  (forall e, p e = true <-> P e) ->
  forall record attribute e,
    find_entry record attribute p = Some e <-> first_of P record attribute e.
Proof.
  intros Hp record attribute e. unfold find_entry, first_of. split.
  - destruct (dict_get attribute record) as [[| | | | |es|]|];
      try discriminate.
    intros H. apply find_split in H as (before & after & -> & He & Hb).
    exists before, after. split; [reflexivity|]. split; [now apply Hp|].
    intros x Hx HP. apply Hp in HP. rewrite (Hb x Hx) in HP. discriminate.
  - intros (before & after & -> & He & Hb). apply find_split.
    exists before, after. split; [reflexivity|]. split; [now apply Hp|].
    intros x Hx. destruct (p x) eqn:E; [|reflexivity].
    apply Hp in E. now destruct (Hb x Hx).
Qed.

Lemma find_entry_none (p : pyval -> bool) (P : pyval -> Prop) :
  (forall e, p e = true <-> P e) ->
  forall record attribute,
    (forall e, ~ first_of P record attribute e) ->
    find_entry record attribute p = None.
Proof.
  intros Hp record attribute Hno.
  destruct (find_entry record attribute p) as [e|] eqn:E; [|reflexivity].
  apply (find_entry_first p P Hp) in E. now destruct (Hno e).
Qed.

Lemma extract_version_first record source version :
  extract_version_from_metadata record = Some (source, version) <->
  exists e, first_of versioned record "version" e
            /\ version_from source version e.
Proof.
  unfold extract_version_from_metadata. split.
  - destruct (find_entry record "version" from_structured_metadata)
      as [e|] eqn:E; [|discriminate].
    assert (Hp : from_structured_metadata e = true).
    { unfold find_entry in E.
      destruct (dict_get "version" record) as [[| | | | |es|]|];
        try discriminate.
      now apply find_some in E. }
    apply (find_entry_first _ _ from_structured_metadata_versioned) in E.
    destruct (entry_source e) as [s|] eqn:Hs; [|discriminate].
    destruct (entry_value e) as [v|] eqn:Hv; [|discriminate].
    intros [= <- <-]. exists e. split; [exact E|].
    now apply from_structured_metadata_version.
  - intros (e & E & H).
    apply (find_entry_first _ _ from_structured_metadata_versioned) in E.
    apply from_structured_metadata_version in H as (Hs & Hv & _).
    now rewrite E, Hs, Hv.
Qed.

Lemma extract_release_first record tag :
  extract_latest_release_version record = Some tag <->
  exists e, first_of released record "releases" e /\ tagged tag e.
Proof.
  unfold extract_latest_release_version, tagged, release_tag. split.
  - destruct (find_entry record "releases" has_tag) as [e|] eqn:E;
      [|discriminate].
    apply (find_entry_first _ _ has_tag_released) in E.
    intros H. exists e. split; [exact E|]. now apply entry_text_gives.
  - intros (e & E & H).
    apply (find_entry_first _ _ has_tag_released) in E.
    apply entry_text_gives in H. now rewrite E.
Qed.

Lemma normalised_nonempty s r : normalised s r -> nonempty r = true.
Proof. intros (_ & _ & Hne & _). now destruct r. Qed.

(** The finding once both values are resolved and normalised. *)
Lemma resolved_finding record name ev source version et tag m r :
  first_of versioned record "version" ev ->
  version_from source version ev ->
  first_of released record "releases" et ->
  tagged tag et ->
  normalised version m -> normalised tag r ->
  detect_version_mismatch record name
  = mkVersionFinding (negb (String.eqb m r)) name (Some m) (Some r)
                     (if String.eqb m r then None else Some source).
Proof.
  intros Hev Hv Het Ht Hm Hr. unfold detect_version_mismatch.
  assert (E1 : extract_version_from_metadata record = Some (source, version))
    by (apply extract_version_first; eauto).
  assert (E2 : extract_latest_release_version record = Some tag)
    by (apply extract_release_first; eauto).
  rewrite E1, E2. cbv zeta.
  rewrite (normalised_normalize _ _ Hm), (normalised_normalize _ _ Hr).
  unfold versions_differ.
  rewrite (normalised_nonempty _ _ Hm), (normalised_nonempty _ _ Hr).
  cbn [andb]. now destruct (String.eqb m r).
Qed.

(** C5.  The version-mismatch rule reports an issue exactly when the
    first version entry from a structured-metadata file and the first
    release that carries a tag both exist and their values, without
    surrounding whitespace and a leading [v]/[V], are non-empty and
    differ; the finding then holds the two normalised values.  Without
    either entry nothing is reported.  The records of the test-suite
    behave so: version ["1.2.3"] and tag ["v2.0.0"] are reported with
    ["1.2.3"] and ["2.0.0"]. *)
Theorem version_mismatch_iff (record : dict) (name : string) :
  (has_pitfall (detect_version_mismatch record name) = true <->
   exists ev source version et tag m r,
     first_of versioned record "version" ev
     /\ version_from source version ev
     /\ first_of released record "releases" et
     /\ tagged tag et
     /\ normalised version m /\ normalised tag r /\ m <> r)
  /\ (forall ev source version et tag m r,
        first_of versioned record "version" ev ->
        version_from source version ev ->
        first_of released record "releases" et ->
        tagged tag et ->
        normalised version m -> normalised tag r ->
        detect_version_mismatch record name
        = mkVersionFinding (negb (String.eqb m r)) name (Some m) (Some r)
                           (if String.eqb m r then None else Some source))
  /\ ((forall e, ~ first_of versioned record "version" e)
      \/ (forall e, ~ first_of released record "releases" e) ->
      detect_version_mismatch record name
      = mkVersionFinding false name None None None)
  /\ detect_version_mismatch Suite.mismatch_record name
     = mkVersionFinding true name (Some "1.2.3") (Some "2.0.0")
                        (Some "repo/package.json")
  /\ detect_version_mismatch Suite.matching_record name
     = mkVersionFinding false name (Some "1.0.0") (Some "1.0.0") None
  /\ detect_version_mismatch Suite.release_only_record name
     = mkVersionFinding false name None None None
  /\ detect_version_mismatch Suite.version_only_record name
     = mkVersionFinding false name None None None.
Proof.
  split; [split|split; [|split; [|repeat split; reflexivity]]].
  - unfold detect_version_mismatch.
    destruct (extract_version_from_metadata record) as [[source version]|]
      eqn:E1; [|discriminate].
    destruct (extract_latest_release_version record) as [tag|] eqn:E2;
      [|discriminate].
    cbn [has_pitfall]. unfold versions_differ.
    destruct (normalize_version (Some version)) as [m|] eqn:Hm;
      [|discriminate].
    destruct (normalize_version (Some tag)) as [r|] eqn:Hr; [|discriminate].
    intros H. apply andb_prop in H as [_ Hd].
    apply extract_version_first in E1 as (ev & Hev & Hv).
    apply extract_release_first in E2 as (et & Het & Ht).
    exists ev, source, version, et, tag, m, r.
    do 4 (split; [assumption|]).
    split; [now apply normalize_normalised|].
    split; [now apply normalize_normalised|].
    intros ->. rewrite String.eqb_refl in Hd. discriminate.
  - intros (ev & source & version & et & tag & m & r
            & Hev & Hv & Het & Ht & Hm & Hr & Hd).
    rewrite (resolved_finding record name _ _ _ _ _ _ _
               Hev Hv Het Ht Hm Hr).
    cbn [has_pitfall]. apply String.eqb_neq in Hd. now rewrite Hd.
  - intros ev source version et tag m r. apply resolved_finding.
  - unfold detect_version_mismatch. intros [Hno|Hno].
    + assert (E : extract_version_from_metadata record = None).
      { unfold extract_version_from_metadata.
        now rewrite (find_entry_none _ _ from_structured_metadata_versioned
                       record "version" Hno). }
      now rewrite E.
    + assert (E : extract_latest_release_version record = None).
      { unfold extract_latest_release_version.
        now rewrite (find_entry_none _ _ has_tag_released
                       record "releases" Hno). }
      rewrite E.
      now destruct (extract_version_from_metadata record) as [[? ?]|].
Qed.

Lemma normalize_version_idempotent_witness :
  normalised "  v1.2.3  " "1.2.3"
  /\ normalize_version (Some "  v1.2.3  ") = Some "1.2.3"
  /\ normalize_version (normalize_version (Some "  v1.2.3  "))
     = normalize_version (Some "  v1.2.3  ").
Proof.
  destruct normalize_version_idempotent as (Hidem & Hiff & _).
  assert (Hn : normalised "  v1.2.3  " "1.2.3").
  { split; [exists "  v", "  "; repeat split|].
    split; [reflexivity|]. split; [discriminate|].
    intros t. split; discriminate. }
  split; [exact Hn|]. split; [now apply Hiff|apply Hidem].
Defined.

Lemma version_mismatch_iff_witness :
  has_pitfall (detect_version_mismatch Suite.mismatch_record "test_repo.json")
  = true.
Proof.
  destruct (version_mismatch_iff Suite.mismatch_record "test_repo.json")
    as ((_ & Hissue) & _).
  apply Hissue.
  set (ev := PyDict [("source", PyStr "repo/package.json");
                     ("result", PyDict [("value", PyStr "1.2.3")])]).
  set (et := PyDict [("tag", PyStr "v2.0.0")]).
  assert (Hv : version_from "repo/package.json" "1.2.3" ev).
  { split; [left; eexists; split; reflexivity|]. split.
    - exists "package.json". split; [simpl; tauto|reflexivity].
    - eexists _, _. split; [reflexivity|]. split; [reflexivity|].
      eexists. split; reflexivity. }
  assert (Ht : tagged "v2.0.0" et)
    by (left; eexists; split; reflexivity).
  exists ev, "repo/package.json"%string, "1.2.3"%string, et,
         "v2.0.0"%string, "1.2.3"%string, "2.0.0"%string.
  split.
  { exists [], []. split; [reflexivity|]. split; [|intros e []].
    now exists "repo/package.json"%string, "1.2.3"%string. }
  split; [exact Hv|]. split.
  { exists [], []. split; [reflexivity|]. split; [|intros e []].
    now exists "v2.0.0"%string. }
  split; [exact Ht|]. split.
  { split; [exists "", ""; repeat split|].
    split; [reflexivity|]. split; [discriminate|].
    intros t. split; discriminate. }
  split; [|discriminate].
  split; [exists "v", ""; repeat split|].
  split; [reflexivity|]. split; [discriminate|].
  intros t. split; discriminate.
Defined.

End VersionRule.

(** ** The divergent-repository rule *)
Module RepositoryRule.
Import PyString Py Versions P016 Wording TextFacts.
Import VersionRule.

Lemma from_api_answer e api :
  from_api e = true /\ entry_value e = Some api <-> api_answer api e.
Proof.
  unfold from_api, api_answer, entry_value.
  rewrite <- result_text_nested, <- field_text_holds. split.
  - intros [H Hv]. rewrite Hv in H.
    destruct (field_text e "technique") as [t|]; [|discriminate].
    apply String.eqb_eq in H as ->. auto.
  - intros [Ht Hv]. now rewrite Ht, Hv.
Qed.

Lemma from_api_answered e : from_api e = true <-> answered e.
Proof.
  unfold answered. split.
  - intros H. assert (H' := H). unfold from_api in H'.
    destruct (field_text e "technique"); [|discriminate].
    destruct (entry_value e) as [api|] eqn:Hv; [|discriminate].
    exists api. now apply from_api_answer.
  - intros (api & H). now apply from_api_answer in H.
Qed.

Lemma api_url_first record api :
  api_url record = Some api <->
  exists e, first_of answered record "code_repository" e
            /\ api_answer api e.
Proof.
  unfold api_url. split.
  - destruct (find_entry record "code_repository" from_api) as [e|] eqn:E;
      [|discriminate].
    assert (Hp : from_api e = true).
    { unfold find_entry in E.
      destruct (dict_get "code_repository" record) as [[| | | | |es|]|];
        try discriminate.
      now apply find_some in E. }
    apply (find_entry_first _ _ from_api_answered) in E.
    intros Hv. exists e. split; [exact E|]. now apply from_api_answer.
  - intros (e & E & H).
    apply (find_entry_first _ _ from_api_answered) in E.
    apply from_api_answer in H as [_ Hv]. now rewrite E.
Qed.

Lemma from_codemeta_descriptor e url :
  from_codemeta e = true /\ entry_value e = Some url <-> descriptor_url url e.
Proof.
  unfold from_codemeta, descriptor_url, entry_value. split.
  - intros [H Hv]. rewrite Hv in H.
    destruct (field_text e "source") as [s|] eqn:Hs; [|discriminate].
    exists s. split; [now apply field_text_holds|].
    split; [exact H|now apply result_text_nested].
  - intros (s & Hs & Hc & Hv).
    apply field_text_holds in Hs. apply result_text_nested in Hv.
    now rewrite Hs, Hv.
Qed.

Lemma values_of_In url es :
  In url (values_of es) <-> exists e, In e es /\ entry_value e = Some url.
Proof.
  induction es as [|x es IH]; simpl.
  - split; [intros []|intros (e & [] & _)].
  - destruct (entry_value x) as [u|] eqn:Hx; simpl; rewrite IH; split.
    + intros [<-|(e & He & Hv)]; eauto.
    + intros (e & [<-|He] & Hv); [left; congruence|eauto].
    + intros (e & He & Hv). eauto.
    + intros (e & [<-|He] & Hv); [congruence|eauto].
Qed.

Lemma metadata_urls_In record url :
  In url (metadata_urls record) <->
  some_of (descriptor_url url) record "code_repository".
Proof.
  unfold metadata_urls, urls_from, entries_of, some_of.
  rewrite values_of_In. split.
  - intros (e & He & Hv). apply filter_In in He as [He Hc].
    destruct (dict_get "code_repository" record) as [[| | | | |es|]|];
      try destruct He.
    exists es, e. split; [reflexivity|]. split; [exact He|].
    now apply from_codemeta_descriptor.
  - intros (es & e & -> & He & Hd).
    apply from_codemeta_descriptor in Hd as [Hc Hv].
    exists e. split; [|exact Hv]. apply filter_In. now split.
Qed.

Lemma diverges_differs api url :
  diverges api url = true <->
  normalize_repository_url (Some url) <> normalize_repository_url (Some api).
Proof.
  unfold diverges. rewrite negb_true_iff. apply String.eqb_neq.
Qed.

Lemma different_urls_filter api urls name :
  different_urls (compare_with_api (Some api) urls name)
  = filter (diverges api) urls.
Proof.
  unfold compare_with_api. now destruct (filter (diverges api) urls).
Qed.

(** *** The steps of the normalisation *)

Lemma lower_append a b : lower (a ++ b) = (lower a ++ lower b)%string.
Proof. induction a as [|c a IH]; simpl; congruence. Qed.

Lemma substring_all s : substring 0 (String.length s) s = s.
Proof. induction s as [|c s IH]; simpl; congruence. Qed.

Lemma lower_char_colon c : Ascii.eqb (lower_char c) ":" = Ascii.eqb c ":".
Proof. all_ascii c; reflexivity. Qed.

Lemma has_colon_lower s : has_char ":" (lower s) = has_char ":" s.
Proof.
  induction s as [|c s IH]; [reflexivity|]. simpl.
  now rewrite lower_char_colon, IH.
Qed.

Lemma colon_to_slash_append host path :
  has_char ":" host = false ->
  colon_to_slash (host ++ String ":" path) = (host ++ String "/" path)%string.
Proof.
  induction host as [|c host IH]; [reflexivity|]. simpl. intros H.
  apply orb_false_elim in H as [Hc H]. now rewrite Hc, IH.
Qed.

Lemma normalize_ignores_case u :
  normalize_repository_url (Some (lower u))
  = normalize_repository_url (Some u).
Proof. unfold normalize_repository_url. now rewrite lower_idempotent. Qed.

Lemma prefix_append p s : String.prefix p (p ++ s) = true.
Proof.
  induction p as [|c p IH]; [now destruct s|]. simpl.
  now destruct (ascii_dec c c).
Qed.

Lemma drop_prefix_append p s : drop_prefix p (p ++ s) = s.
Proof.
  unfold drop_prefix. rewrite prefix_append.
  induction p as [|c p IH]; simpl.
  - rewrite Nat.sub_0_r. apply substring_all.
  - exact IH.
Qed.

Lemma normalize_strips_git_plus u :
  String.prefix "git+" (lower u) = false ->
  normalize_repository_url (Some ("git+" ++ u))
  = normalize_repository_url (Some u).
Proof.
  intros H. unfold normalize_repository_url. do 3 f_equal.
  unfold drop_prefix at 2. rewrite H.
  change (lower ("git+" ++ u)) with ("git+" ++ lower u)%string.
  apply drop_prefix_append.
Qed.

Lemma normalize_rewrites_ssh host path :
  has_char ":" host = false ->
  normalize_repository_url (Some ("git@" ++ host ++ ":" ++ path))
  = normalize_repository_url (Some ("https://" ++ host ++ "/" ++ path)).
Proof.
  intros H. unfold normalize_repository_url. do 2 f_equal.
  set (h := lower host). set (p := lower path).
  assert (Hh : has_char ":" h = false)
    by (unfold h; now rewrite has_colon_lower).
  assert (E1 : lower ("git@" ++ host ++ ":" ++ path)
               = ("git@" ++ (h ++ String ":" p))%string)
    by (simpl; now rewrite lower_append).
  assert (E2 : lower ("https://" ++ host ++ "/" ++ path)
               = ("https://" ++ (h ++ String "/" p))%string)
    by (simpl; now rewrite lower_append).
  rewrite E1, E2. clearbody h p.
  assert (D1 : drop_prefix "git+" ("git@" ++ (h ++ String ":" p))
               = ("git@" ++ (h ++ String ":" p))%string) by reflexivity.
  assert (D2 : drop_prefix "git+" ("https://" ++ (h ++ String "/" p))
               = ("https://" ++ (h ++ String "/" p))%string) by reflexivity.
  assert (S2 : ssh_to_https ("https://" ++ (h ++ String "/" p))
               = ("https://" ++ (h ++ String "/" p))%string) by reflexivity.
  rewrite D1, D2, S2. unfold ssh_to_https.
  rewrite prefix_append, drop_prefix_append.
  now rewrite colon_to_slash_append.
Qed.

Lemma length_append s p :
  String.length (s ++ p) = (String.length s + String.length p)%nat.
Proof. induction s as [|c s IH]; simpl; congruence. Qed.

Lemma substring_append s p : substring 0 (String.length s) (s ++ p) = s.
Proof. induction s as [|c s IH]; simpl; [now destruct p|congruence]. Qed.

Lemma endswith_append p s : endswith p (s ++ p) = true.
Proof.
  induction s as [|c s IH]; simpl.
  - destruct p; simpl; [reflexivity|].
    now rewrite Ascii.eqb_refl, String.eqb_refl.
  - rewrite IH. apply orb_true_r.
Qed.

Lemma drop_suffix_append p s : drop_suffix p (s ++ p) = s.
Proof.
  unfold drop_suffix. rewrite endswith_append, length_append.
  replace (String.length p <=? String.length s + String.length p)%nat
    with true by (symmetry; apply Nat.leb_le; lia).
  cbn [andb].
  replace (String.length s + String.length p - String.length p)%nat
    with (String.length s) by lia.
  apply substring_append.
Qed.

Lemma endswith_slash_git s : endswith "/" (s ++ ".git") = false.
Proof.
  induction s as [|c s IH]; [reflexivity|].
  cbn [append endswith]. rewrite IH, orb_false_r.
  cbn [String.eqb]. destruct (Ascii.eqb "/" c); [|reflexivity].
  now destruct s.
Qed.

Lemma drop_suffix_absent p s : endswith p s = false -> drop_suffix p s = s.
Proof. unfold drop_suffix. now intros ->. Qed.

(** On a lower-case [http] URL that ends in neither, a trailing slash
    and a [.git] suffix are all that normalisation removes. *)
Lemma normalize_strips_suffixes y :
  lower y = y ->
  endswith "/" ("http" ++ y) = false ->
  endswith ".git" ("http" ++ y) = false ->
  normalize_repository_url (Some ("http" ++ y)) = ("http" ++ y)%string
  /\ normalize_repository_url (Some ("http" ++ y ++ "/"))
     = ("http" ++ y)%string
  /\ normalize_repository_url (Some ("http" ++ y ++ ".git"))
     = ("http" ++ y)%string
  /\ normalize_repository_url (Some ("http" ++ y ++ ".git/"))
     = ("http" ++ y)%string.
Proof.
  intros Hlow Hslash Hgit.
  assert (Hpre : forall sfx,
             lower sfx = sfx ->
             normalize_repository_url (Some ("http" ++ y ++ sfx))
             = drop_suffix ".git" (drop_suffix "/" (("http" ++ y) ++ sfx))).
  { intros sfx Hsfx. unfold normalize_repository_url.
    assert (E : lower ("http" ++ y ++ sfx) = ("http" ++ y ++ sfx)%string)
      by (simpl; now rewrite lower_append, Hlow, Hsfx).
    rewrite E. reflexivity. }
  split; [|split; [|split]].
  - specialize (Hpre "" eq_refl).
    rewrite !RegexFacts.append_nil_r in Hpre. rewrite Hpre.
    now rewrite (drop_suffix_absent _ _ Hslash), (drop_suffix_absent _ _ Hgit).
  - rewrite (Hpre "/" eq_refl), drop_suffix_append.
    now apply drop_suffix_absent.
  - rewrite (Hpre ".git" eq_refl).
    rewrite (drop_suffix_absent "/"); [apply drop_suffix_append|].
    apply endswith_slash_git.
  - rewrite (Hpre ".git/" eq_refl).
    change ".git/" with (".git" ++ "/")%string.
    rewrite <- RegexFacts.append_assoc, drop_suffix_append.
    apply drop_suffix_append.
Qed.

(** C6, as the test-suite has it.  The rule reports an issue exactly
    when the API gives a repository URL and some repository URL of the
    canonical descriptor differs from it after normalisation; the
    finding lists every descriptor URL that differs; the normalisation
    ignores letter case, a [git+] prefix, the SSH form, a trailing
    slash and a [.git] suffix, as the rows of the test-suite show; a
    URL that only another metadata file gives is not compared. *)
Theorem different_repository_iff (record : dict) (name : string) :
  let finding := detect_different_repository_pitfall record name in
  (has_pitfall finding = true <->
   exists ea api url,
     first_of answered record "code_repository" ea
     /\ api_answer api ea
     /\ some_of (descriptor_url url) record "code_repository"
     /\ normalize_repository_url (Some url)
        <> normalize_repository_url (Some api))
  /\ (forall ea api,
        first_of answered record "code_repository" ea ->
        api_answer api ea ->
        forall url,
          In url (different_urls finding) <->
          some_of (descriptor_url url) record "code_repository"
          /\ normalize_repository_url (Some url)
             <> normalize_repository_url (Some api))
  /\ forallb (Suite.test_url_normalization normalize_repository_url)
             Suite.url_rows = true
  /\ (forall u,
        normalize_repository_url (Some (lower u))
        = normalize_repository_url (Some u))
  /\ (forall u,
        String.prefix "git+" (lower u) = false ->
        normalize_repository_url (Some ("git+" ++ u))
        = normalize_repository_url (Some u))
  /\ (forall host path,
        has_char ":" host = false ->
        normalize_repository_url (Some ("git@" ++ host ++ ":" ++ path))
        = normalize_repository_url (Some ("https://" ++ host ++ "/" ++ path)))
  /\ (forall y,
        lower y = y ->
        endswith "/" ("http" ++ y) = false ->
        endswith ".git" ("http" ++ y) = false ->
        normalize_repository_url (Some ("http" ++ y)) = ("http" ++ y)%string
        /\ normalize_repository_url (Some ("http" ++ y ++ "/"))
           = ("http" ++ y)%string
        /\ normalize_repository_url (Some ("http" ++ y ++ ".git"))
           = ("http" ++ y)%string
        /\ normalize_repository_url (Some ("http" ++ y ++ ".git/"))
           = ("http" ++ y)%string)
  /\ detect_different_repository_pitfall Suite.two_url_record name
     = mkRepositoryFinding true name (Some "https://github.com/user/repo1")
                           ["https://github.com/user/repo2"]
  /\ detect_different_repository_pitfall Suite.three_url_record name
     = mkRepositoryFinding true name (Some "https://github.com/user/repo1")
                           ["https://github.com/user/repo2";
                            "https://github.com/user/repo3"]
  /\ detect_different_repository_pitfall Suite.git_suffix_record name
     = mkRepositoryFinding false name None []
  /\ detect_different_repository_pitfall Suite.package_json_record name
     = mkRepositoryFinding false name None [].
Proof.
  cbv zeta.
  split; [split|split;
    [|split; [reflexivity|split; [exact normalize_ignores_case|
      split; [exact normalize_strips_git_plus|
        split; [exact normalize_rewrites_ssh|
          split; [exact normalize_strips_suffixes|
            repeat split; reflexivity]]]]]]].
  - unfold detect_different_repository_pitfall, compare_with_api.
    destruct (api_url record) as [api|] eqn:Hapi; [|discriminate].
    destruct (filter (diverges api) (metadata_urls record)) as [|url us]
      eqn:Hf; [discriminate|].
    intros _.
    assert (Hin : In url (filter (diverges api) (metadata_urls record)))
      by (rewrite Hf; now left).
    apply filter_In in Hin as [Hin Hd].
    apply api_url_first in Hapi as (ea & Hea & Ha).
    exists ea, api, url. do 2 (split; [assumption|]).
    split; [now apply metadata_urls_In|now apply diverges_differs].
  - intros (ea & api & url & Hea & Ha & Hsome & Hd).
    unfold detect_different_repository_pitfall, compare_with_api.
    assert (Hapi : api_url record = Some api)
      by (apply api_url_first; eauto).
    rewrite Hapi.
    assert (Hin : In url (filter (diverges api) (metadata_urls record))).
    { apply filter_In. split; [now apply metadata_urls_In|].
      now apply diverges_differs. }
    destruct (filter (diverges api) (metadata_urls record));
      [destruct Hin|reflexivity].
  - intros ea api Hea Ha url.
    assert (Hapi : api_url record = Some api)
      by (apply api_url_first; eauto).
    unfold detect_different_repository_pitfall.
    rewrite Hapi, different_urls_filter, filter_In, metadata_urls_In.
    now rewrite diverges_differs.
Qed.

Lemma different_repository_iff_witness :
  has_pitfall (detect_different_repository_pitfall Suite.two_url_record
                                                   "test_repo.json") = true.
Proof.
  destruct (different_repository_iff Suite.two_url_record "test_repo.json")
    as ((_ & Hissue) & _).
  apply Hissue.
  set (ea := Suite.repository_entry "GitHub_API" "GitHub_API"
                                    "https://github.com/user/repo1").
  set (ed := Suite.repository_entry "repository/codemeta.json" "code_parser"
                                    "https://github.com/user/repo2").
  assert (Ha : api_answer "https://github.com/user/repo1" ea).
  { split; [eexists; split; reflexivity|].
    eexists _, _. split; [reflexivity|]. split; [reflexivity|].
    eexists. split; reflexivity. }
  exists ea, "https://github.com/user/repo1"%string,
         "https://github.com/user/repo2"%string.
  split.
  { exists [], [ed]. split; [reflexivity|]. split; [|intros e []].
    now exists "https://github.com/user/repo1"%string. }
  split; [exact Ha|]. split; [|discriminate].
  exists [ea; ed], ed. split; [reflexivity|]. split; [right; now left|].
  exists "repository/codemeta.json"%string.
  split; [eexists; split; reflexivity|]. split; [reflexivity|].
  eexists _, _. split; [reflexivity|]. split; [reflexivity|].
  eexists. split; reflexivity.
Defined.

(** C6 fails as stated: on the record of
    [test_non_codemeta_metadata_ignored], whose [package.json] entry
    gives another URL than the API, the rule as the claim words it
    reports an issue and so fails the test, which asserts that none is
    reported; the rule that compares the descriptor's URLs only
    passes it. *)
Lemma package_json_url_not_compared :
  has_pitfall (detect_as_worded Suite.package_json_record "test.json") = true
  /\ Suite.test_non_codemeta_metadata_ignored detect_as_worded = false
  /\ Suite.test_non_codemeta_metadata_ignored
       detect_different_repository_pitfall = true.
Proof. repeat split; reflexivity. Qed.

End RepositoryRule.

(** ** The accessibility prober *)
Module ProberRule.
Import Prober.






End ProberRule.
